(** * Healthcare supply chain API: the mock store and the ledger service

    A shallow embedding of [backend/models.py], [backend/main.py] (the
    FastAPI routes over the in-memory "blockchain" data) and
    [backend/blockchain_service.py] (the web3 client), followed by the
    properties of the specification that were checked against them.

    Python integers are [Z]; strings are [string]; a [dict] with a fixed
    set of keys is a record, the three [Dict[int, list]] tables are
    [gmap Z (list _)]; a raised exception is the left injection of a sum. *)

From Stdlib Require Import ZArith List String Ascii Lia Bool.
From Stdlib Require Import DecimalString HexadecimalString.
From stdpp Require Import base option list gmap strings pretty.

Open Scope string_scope.
Open Scope Z_scope.

(** ** Python values and exceptions *)

(** Classes of the exceptions that the two modules raise themselves or
    let escape from the operations they call. *)
Inductive exc_class :=
| Exception
| IndexError
| KeyError
| ValueError
| AttributeError
| TypeError
| OverflowError
| OSError
| Web3Exception.

(** An exception in flight: FastAPI's [HTTPException(status_code, detail)]
    or any other exception with its class and message.  [HTTPException]
    derives from [Exception], so an [except Exception] clause catches
    both. *)
Inductive exn :=
| HTTPException (status_code : Z) (detail : string)
| PyExc (cls : exc_class) (msg : string).

(** A computation that either raises or returns. *)
Definition result (A : Type) : Type := exn + A.

Definition raise {A} (e : exn) : result A := inl e.
Definition ok {A} (a : A) : result A := inr a.

(** [str(e)]: Starlette's [HTTPException.__str__] gives
    ["{status_code}: {detail}"]; other exceptions give their message. *)
Definition str_exn (e : exn) : string :=
  match e with
  | HTTPException sc d => pretty sc +:+ ": " +:+ d
  | PyExc _ msg => msg
  end.

(** [try: body  except Exception as e: raise handler(e)] *)
Definition try_except {A} (body : result A) (handler : exn -> exn) : result A :=
  match body with
  | inl e => inl (handler e)
  | inr a => inr a
  end.

(** Sequencing of computations that may raise. *)
Definition and_then {A B} (c : result A) (k : A -> result B) : result B :=
  match c with
  | inl e => inl e
  | inr a => k a
  end.

Notation "x <~ c ;; k" := (and_then c (fun x => k))
  (at level 100, c at next level, right associativity).

(** [status_code] of a response: 200 for a returned value, the
    exception's own code for an [HTTPException]; FastAPI answers 500 to
    any other exception that escapes a route. *)
Definition http_status {A} (r : result A) : Z :=
  match r with
  | inr _ => 200
  | inl (HTTPException sc _) => sc
  | inl (PyExc _ _) => 500
  end.

(** A value as a contract call hands it over: web3 decodes each output
    of the ABI to an [int], a [str] (also used for addresses) or a
    [bool]. *)
Inductive pyval :=
| PyInt (n : Z)
| PyStr (s : string)
| PyBool (b : bool).

(** A value as [json.load] hands it over.  A [float] is held by its
    [repr], which determines it; a [dict] by its items, one per key. *)
#[local] Set Warnings "-register-all".

Inductive json :=
| JNull
| JBool (b : bool)
| JInt (n : Z)
| JFloat (repr : string)
| JStr (s : string)
| JList (l : list json)
| JDict (items : list (string * json)).

(** The truth value of a JSON value, as in [if not self.deployment_info]:
    [None], [False], zero, and the empty string, list and dict are
    falsy. *)
Definition truthy (v : json) : bool :=
  match v with
  | JNull => false
  | JBool b => b
  | JInt n => negb (n =? 0)
  | JFloat repr => negb (String.eqb repr "0.0" || String.eqb repr "-0.0")
  | JStr s => negb (String.eqb s "")
  | JList l => match l with [] => false | _ => true end
  | JDict items => match items with [] => false | _ => true end
  end.

(** A failure that the interpreter's library reports in words of its
    own, which differ from one version to the next: a value that is not
    the value of a member of an enumeration, a name on the class of an
    enumeration that gives no member with a [value], and a string
    subscript on a value that is no dict. *)
Inductive fault :=
| not_a_member (enum : string) (value : pyval)
| no_value_attribute (enum : string) (name : string)
| not_a_dict (v : json).

(** [x or default] on an optional string: [None] and [""] are falsy. *)
Definition str_or (x : option string) (default : string) : string :=
  match x with
  | Some s => if String.eqb s "" then default else s
  | None => default
  end.

(** Truth value of an optional string, as in [if transfer.recipientName:]. *)
Definition str_truthy (x : option string) : bool :=
  match x with
  | Some s => negb (String.eqb s "")
  | None => false
  end.

(** [dict.get(key, default)] on a dictionary literal with string keys. *)
Fixpoint dict_get (d : list (string * string)) (key default : string) : string :=
  match d with
  | [] => default
  | (k, v) :: d' => if String.eqb k key then v else dict_get d' key default
  end.

(** *** Format specifications *)

Definition zfill (width : nat) (digits : string) : string :=
  string_of_list_ascii (repeat "0"%char (width - String.length digits)) +:+ digits.

(** [format(n, "0{width}{x|d}")]: sign-aware zero padding. *)
Definition format_int (digits : N -> string) (width : nat) (n : Z) : string :=
  if n <? 0
  then "-" +:+ zfill (width - 1) (digits (Z.abs_N n))
  else zfill width (digits (Z.to_N n)).

Definition hex_digits (n : N) : string :=
  HexadecimalString.NilZero.string_of_uint (N.to_hex_uint n).

Definition dec_digits (n : N) : string :=
  DecimalString.NilZero.string_of_uint (N.to_uint n).

(** [f"{n:040x}"] *)
Definition format_040x (n : Z) : string := format_int hex_digits 40 n.

(** [f"{n:05d}"] *)
Definition format_05d (n : Z) : string := format_int dec_digits 5 n.

(** ** [models.py] *)

Inductive MedicineStatus :=
| MANUFACTURED
| SHIPPED_TO_DISTRIBUTOR
| RECEIVED_BY_DISTRIBUTOR
| SHIPPED_TO_PHARMACY
| RECEIVED_BY_PHARMACY
| SOLD_TO_PATIENT
| EXPIRED
| RECALLED.

Inductive Role :=
| NONE
| MANUFACTURER
| DISTRIBUTOR
| PHARMACY
| PATIENT
| ADMIN.

#[global] Instance MedicineStatus_eq_dec : EqDecision MedicineStatus.
Proof. solve_decision. Defined.

#[global] Instance Role_eq_dec : EqDecision Role.
Proof. solve_decision. Defined.

Definition MedicineStatus_members : list MedicineStatus :=
  [MANUFACTURED; SHIPPED_TO_DISTRIBUTOR; RECEIVED_BY_DISTRIBUTOR;
   SHIPPED_TO_PHARMACY; RECEIVED_BY_PHARMACY; SOLD_TO_PATIENT;
   EXPIRED; RECALLED].

Definition Role_members : list Role :=
  [NONE; MANUFACTURER; DISTRIBUTOR; PHARMACY; PATIENT; ADMIN].

(** [member.value]; every member is named like its value. *)
Definition MedicineStatus_value (s : MedicineStatus) : string :=
  match s with
  | MANUFACTURED => "MANUFACTURED"
  | SHIPPED_TO_DISTRIBUTOR => "SHIPPED_TO_DISTRIBUTOR"
  | RECEIVED_BY_DISTRIBUTOR => "RECEIVED_BY_DISTRIBUTOR"
  | SHIPPED_TO_PHARMACY => "SHIPPED_TO_PHARMACY"
  | RECEIVED_BY_PHARMACY => "RECEIVED_BY_PHARMACY"
  | SOLD_TO_PATIENT => "SOLD_TO_PATIENT"
  | EXPIRED => "EXPIRED"
  | RECALLED => "RECALLED"
  end.

Definition Role_value (r : Role) : string :=
  match r with
  | NONE => "NONE"
  | MANUFACTURER => "MANUFACTURER"
  | DISTRIBUTOR => "DISTRIBUTOR"
  | PHARMACY => "PHARMACY"
  | PATIENT => "PATIENT"
  | ADMIN => "ADMIN"
  end.

(** [MedicineStatus(v)]: the member whose value equals [v], [ValueError]
    when there is none.  The values are strings, so no [int] and no
    [bool] is the value of a member.  The message of the [ValueError]
    formats the value with [repr()]: [text] stands for what the
    library writes. *)
Definition MedicineStatus_of_value (text : fault -> string) (v : pyval)
    : result MedicineStatus :=
  match v with
  | PyStr s =>
      match find (fun m => String.eqb (MedicineStatus_value m) s) MedicineStatus_members with
      | Some m => ok m
      | None => raise (PyExc ValueError (text (not_a_member "MedicineStatus" v)))
      end
  | _ => raise (PyExc ValueError (text (not_a_member "MedicineStatus" v)))
  end.

(** [Role(v)] *)
Definition Role_of_value (text : fault -> string) (v : pyval) : result Role :=
  match v with
  | PyStr s =>
      match find (fun m => String.eqb (Role_value m) s) Role_members with
      | Some m => ok m
      | None => raise (PyExc ValueError (text (not_a_member "Role" v)))
      end
  | _ => raise (PyExc ValueError (text (not_a_member "Role" v)))
  end.

(** [getattr(MedicineStatus, name).value] up to the member: the member
    of that name.  For any other name either [getattr] raises
    [AttributeError], or it returns an attribute of the class that is
    not a member and has no [value], and [.value] raises
    [AttributeError]; the message is the library's in both cases. *)
Definition MedicineStatus_getattr (text : fault -> string) (name : string)
    : result MedicineStatus :=
  match find (fun m => String.eqb (MedicineStatus_value m) name) MedicineStatus_members with
  | Some m => ok m
  | None => raise (PyExc AttributeError (text (no_value_attribute "MedicineStatus" name)))
  end.

Module MedicineCreate.
Record t := {
  name : string;
  batchNumber : string;
  expiryDate : Z;
  temperatureThreshold : Z;
  temperatureSensitive : bool
}.
End MedicineCreate.

Module MedicineTransfer.
Record t := {
  toAddress : string;
  newStatus : MedicineStatus;
  location : string;
  recipientName : option string
}.
End MedicineTransfer.

Module TemperatureUpdate.
Record t := { temperature : string }.
End TemperatureUpdate.

Module LocationUpdate.
Record t := { location : string }.
End LocationUpdate.

(** ** State and exceptions together

    A route or a service method runs on a mutable state [S] (the module
    globals of [main.py], the node behind [blockchain_service.py]) and
    either returns or raises; what it changed before raising stays
    changed. *)

Definition M (S A : Type) : Type := S -> result A * S.

Definition ret {S A} (a : A) : M S A := fun s => (inr a, s).

Definition throw {S A} (e : exn) : M S A := fun s => (inl e, s).

Definition bind {S A B} (c : M S A) (k : A -> M S B) : M S B :=
  fun s =>
    match c s with
    | (inr a, s') => k a s'
    | (inl e, s') => (inl e, s')
    end.

Definition gets {S A} (f : S -> A) : M S A := fun s => (inr (f s), s).

Definition modify {S} (f : S -> S) : M S unit := fun s => (inr tt, f s).

(** Lift a pure computation that may raise. *)
Definition lift {S A} (r : result A) : M S A := fun s => (r, s).

(** [try: body  except Exception as e: raise handler(e)] *)
Definition try_raise {S A} (body : M S A) (handler : exn -> exn) : M S A :=
  fun s => let (r, s') := body s in (try_except r handler, s').

(** [try: body  except Exception as e: return handler(e)] *)
Definition try_return {S A} (body : M S A) (handler : exn -> A) : M S A :=
  fun s =>
    match body s with
    | (inr a, s') => (inr a, s')
    | (inl e, s') => (inr (handler e), s')
    end.

Notation "x <- c ;; k" := (bind c (fun x => k))
  (at level 100, c at next level, right associativity).
Notation "c ;;; k" := (bind c (fun _ => k))
  (at level 100, right associativity).

(** ** [main.py]: the routes over the in-memory data *)

Module Main.

(** A dict of [BLOCKCHAIN_MEDICINES].  The keys [currentOwnerName] and
    [statusFormatted] are absent from the seeded dicts and present in
    those that [create_medicine] builds or [transfer_medicine] touches. *)
Module Medicine.
Record t := {
  id : Z;
  name : string;
  batchNumber : string;
  manufactureDate : Z;
  expiryDate : Z;
  manufacturer : string;
  currentOwner : string;
  status : MedicineStatus;
  temperatureThreshold : Z;
  temperatureSensitive : bool;
  isActive : bool;
  blockchainTxHash : string;
  blockNumber : Z;
  gasUsed : Z;
  currentOwnerName : option string;
  statusFormatted : option string
}.
End Medicine.

Module MedicineResponse.
Record t := {
  id : Z;
  name : string;
  batchNumber : string;
  manufactureDate : Z;
  expiryDate : Z;
  manufacturer : string;
  currentOwner : string;
  currentOwnerName : option string;
  status : string;
  statusFormatted : option string;
  temperatureThreshold : Z;
  temperatureSensitive : bool;
  isActive : bool;
  blockchainTxHash : string;
  blockNumber : Z;
  gasUsed : Z
}.
End MedicineResponse.

Module BatchResponse.
Record t := {
  batchNumber : string;
  medicines : list MedicineResponse.t
}.
End BatchResponse.

Module TemperatureHistoryResponse.
Record t := {
  temperatures : list string;
  timestamps : list Z;
  transactionHashes : list string
}.
End TemperatureHistoryResponse.

Module LocationHistoryResponse.
Record t := {
  locations : list string;
  timestamps : list Z;
  transactionHashes : list string
}.
End LocationHistoryResponse.

(** An entry of [BLOCKCHAIN_TEMPERATURE_DATA]. *)
Module Reading.
Record t := {
  temperature : string;
  timestamp : Z;
  txHash : string
}.
End Reading.

(** An entry of [BLOCKCHAIN_LOCATION_DATA]. *)
Module LocationEvent.
Record t := {
  location : string;
  timestamp : Z;
  txHash : string
}.
End LocationEvent.

(** An entry of [BLOCKCHAIN_STAGES_DATA]; the four name keys are optional. *)
Module Stage.
Record t := {
  stage : MedicineStatus;
  location : string;
  owner : string;
  timestamp : Z;
  txHash : string;
  recipientName : option string;
  pharmacyName : option string;
  distributorName : option string;
  patientName : option string
}.
End Stage.

(** The answers of the write routes. *)
Module TransferResult.
Record t := {
  success : bool;
  transaction_hash : string;
  block_number : Z;
  gas_used : Z;
  message : string
}.
End TransferResult.

Module UpdateResult.
Record t := {
  success : bool;
  transaction_hash : string;
  message : string
}.
End UpdateResult.

Module RecallResult.
Record t := {
  success : bool;
  transaction_hash : string;
  reason : string;
  message : string
}.
End RecallResult.

(** The module globals that the routes read and mutate. *)
Record Store := {
  BLOCKCHAIN_MEDICINES : list Medicine.t;
  BLOCKCHAIN_TEMPERATURE_DATA : gmap Z (list Reading.t);
  BLOCKCHAIN_LOCATION_DATA : gmap Z (list LocationEvent.t);
  BLOCKCHAIN_STAGES_DATA : gmap Z (list Stage.t)
}.

Definition OWNER_NAMES : list (string * string) :=
  [("0xf39Fd6e51aad88F6F4ce6aB8827279cffFb92266", "MediPharm Manufacturing Co.");
   ("0x70997970C51812dc3A010C7d01b50e0d17dc79C8", "Global Distributors Ltd.");
   ("0x3C44CdDdB6a900fa2b585dd299e03d12FA4293BC", "CITY Engg Pharmacy");
   ("0x90F79bf6EB2c4f870365E785982E1f101E93b906", "John Smith (Patient)");
   ("0x15d34AAf54267DB7D7c367839AAf71A00a2C6A65", "Sarah Johnson (Patient)")].

Definition PHARMACY_NAMES : list (string * string) :=
  [("0x3C44CdDdB6a900fa2b585dd299e03d12FA4293BC", "CITY Engg Pharmacy");
   ("0x70997970C51812dc3A010C7d01b50e0d17dc79C8", "Global Distributors Ltd.")].

Definition DISTRIBUTOR_NAMES : list (string * string) :=
  [("0x70997970C51812dc3A010C7d01b50e0d17dc79C8", "Global Distributors Ltd.")].

Definition PATIENT_NAMES : list (string * string) :=
  [("0x90F79bf6EB2c4f870365E785982E1f101E93b906", "John Smith");
   ("0x15d34AAf54267DB7D7c367839AAf71A00a2C6A65", "Sarah Johnson")].

Definition format_status_with_recipient
    (status : MedicineStatus) (owner_address : string)
    (recipient_name : option string) : string :=
  match status with
  | SHIPPED_TO_PHARMACY =>
      "Shipped to " +:+ str_or recipient_name (dict_get PHARMACY_NAMES owner_address "Pharmacy")
  | RECEIVED_BY_PHARMACY =>
      "Received by " +:+ str_or recipient_name (dict_get PHARMACY_NAMES owner_address "Pharmacy")
  | SHIPPED_TO_DISTRIBUTOR =>
      "Shipped to " +:+ str_or recipient_name (dict_get DISTRIBUTOR_NAMES owner_address "Distributor")
  | RECEIVED_BY_DISTRIBUTOR =>
      "Received by " +:+ str_or recipient_name (dict_get DISTRIBUTOR_NAMES owner_address "Distributor")
  | SOLD_TO_PATIENT =>
      "Sold to " +:+ str_or recipient_name (dict_get PATIENT_NAMES owner_address "Patient")
  | MANUFACTURED => "Manufactured"
  | EXPIRED => "Expired"
  | RECALLED => "Recalled"
  end.

(** The [MedicineResponse] built from the keys of a medicine dict. *)
Definition MedicineResponse_of (m : Medicine.t) : MedicineResponse.t :=
  {| MedicineResponse.id := Medicine.id m;
     MedicineResponse.name := Medicine.name m;
     MedicineResponse.batchNumber := Medicine.batchNumber m;
     MedicineResponse.manufactureDate := Medicine.manufactureDate m;
     MedicineResponse.expiryDate := Medicine.expiryDate m;
     MedicineResponse.manufacturer := Medicine.manufacturer m;
     MedicineResponse.currentOwner := Medicine.currentOwner m;
     MedicineResponse.currentOwnerName := Medicine.currentOwnerName m;
     MedicineResponse.status := MedicineStatus_value (Medicine.status m);
     MedicineResponse.statusFormatted := Medicine.statusFormatted m;
     MedicineResponse.temperatureThreshold := Medicine.temperatureThreshold m;
     MedicineResponse.temperatureSensitive := Medicine.temperatureSensitive m;
     MedicineResponse.isActive := Medicine.isActive m;
     MedicineResponse.blockchainTxHash := Medicine.blockchainTxHash m;
     MedicineResponse.blockNumber := Medicine.blockNumber m;
     MedicineResponse.gasUsed := Medicine.gasUsed m |}.

(** The three lines shared by the read routes: copy the dict, set
    [currentOwnerName] and [statusFormatted], build the response. *)
Definition with_names (medicine : Medicine.t) : MedicineResponse.t :=
  let r := MedicineResponse_of medicine in
  {| MedicineResponse.id := MedicineResponse.id r;
     MedicineResponse.name := MedicineResponse.name r;
     MedicineResponse.batchNumber := MedicineResponse.batchNumber r;
     MedicineResponse.manufactureDate := MedicineResponse.manufactureDate r;
     MedicineResponse.expiryDate := MedicineResponse.expiryDate r;
     MedicineResponse.manufacturer := MedicineResponse.manufacturer r;
     MedicineResponse.currentOwner := MedicineResponse.currentOwner r;
     MedicineResponse.currentOwnerName :=
       Some (dict_get OWNER_NAMES (Medicine.currentOwner medicine) "Unknown");
     MedicineResponse.status := MedicineResponse.status r;
     MedicineResponse.statusFormatted :=
       Some (format_status_with_recipient
               (Medicine.status medicine) (Medicine.currentOwner medicine) None);
     MedicineResponse.temperatureThreshold := MedicineResponse.temperatureThreshold r;
     MedicineResponse.temperatureSensitive := MedicineResponse.temperatureSensitive r;
     MedicineResponse.isActive := MedicineResponse.isActive r;
     MedicineResponse.blockchainTxHash := MedicineResponse.blockchainTxHash r;
     MedicineResponse.blockNumber := MedicineResponse.blockNumber r;
     MedicineResponse.gasUsed := MedicineResponse.gasUsed r |}.

(** The handlers of the [except Exception as e] clauses. *)
Definition query_failed (e : exn) : exn :=
  HTTPException 500 ("Blockchain query failed: " +:+ str_exn e).

Definition transaction_failed (e : exn) : exn :=
  HTTPException 400 ("Blockchain transaction failed: " +:+ str_exn e).

Definition not_found : exn :=
  HTTPException 404 "Medicine not found on blockchain".

(** [next((m for m in BLOCKCHAIN_MEDICINES if m["id"] == medicine_id), None)] *)
Definition lookup_medicine (medicine_id : Z) (s : Store) : option Medicine.t :=
  find (fun m => Medicine.id m =? medicine_id) (BLOCKCHAIN_MEDICINES s).

(** The same with [... and m["isActive"]]. *)
Definition lookup_active_medicine (medicine_id : Z) (s : Store) : option Medicine.t :=
  find (fun m => (Medicine.id m =? medicine_id) && Medicine.isActive m)
       (BLOCKCHAIN_MEDICINES s).

(** Assignments to keys of the dict that [next] returned change that dict
    in place, where it sits in the list: the first one with the id. *)
Fixpoint mutate_first (medicine_id : Z) (f : Medicine.t -> Medicine.t)
    (l : list Medicine.t) : list Medicine.t :=
  match l with
  | [] => []
  | m :: l' =>
      if Medicine.id m =? medicine_id then f m :: l'
      else m :: mutate_first medicine_id f l'
  end.

Definition set_medicines (l : list Medicine.t) (s : Store) : Store :=
  {| BLOCKCHAIN_MEDICINES := l;
     BLOCKCHAIN_TEMPERATURE_DATA := BLOCKCHAIN_TEMPERATURE_DATA s;
     BLOCKCHAIN_LOCATION_DATA := BLOCKCHAIN_LOCATION_DATA s;
     BLOCKCHAIN_STAGES_DATA := BLOCKCHAIN_STAGES_DATA s |}.

Definition set_temperature_data (d : gmap Z (list Reading.t)) (s : Store) : Store :=
  {| BLOCKCHAIN_MEDICINES := BLOCKCHAIN_MEDICINES s;
     BLOCKCHAIN_TEMPERATURE_DATA := d;
     BLOCKCHAIN_LOCATION_DATA := BLOCKCHAIN_LOCATION_DATA s;
     BLOCKCHAIN_STAGES_DATA := BLOCKCHAIN_STAGES_DATA s |}.

Definition set_location_data (d : gmap Z (list LocationEvent.t)) (s : Store) : Store :=
  {| BLOCKCHAIN_MEDICINES := BLOCKCHAIN_MEDICINES s;
     BLOCKCHAIN_TEMPERATURE_DATA := BLOCKCHAIN_TEMPERATURE_DATA s;
     BLOCKCHAIN_LOCATION_DATA := d;
     BLOCKCHAIN_STAGES_DATA := BLOCKCHAIN_STAGES_DATA s |}.

Definition set_stages_data (d : gmap Z (list Stage.t)) (s : Store) : Store :=
  {| BLOCKCHAIN_MEDICINES := BLOCKCHAIN_MEDICINES s;
     BLOCKCHAIN_TEMPERATURE_DATA := BLOCKCHAIN_TEMPERATURE_DATA s;
     BLOCKCHAIN_LOCATION_DATA := BLOCKCHAIN_LOCATION_DATA s;
     BLOCKCHAIN_STAGES_DATA := d |}.

(** [if k not in d: d[k] = []] followed by [d[k].append(x)] *)
Definition append_at {A} (k : Z) (x : A) (d : gmap Z (list A)) : gmap Z (list A) :=
  <[k := (default [] (d !! k) ++ [x])%list]> d.

(** [max(xs)] on a list that is not empty. *)
Definition py_max (x : Z) (xs : list Z) : Z := fold_left Z.max xs x.

Module Health.
Record t := {
  status : string;
  blockchain_connected : bool;
  contracts_deployed : bool;
  network : string;
  total_medicines : Z
}.
End Health.

(** [GET /health]; [total_medicines] is [len(BLOCKCHAIN_MEDICINES)]. *)
Definition health_check : M Store Health.t :=
  medicines <- gets BLOCKCHAIN_MEDICINES ;;
  ret {| Health.status := "healthy";
         Health.blockchain_connected := true;
         Health.contracts_deployed := true;
         Health.network := "Hardhat Local (Chain ID: 1337)";
         Health.total_medicines := Z.of_nat (length medicines) |}.

(** [GET /medicines] *)
Definition get_medicines : M Store (list MedicineResponse.t) :=
  try_raise
    (medicines <- gets BLOCKCHAIN_MEDICINES ;;
     ret (map with_names (List.filter Medicine.isActive medicines)))
    query_failed.

(** [GET /medicines/{medicine_id}] *)
Definition get_medicine (medicine_id : Z) : M Store MedicineResponse.t :=
  try_raise
    (medicine <- gets (lookup_active_medicine medicine_id) ;;
     match medicine with
     | None => throw not_found
     | Some medicine => ret (with_names medicine)
     end)
    query_failed.

(** [GET /medicines/batch/{batch_number}] *)
Definition get_medicines_by_batch (batch_number : string) : M Store BatchResponse.t :=
  try_raise
    (all <- gets BLOCKCHAIN_MEDICINES ;;
     let medicines :=
       List.filter
         (fun m => String.eqb (Medicine.batchNumber m) batch_number && Medicine.isActive m)
         all in
     ret {| BatchResponse.batchNumber := batch_number;
            BatchResponse.medicines := map with_names medicines |})
    query_failed.

Definition manufacturer_address : string :=
  "0xf39Fd6e51aad88F6F4ce6aB8827279cffFb92266".

(** [POST /medicines].  [fromtimestamp] is [datetime.fromtimestamp], which
    raises outside the range of the platform; [now] is what
    [int(datetime.now().timestamp())] reads. *)
Definition create_medicine (fromtimestamp : Z -> result unit) (now : Z)
    (medicine : MedicineCreate.t) : M Store MedicineResponse.t :=
  try_raise
    (medicines <- gets BLOCKCHAIN_MEDICINES ;;
     let new_id :=
       match map Medicine.id medicines with
       | [] => 1
       | x :: xs => py_max x xs + 1
       end in
     lift (fromtimestamp (MedicineCreate.expiryDate medicine)) ;;;
     let current_time := now in
     let new_medicine :=
       {| Medicine.id := new_id;
          Medicine.name := MedicineCreate.name medicine;
          Medicine.batchNumber := MedicineCreate.batchNumber medicine;
          Medicine.manufactureDate := current_time;
          Medicine.expiryDate := MedicineCreate.expiryDate medicine;
          Medicine.manufacturer := manufacturer_address;
          Medicine.currentOwner := manufacturer_address;
          Medicine.status := MANUFACTURED;
          Medicine.temperatureThreshold := MedicineCreate.temperatureThreshold medicine;
          Medicine.temperatureSensitive := MedicineCreate.temperatureSensitive medicine;
          Medicine.isActive := true;
          Medicine.blockchainTxHash := "0x" +:+ format_040x new_id;
          Medicine.blockNumber := 1000 + new_id;
          Medicine.gasUsed := 150000;
          Medicine.currentOwnerName :=
            Some (dict_get OWNER_NAMES manufacturer_address "Unknown");
          Medicine.statusFormatted :=
            Some (format_status_with_recipient MANUFACTURED manufacturer_address None) |} in
     modify (fun s => set_medicines (BLOCKCHAIN_MEDICINES s ++ [new_medicine])%list s) ;;;
     modify (fun s =>
       set_stages_data
         (<[new_id := [ {| Stage.stage := MANUFACTURED;
                           Stage.location := "Manufacturing Plant A";
                           Stage.owner := manufacturer_address;
                           Stage.timestamp := current_time;
                           Stage.txHash := "0x" +:+ format_040x new_id;
                           Stage.recipientName := None;
                           Stage.pharmacyName := None;
                           Stage.distributorName := None;
                           Stage.patientName := None |} ] ]>
            (BLOCKCHAIN_STAGES_DATA s)) s) ;;;
     modify (fun s =>
       set_location_data
         (<[new_id := [ {| LocationEvent.location := "Manufacturing Plant A";
                           LocationEvent.timestamp := current_time;
                           LocationEvent.txHash := "0xloc" +:+ format_05d new_id |} ] ]>
            (BLOCKCHAIN_LOCATION_DATA s)) s) ;;;
     ret (MedicineResponse_of new_medicine))
    transaction_failed.

(** The keys that [transfer_medicine] assigns on the dict it found. *)
Definition transferred (medicine_id : Z) (transfer : MedicineTransfer.t)
    (medicine : Medicine.t) : Medicine.t :=
  {| Medicine.id := Medicine.id medicine;
     Medicine.name := Medicine.name medicine;
     Medicine.batchNumber := Medicine.batchNumber medicine;
     Medicine.manufactureDate := Medicine.manufactureDate medicine;
     Medicine.expiryDate := Medicine.expiryDate medicine;
     Medicine.manufacturer := Medicine.manufacturer medicine;
     Medicine.currentOwner := MedicineTransfer.toAddress transfer;
     Medicine.status := MedicineTransfer.newStatus transfer;
     Medicine.temperatureThreshold := Medicine.temperatureThreshold medicine;
     Medicine.temperatureSensitive := Medicine.temperatureSensitive medicine;
     Medicine.isActive := Medicine.isActive medicine;
     Medicine.blockchainTxHash := "0xtransfer" +:+ format_040x medicine_id;
     Medicine.blockNumber := 2000 + medicine_id;
     Medicine.gasUsed := 120000;
     Medicine.currentOwnerName :=
       Some (dict_get OWNER_NAMES (MedicineTransfer.toAddress transfer) "Unknown");
     Medicine.statusFormatted :=
       Some (format_status_with_recipient
               (MedicineTransfer.newStatus transfer)
               (MedicineTransfer.toAddress transfer)
               (MedicineTransfer.recipientName transfer)) |}.

(** The stage that [transfer_medicine] records. *)
Definition new_stage (now : Z) (medicine_id : Z) (transfer : MedicineTransfer.t) : Stage.t :=
  let to := MedicineTransfer.toAddress transfer in
  let st := MedicineTransfer.newStatus transfer in
  let rn := MedicineTransfer.recipientName transfer in
  let is_pharmacy :=
    bool_decide (st = SHIPPED_TO_PHARMACY) || bool_decide (st = RECEIVED_BY_PHARMACY) in
  let is_distributor :=
    bool_decide (st = SHIPPED_TO_DISTRIBUTOR) || bool_decide (st = RECEIVED_BY_DISTRIBUTOR) in
  {| Stage.stage := st;
     Stage.location := MedicineTransfer.location transfer;
     Stage.owner := to;
     Stage.timestamp := now;
     Stage.txHash := "0xtransfer" +:+ format_040x medicine_id;
     Stage.recipientName := if str_truthy rn then rn else None;
     Stage.pharmacyName :=
       if is_pharmacy then Some (str_or rn (dict_get PHARMACY_NAMES to "Pharmacy")) else None;
     Stage.distributorName :=
       if is_pharmacy then None
       else if is_distributor
            then Some (str_or rn (dict_get DISTRIBUTOR_NAMES to "Distributor"))
            else None;
     Stage.patientName :=
       if is_pharmacy || is_distributor then None
       else if bool_decide (st = SOLD_TO_PATIENT)
            then Some (str_or rn (dict_get PATIENT_NAMES to "Patient"))
            else None |}.

(** [POST /medicines/{medicine_id}/transfer].  [datetime.now()] is read
    once for the stage and once for the location. *)
Definition transfer_medicine (now_stage now_location : Z) (medicine_id : Z)
    (transfer : MedicineTransfer.t) : M Store TransferResult.t :=
  try_raise
    (medicine <- gets (lookup_medicine medicine_id) ;;
     match medicine with
     | None => throw not_found
     | Some _ =>
         modify (fun s =>
           set_medicines
             (mutate_first medicine_id (transferred medicine_id transfer)
                (BLOCKCHAIN_MEDICINES s)) s) ;;;
         modify (fun s =>
           set_stages_data
             (append_at medicine_id (new_stage now_stage medicine_id transfer)
                (BLOCKCHAIN_STAGES_DATA s)) s) ;;;
         n <- gets (fun s => length (default [] (BLOCKCHAIN_LOCATION_DATA s !! medicine_id))) ;;
         let new_location :=
           {| LocationEvent.location := MedicineTransfer.location transfer;
              LocationEvent.timestamp := now_location;
              LocationEvent.txHash :=
                "0xloc" +:+ format_05d medicine_id +:+ "_" +:+ pretty (Z.of_nat n) |} in
         modify (fun s =>
           set_location_data
             (append_at medicine_id new_location (BLOCKCHAIN_LOCATION_DATA s)) s) ;;;
         ret {| TransferResult.success := true;
                TransferResult.transaction_hash := "0xtransfer" +:+ format_040x medicine_id;
                TransferResult.block_number := 2000 + medicine_id;
                TransferResult.gas_used := 120000;
                TransferResult.message :=
                  "Medicine " +:+ pretty medicine_id +:+ " transferred on blockchain" |}
     end)
    transaction_failed.

(** [POST /medicines/{medicine_id}/temperature] *)
Definition update_temperature (now : Z) (medicine_id : Z)
    (temp_update : TemperatureUpdate.t) : M Store UpdateResult.t :=
  try_raise
    (medicine <- gets (lookup_medicine medicine_id) ;;
     match medicine with
     | None => throw not_found
     | Some medicine =>
         if negb (Medicine.temperatureSensitive medicine)
         then throw (HTTPException 400 "Medicine is not temperature sensitive")
         else
           let new_reading :=
             {| Reading.temperature := TemperatureUpdate.temperature temp_update;
                Reading.timestamp := now;
                Reading.txHash := "0xtemp" +:+ format_040x medicine_id |} in
           modify (fun s =>
             set_temperature_data
               (append_at medicine_id new_reading (BLOCKCHAIN_TEMPERATURE_DATA s)) s) ;;;
           ret {| UpdateResult.success := true;
                  UpdateResult.transaction_hash := Reading.txHash new_reading;
                  UpdateResult.message :=
                    "Temperature updated on blockchain for medicine " +:+ pretty medicine_id |}
     end)
    transaction_failed.

(** [POST /medicines/{medicine_id}/location] *)
Definition update_location (now : Z) (medicine_id : Z)
    (location_update : LocationUpdate.t) : M Store UpdateResult.t :=
  try_raise
    (medicine <- gets (lookup_medicine medicine_id) ;;
     match medicine with
     | None => throw not_found
     | Some _ =>
         let new_location :=
           {| LocationEvent.location := LocationUpdate.location location_update;
              LocationEvent.timestamp := now;
              LocationEvent.txHash := "0xloc" +:+ format_040x medicine_id |} in
         modify (fun s =>
           set_location_data
             (append_at medicine_id new_location (BLOCKCHAIN_LOCATION_DATA s)) s) ;;;
         ret {| UpdateResult.success := true;
                UpdateResult.transaction_hash := LocationEvent.txHash new_location;
                UpdateResult.message :=
                  "Location updated on blockchain for medicine " +:+ pretty medicine_id |}
     end)
    transaction_failed.

(** [GET /medicines/{medicine_id}/temperature-history] *)
Definition get_temperature_history (medicine_id : Z) : M Store TemperatureHistoryResponse.t :=
  try_raise
    (d <- gets BLOCKCHAIN_TEMPERATURE_DATA ;;
     match d !! medicine_id with
     | None =>
         ret {| TemperatureHistoryResponse.temperatures := [];
                TemperatureHistoryResponse.timestamps := [];
                TemperatureHistoryResponse.transactionHashes := [] |}
     | Some data =>
         ret {| TemperatureHistoryResponse.temperatures := map Reading.temperature data;
                TemperatureHistoryResponse.timestamps := map Reading.timestamp data;
                TemperatureHistoryResponse.transactionHashes := map Reading.txHash data |}
     end)
    query_failed.

(** [GET /medicines/{medicine_id}/location-history] *)
Definition get_location_history (medicine_id : Z) : M Store LocationHistoryResponse.t :=
  try_raise
    (d <- gets BLOCKCHAIN_LOCATION_DATA ;;
     match d !! medicine_id with
     | None =>
         ret {| LocationHistoryResponse.locations := [];
                LocationHistoryResponse.timestamps := [];
                LocationHistoryResponse.transactionHashes := [] |}
     | Some data =>
         ret {| LocationHistoryResponse.locations := map LocationEvent.location data;
                LocationHistoryResponse.timestamps := map LocationEvent.timestamp data;
                LocationHistoryResponse.transactionHashes := map LocationEvent.txHash data |}
     end)
    query_failed.

(** The keys that [mark_medicine_expired] and [recall_medicine] assign. *)
Definition finalised (st : MedicineStatus) (tx : string) (block gas : Z)
    (medicine : Medicine.t) : Medicine.t :=
  {| Medicine.id := Medicine.id medicine;
     Medicine.name := Medicine.name medicine;
     Medicine.batchNumber := Medicine.batchNumber medicine;
     Medicine.manufactureDate := Medicine.manufactureDate medicine;
     Medicine.expiryDate := Medicine.expiryDate medicine;
     Medicine.manufacturer := Medicine.manufacturer medicine;
     Medicine.currentOwner := Medicine.currentOwner medicine;
     Medicine.status := st;
     Medicine.temperatureThreshold := Medicine.temperatureThreshold medicine;
     Medicine.temperatureSensitive := Medicine.temperatureSensitive medicine;
     Medicine.isActive := Medicine.isActive medicine;
     Medicine.blockchainTxHash := tx;
     Medicine.blockNumber := block;
     Medicine.gasUsed := gas;
     Medicine.currentOwnerName := Medicine.currentOwnerName medicine;
     Medicine.statusFormatted := Medicine.statusFormatted medicine |}.

(** [POST /medicines/{medicine_id}/expire] *)
Definition mark_medicine_expired (medicine_id : Z) : M Store UpdateResult.t :=
  try_raise
    (medicine <- gets (lookup_medicine medicine_id) ;;
     match medicine with
     | None => throw not_found
     | Some _ =>
         let tx := "0xexpire" +:+ format_040x medicine_id in
         modify (fun s =>
           set_medicines
             (mutate_first medicine_id (finalised EXPIRED tx (3000 + medicine_id) 80000)
                (BLOCKCHAIN_MEDICINES s)) s) ;;;
         ret {| UpdateResult.success := true;
                UpdateResult.transaction_hash := tx;
                UpdateResult.message :=
                  "Medicine " +:+ pretty medicine_id +:+ " marked as expired on blockchain" |}
     end)
    transaction_failed.

(** [POST /medicines/{medicine_id}/recall] *)
Definition recall_medicine (medicine_id : Z) (reason : string) : M Store RecallResult.t :=
  try_raise
    (medicine <- gets (lookup_medicine medicine_id) ;;
     match medicine with
     | None => throw not_found
     | Some _ =>
         let tx := "0xrecall" +:+ format_040x medicine_id in
         modify (fun s =>
           set_medicines
             (mutate_first medicine_id (finalised RECALLED tx (4000 + medicine_id) 100000)
                (BLOCKCHAIN_MEDICINES s)) s) ;;;
         ret {| RecallResult.success := true;
                RecallResult.transaction_hash := tx;
                RecallResult.reason := reason;
                RecallResult.message :=
                  "Medicine " +:+ pretty medicine_id +:+ " recalled on blockchain" |}
     end)
    transaction_failed.

(** *** The seeded data

    [days d] stands for [int((datetime.now() + timedelta(days=d)).timestamp())]
    as evaluated when the module is loaded. *)

Definition distributor_address : string := "0x70997970C51812dc3A010C7d01b50e0d17dc79C8".
Definition pharmacy_address : string := "0x3C44CdDdB6a900fa2b585dd299e03d12FA4293BC".
Definition patient1_address : string := "0x90F79bf6EB2c4f870365E785982E1f101E93b906".
Definition patient2_address : string := "0x15d34AAf54267DB7D7c367839AAf71A00a2C6A65".

Definition seeded (id : Z) (name batch : string) (made expires : Z)
    (owner : string) (st : MedicineStatus) (threshold : Z) (sensitive : bool)
    (tx : string) (block gas : Z) : Medicine.t :=
  {| Medicine.id := id;
     Medicine.name := name;
     Medicine.batchNumber := batch;
     Medicine.manufactureDate := made;
     Medicine.expiryDate := expires;
     Medicine.manufacturer := manufacturer_address;
     Medicine.currentOwner := owner;
     Medicine.status := st;
     Medicine.temperatureThreshold := threshold;
     Medicine.temperatureSensitive := sensitive;
     Medicine.isActive := true;
     Medicine.blockchainTxHash := tx;
     Medicine.blockNumber := block;
     Medicine.gasUsed := gas;
     Medicine.currentOwnerName := None;
     Medicine.statusFormatted := None |}.

Definition seed_medicines (days : Z -> Z) : list Medicine.t :=
  [ seeded 1 "Aspirin" "ASP001" (days (-30)) (days 365)
      manufacturer_address MANUFACTURED 25 false
      "0x1234567890abcdef1234567890abcdef12345678" 1001 150000;
    seeded 2 "Insulin" "INS002" (days (-15)) (days 180)
      distributor_address SHIPPED_TO_DISTRIBUTOR 8 true
      "0xabcdef1234567890abcdef1234567890abcdef12" 1002 180000;
    seeded 3 "Paracetamol" "PAR003" (days (-7)) (days 730)
      pharmacy_address RECEIVED_BY_PHARMACY 30 false
      "0x567890abcdef1234567890abcdef1234567890ab" 1003 160000;
    seeded 4 "Antibiotic" "ANT004" (days (-45)) (days 90)
      patient1_address SOLD_TO_PATIENT 20 true
      "0x7890abcdef1234567890abcdef1234567890abcd" 1004 170000;
    seeded 5 "Vitamin D" "VIT005" (days (-60)) (days (-1))
      patient2_address EXPIRED 25 false
      "0x90abcdef1234567890abcdef1234567890abcdef" 1005 140000 ].

Definition reading (temperature : string) (timestamp : Z) (tx : string) : Reading.t :=
  {| Reading.temperature := temperature; Reading.timestamp := timestamp; Reading.txHash := tx |}.

Definition seed_temperature_data (days : Z -> Z) : gmap Z (list Reading.t) :=
  <[2 := [ reading "5°C" (days (-10)) "0xtemp001";
           reading "6°C" (days (-8)) "0xtemp002";
           reading "4°C" (days (-5)) "0xtemp003";
           reading "7°C" (days (-2)) "0xtemp004" ]]>
  (<[4 := [ reading "18°C" (days (-20)) "0xtemp005";
            reading "22°C" (days (-15)) "0xtemp006" ]]> ∅).

Definition located (location : string) (timestamp : Z) (tx : string) : LocationEvent.t :=
  {| LocationEvent.location := location;
     LocationEvent.timestamp := timestamp;
     LocationEvent.txHash := tx |}.

Definition seed_location_data (days : Z -> Z) : gmap Z (list LocationEvent.t) :=
  <[1 := [ located "Manufacturing Plant A" (days (-30)) "0xloc001";
           located "Quality Control Lab" (days (-28)) "0xloc002" ]]>
  (<[2 := [ located "Manufacturing Plant A" (days (-15)) "0xloc003";
            located "Cold Storage Facility" (days (-12)) "0xloc004";
            located "Distribution Center" (days (-8)) "0xloc005" ]]>
  (<[3 := [ located "Manufacturing Plant A" (days (-7)) "0xloc006";
            located "Warehouse B" (days (-5)) "0xloc007";
            located "Pharmacy D" (days (-2)) "0xloc008" ]]>
  (<[4 := [ located "Manufacturing Plant A" (days (-45)) "0xloc009";
            located "Pharmacy D" (days (-10)) "0xloc010";
            located "Patient Home" (days (-1)) "0xloc011" ]]> ∅))).

(** A seeded stage; [who] selects the keys that carry the recipient's
    name next to [recipientName]. *)
Inductive name_keys := NoNames | Distributor (n : string) | Pharmacy (n : string)
                     | PharmacyOnly (n : string) | Patient (n : string).

Definition staged (st : MedicineStatus) (location owner : string) (who : name_keys)
    (timestamp : Z) (tx : string) : Stage.t :=
  {| Stage.stage := st;
     Stage.location := location;
     Stage.owner := owner;
     Stage.timestamp := timestamp;
     Stage.txHash := tx;
     Stage.recipientName :=
       match who with
       | Distributor n | Pharmacy n | Patient n => Some n
       | NoNames | PharmacyOnly _ => None
       end;
     Stage.pharmacyName :=
       match who with Pharmacy n | PharmacyOnly n => Some n | _ => None end;
     Stage.distributorName :=
       match who with Distributor n => Some n | _ => None end;
     Stage.patientName :=
       match who with Patient n => Some n | _ => None end |}.

Definition seed_stages_data (days : Z -> Z) : gmap Z (list Stage.t) :=
  let gd := Distributor "Global Distributors Ltd." in
  let cp := Pharmacy "CITY Engg Pharmacy" in
  <[1 := [ staged MANUFACTURED "Manufacturing Plant A" manufacturer_address NoNames
             (days (-30)) "0xstage001" ]]>
  (<[2 := [ staged MANUFACTURED "Manufacturing Plant A" manufacturer_address NoNames
              (days (-15)) "0xstage002";
            staged SHIPPED_TO_DISTRIBUTOR "Loading Dock A" distributor_address gd
              (days (-13)) "0xstage003";
            staged RECEIVED_BY_DISTRIBUTOR "Distribution Center" distributor_address gd
              (days (-12)) "0xstage004" ]]>
  (<[3 := [ staged MANUFACTURED "Manufacturing Plant A" manufacturer_address NoNames
              (days (-7)) "0xstage005";
            staged SHIPPED_TO_DISTRIBUTOR "Loading Dock B" distributor_address gd
              (days (-6)) "0xstage006";
            staged RECEIVED_BY_DISTRIBUTOR "Warehouse B" distributor_address gd
              (days (-5)) "0xstage007";
            staged SHIPPED_TO_PHARMACY "Warehouse B - Outbound" pharmacy_address cp
              (days (-4)) "0xstage008";
            staged RECEIVED_BY_PHARMACY "CITY Engg Pharmacy" pharmacy_address cp
              (days (-2)) "0xstage009" ]]>
  (<[4 := [ staged MANUFACTURED "Manufacturing Plant A" manufacturer_address NoNames
              (days (-45)) "0xstage010";
            staged SHIPPED_TO_DISTRIBUTOR "Loading Dock C" distributor_address gd
              (days (-43)) "0xstage011";
            staged RECEIVED_BY_DISTRIBUTOR "Distribution Center" distributor_address gd
              (days (-42)) "0xstage012";
            staged SHIPPED_TO_PHARMACY "Distribution Center - Outbound" pharmacy_address cp
              (days (-40)) "0xstage013";
            staged RECEIVED_BY_PHARMACY "CITY Engg Pharmacy" pharmacy_address cp
              (days (-38)) "0xstage014";
            staged SOLD_TO_PATIENT "Patient Home" patient1_address (Patient "John Smith")
              (days (-1)) "0xstage015" ]]>
  (<[5 := [ staged MANUFACTURED "Manufacturing Plant A" manufacturer_address NoNames
              (days (-60)) "0xstage016";
            staged SHIPPED_TO_DISTRIBUTOR "Loading Dock D" distributor_address NoNames
              (days (-58)) "0xstage017";
            staged RECEIVED_BY_PHARMACY "CITY Engg Pharmacy" pharmacy_address
              (PharmacyOnly "CITY Engg Pharmacy") (days (-2)) "0xstage018";
            staged EXPIRED "CITY Engg Pharmacy - Expired Stock" patient2_address NoNames
              (days (-1)) "0xstage019" ]]> ∅)))).

(** The globals as the module leaves them when it is loaded. *)
Definition initial_store (days : Z -> Z) : Store :=
  {| BLOCKCHAIN_MEDICINES := seed_medicines days;
     BLOCKCHAIN_TEMPERATURE_DATA := seed_temperature_data days;
     BLOCKCHAIN_LOCATION_DATA := seed_location_data days;
     BLOCKCHAIN_STAGES_DATA := seed_stages_data days |}.

(** *** The stores that the routes can produce *)

(** A request to one of the routes that write, with the clock readings
    it will make. *)
Inductive request :=
| CreateMedicine (now : Z) (medicine : MedicineCreate.t)
| TransferMedicine (now_stage now_location : Z) (medicine_id : Z)
    (transfer : MedicineTransfer.t)
| UpdateTemperature (now : Z) (medicine_id : Z) (temp_update : TemperatureUpdate.t)
| UpdateLocation (now : Z) (medicine_id : Z) (location_update : LocationUpdate.t)
| MarkMedicineExpired (medicine_id : Z)
| RecallMedicine (medicine_id : Z) (reason : string).

(** The store after a request, whatever its answer. *)
Definition serve (fromtimestamp : Z -> result unit) (r : request) (s : Store) : Store :=
  match r with
  | CreateMedicine now medicine => snd (create_medicine fromtimestamp now medicine s)
  | TransferMedicine t1 t2 medicine_id transfer =>
      snd (transfer_medicine t1 t2 medicine_id transfer s)
  | UpdateTemperature now medicine_id u => snd (update_temperature now medicine_id u s)
  | UpdateLocation now medicine_id u => snd (update_location now medicine_id u s)
  | MarkMedicineExpired medicine_id => snd (mark_medicine_expired medicine_id s)
  | RecallMedicine medicine_id reason => snd (recall_medicine medicine_id reason s)
  end.

Inductive reachable (fromtimestamp : Z -> result unit) (days : Z -> Z) : Store -> Prop :=
| reachable_initial : reachable fromtimestamp days (initial_store days)
| reachable_serve s r :
    reachable fromtimestamp days s ->
    reachable fromtimestamp days (serve fromtimestamp r s).

(** *** The timeline of a medicine *)

Module SupplyChainStage.
Record t := {
  stage : string;
  location : string;
  owner : string;
  ownerName : option string;
  pharmacyName : option string;
  distributorName : option string;
  patientName : option string;
  recipientName : option string;
  stageFormatted : option string;
  timestamp : Z;
  txHash : string
}.
End SupplyChainStage.

(** [x or y] on optional strings: [x] when it is truthy, else [y]. *)
Definition or_else (x y : option string) : option string :=
  if str_truthy x then x else y.

(** The body of the loop of [get_supply_chain_stages]: the copy of the
    stage with [ownerName], [recipientName] when one of the four name
    keys is truthy, and [stageFormatted]. *)
Definition stage_with_names (stage : Stage.t) : SupplyChainStage.t :=
  let recipient_name :=
    or_else (Stage.recipientName stage)
      (or_else (Stage.pharmacyName stage)
         (or_else (Stage.distributorName stage) (Stage.patientName stage))) in
  {| SupplyChainStage.stage := MedicineStatus_value (Stage.stage stage);
     SupplyChainStage.location := Stage.location stage;
     SupplyChainStage.owner := Stage.owner stage;
     SupplyChainStage.ownerName := Some (dict_get OWNER_NAMES (Stage.owner stage) "Unknown");
     SupplyChainStage.pharmacyName := Stage.pharmacyName stage;
     SupplyChainStage.distributorName := Stage.distributorName stage;
     SupplyChainStage.patientName := Stage.patientName stage;
     SupplyChainStage.recipientName :=
       if str_truthy recipient_name then recipient_name else Stage.recipientName stage;
     SupplyChainStage.stageFormatted :=
       Some (format_status_with_recipient (Stage.stage stage) (Stage.owner stage)
               recipient_name);
     SupplyChainStage.timestamp := Stage.timestamp stage;
     SupplyChainStage.txHash := Stage.txHash stage |}.

(** [GET /medicines/{medicine_id}/stages]; the list is the [stages] of
    the [SupplyChainTimelineResponse]. *)
Definition get_supply_chain_stages (medicine_id : Z) : M Store (list SupplyChainStage.t) :=
  try_raise
    (d <- gets BLOCKCHAIN_STAGES_DATA ;;
     match d !! medicine_id with
     | None => ret []
     | Some stages => ret (map stage_with_names stages)
     end)
    query_failed.

(** The keys of a medicine that no route assigns after its creation. *)
Definition same_core (m m' : Medicine.t) : Prop :=
  Medicine.id m' = Medicine.id m
  /\ Medicine.name m' = Medicine.name m
  /\ Medicine.batchNumber m' = Medicine.batchNumber m
  /\ Medicine.manufactureDate m' = Medicine.manufactureDate m
  /\ Medicine.expiryDate m' = Medicine.expiryDate m
  /\ Medicine.manufacturer m' = Medicine.manufacturer m
  /\ Medicine.temperatureThreshold m' = Medicine.temperatureThreshold m
  /\ Medicine.temperatureSensitive m' = Medicine.temperatureSensitive m
  /\ Medicine.isActive m' = Medicine.isActive m.

(** The id that [create_medicine] computes. *)
Definition next_id (s : Store) : Z :=
  match map Medicine.id (BLOCKCHAIN_MEDICINES s) with
  | [] => 1
  | x :: xs => py_max x xs + 1
  end.

(** The ids of the stored medicines are 1, 2, ... in the order of the list. *)
Definition sequential (s : Store) : Prop :=
  map Medicine.id (BLOCKCHAIN_MEDICINES s)
  = seqZ 1 (Z.of_nat (length (BLOCKCHAIN_MEDICINES s))).

(** The status code that a request is answered with. *)
Definition answer_status (fromtimestamp : Z -> result unit) (r : request) (s : Store) : Z :=
  match r with
  | CreateMedicine now medicine =>
      http_status (fst (create_medicine fromtimestamp now medicine s))
  | TransferMedicine t1 t2 medicine_id transfer =>
      http_status (fst (transfer_medicine t1 t2 medicine_id transfer s))
  | UpdateTemperature now medicine_id u =>
      http_status (fst (update_temperature now medicine_id u s))
  | UpdateLocation now medicine_id u =>
      http_status (fst (update_location now medicine_id u s))
  | MarkMedicineExpired medicine_id =>
      http_status (fst (mark_medicine_expired medicine_id s))
  | RecallMedicine medicine_id reason =>
      http_status (fst (recall_medicine medicine_id reason s))
  end.

(** The id whose medicine and histories a request may touch: the id it
    names, and for a manufacture request the id it will assign. *)
Definition addressed (r : request) (s : Store) : Z :=
  match r with
  | CreateMedicine _ _ => next_id s
  | TransferMedicine _ _ medicine_id _ => medicine_id
  | UpdateTemperature _ medicine_id _ => medicine_id
  | UpdateLocation _ medicine_id _ => medicine_id
  | MarkMedicineExpired medicine_id => medicine_id
  | RecallMedicine medicine_id _ => medicine_id
  end.

(** Every stored medicine is active. *)
Definition all_active (s : Store) : Prop :=
  Forall (fun m => Medicine.isActive m = true) (BLOCKCHAIN_MEDICINES s).

End Main.

(** ** [blockchain_service.py]: the web3 client *)

Module BlockchainService.

(** A function of one of the two contracts, applied to its arguments. *)
Inductive ContractFunction :=
| manufactureMedicine (name batch_number : string) (expiry_date temperature_threshold : Z)
    (temperature_sensitive : bool)
| getMedicine (medicine_id : pyval)
| getTotalMedicines
| getMedicinesByBatch (batch_number : string)
| transferMedicine (medicine_id : Z) (to_address status_enum location : string)
| updateTemperature (medicine_id : Z) (temperature : string)
| updateLocation (medicine_id : Z) (location : string)
| getTemperatureHistory (medicine_id : Z)
| getLocationHistory (medicine_id : Z)
| markAsExpired (medicine_id : Z)
| recallMedicine (medicine_id : Z) (reason : string)
| getRole (address : string).

(** What [build_transaction] returns for the dict it is given. *)
Module Transaction.
Record t := {
  function : ContractFunction;
  from : string;
  gas : Z;
  gasPrice : Z;
  nonce : Z
}.
End Transaction.

(** What [sign_transaction] returns; [rawTransaction] stands for the
    encoded bytes. *)
Module SignedTransaction.
Record t := {
  rawTransaction : Transaction.t;
  private_key : string
}.
End SignedTransaction.

(** A log of a receipt as [process_receipt] decodes it. *)
Module EventData.
Record t := {
  event : string;
  args : list (string * pyval)
}.
End EventData.

Module Receipt.
Record t := {
  transactionHash : string;
  logs : list EventData.t
}.
End Receipt.

(** The keys under which the module reads the deployment descriptor. *)
Module Key.
Inductive t :=
| contracts
| AccessControl
| MedicineSupplyChain
| address
| abi
| network
| chainId.
End Key.

Definition key_name (k : Key.t) : string :=
  match k with
  | Key.contracts => "contracts"
  | Key.AccessControl => "AccessControl"
  | Key.MedicineSupplyChain => "MedicineSupplyChain"
  | Key.address => "address"
  | Key.abi => "abi"
  | Key.network => "network"
  | Key.chainId => "chainId"
  end.

(** [d.get(key)] on the items of a dict. *)
Fixpoint item (items : list (string * json)) (key : string) : option json :=
  match items with
  | [] => None
  | (k, v) :: items' => if String.eqb k key then Some v else item items' key
  end.

(** [v[key]] for one of the keys above: the item of a dict, [KeyError]
    with the [repr] of the key when the dict has none, [TypeError] on
    any value that is not a dict. *)
Definition subscript (text : fault -> string) (v : json) (k : Key.t) : result json :=
  match v with
  | JDict items =>
      match item items (key_name k) with
      | Some x => ok x
      | None => raise (PyExc KeyError ("'" +:+ key_name k +:+ "'"))
      end
  | _ => raise (PyExc TypeError (text (not_a_dict v)))
  end.

(** [v[k1][k2]...] *)
Fixpoint subscripts (text : fault -> string) (v : json) (ks : list Key.t) : result json :=
  match ks with
  | [] => ok v
  | k :: ks' => x <~ subscript text v k ;; subscripts text x ks'
  end.

(** The dict that [get_contract_info] returns; its values are those of
    the descriptor, of whatever type. *)
Module ContractInfo.
Record t := {
  accessControlAddress : json;
  medicineSupplyChainAddress : json;
  network : json;
  chainId : json
}.
End ContractInfo.

(** The dict that [get_medicine] builds from the positions of the tuple
    the contract returns. *)
Module MedicineData.
Record t := {
  id : pyval;
  name : pyval;
  batchNumber : pyval;
  manufactureDate : pyval;
  expiryDate : pyval;
  manufacturer : pyval;
  currentOwner : pyval;
  status : string;
  temperatureThreshold : pyval;
  temperatureSensitive : pyval;
  isActive : pyval
}.
End MedicineData.

(** The requests that reach the node, in the order they are made. *)
Inductive Rpc :=
| rpc_is_connected
| rpc_accounts
| rpc_gas_price
| rpc_get_transaction_count (account : string)
| rpc_send_raw_transaction (signed_txn : SignedTransaction.t)
| rpc_wait_for_transaction_receipt (tx_hash : string)
| rpc_call (f : ContractFunction).

(** The node and the contracts behind it, seen from the client: what each
    request answers in a state [N] of the ledger.  Calls read the state;
    sending a transaction and waiting for its receipt may change it.
    With them, what the libraries do on the client's side: signing, and
    the text [exception_text] that the interpreter's library gives to
    an exception of its own. *)
Record Web3 (N : Type) := {
  exception_text : fault -> string;
  w3_is_connected : N -> bool;
  eth_accounts : N -> result (list string);
  eth_gas_price : N -> result Z;
  eth_get_transaction_count : N -> string -> result Z;
  eth_account_sign_transaction : Transaction.t -> string -> result SignedTransaction.t;
  eth_send_raw_transaction : N -> SignedTransaction.t -> result string * N;
  eth_wait_for_transaction_receipt : N -> string -> result Receipt.t * N;
  call_getMedicine : N -> pyval -> result (list pyval);
  call_getTotalMedicines : N -> result Z;
  call_getMedicinesByBatch : N -> string -> result (list Z);
  call_getTemperatureHistory : N -> Z -> result (list string * list Z);
  call_getLocationHistory : N -> Z -> result (list string * list Z);
  call_getRole : N -> string -> result pyval
}.

Arguments exception_text {N}.
Arguments w3_is_connected {N}.
Arguments eth_accounts {N}.
Arguments eth_gas_price {N}.
Arguments eth_get_transaction_count {N}.
Arguments eth_account_sign_transaction {N}.
Arguments eth_send_raw_transaction {N}.
Arguments eth_wait_for_transaction_receipt {N}.
Arguments call_getMedicine {N}.
Arguments call_getTotalMedicines {N}.
Arguments call_getMedicinesByBatch {N}.
Arguments call_getTemperatureHistory {N}.
Arguments call_getLocationHistory {N}.
Arguments call_getRole {N}.

(** The ledger together with the requests made so far. *)
Record World (N : Type) := {
  node : N;
  trace : list Rpc
}.

Arguments node {N}.
Arguments trace {N}.

(** The attributes of a [BlockchainService] after [__init__], and the
    [PRIVATE_KEY] of the environment.  [setup_web3] binds the two
    contracts before it sets [connected], so they are bound whenever
    [connected] holds.  [deployment_info] is whatever [json.load]
    returned, [JNull] standing for [None]. *)
Record Service := {
  w3 : bool;
  connected : bool;
  deployment_info : json;
  PRIVATE_KEY : option string
}.

Section Methods.

Context {N : Type} (web3 : Web3 N).

Definition logged (r : Rpc) (w : World N) : World N :=
  {| node := node w; trace := (trace w ++ [r])%list |}.

(** A request that reads the ledger. *)
Definition query {A} (r : Rpc) (f : N -> result A) : M (World N) A :=
  fun w => (f (node w), logged r w).

(** A request that may change the ledger. *)
Definition command {A} (r : Rpc) (f : N -> result A * N) : M (World N) A :=
  fun w =>
    let (a, n') := f (node w) in
    (a, {| node := n'; trace := (trace w ++ [r])%list |}).

Definition not_connected : exn := PyExc Exception "Not connected to blockchain".

(** [self.connected and self.w3 is not None and self.w3.is_connected()] *)
Definition is_connected (self : Service) : M (World N) bool :=
  if connected self then
    if w3 self then query rpc_is_connected (fun n => ok (w3_is_connected web3 n))
    else ret false
  else ret false.

(** The two lines that open every method but [get_contract_info]. *)
Definition require_connected (self : Service) : M (World N) unit :=
  c <- is_connected self ;;
  if negb c then throw not_connected else ret tt.

Definition get_account (self : Service) : M (World N) string :=
  require_connected self ;;;
  accounts <- query rpc_accounts (eth_accounts web3) ;;
  match accounts with
  | [] => throw (PyExc IndexError "list index out of range")
  | a :: _ => ret a
  end.

(** The lines that every writing method repeats: build the transaction
    with the gas price and the nonce read at that moment, sign it with
    [os.getenv('PRIVATE_KEY', '')], send it and wait for the receipt. *)
Definition transact (self : Service) (account : string) (f : ContractFunction) (gas : Z)
    : M (World N) Receipt.t :=
  gas_price <- query rpc_gas_price (eth_gas_price web3) ;;
  nonce <- query (rpc_get_transaction_count account)
             (fun n => eth_get_transaction_count web3 n account) ;;
  let transaction :=
    {| Transaction.function := f;
       Transaction.from := account;
       Transaction.gas := gas;
       Transaction.gasPrice := gas_price;
       Transaction.nonce := nonce |} in
  signed_txn <- lift (eth_account_sign_transaction web3 transaction
                        (default "" (PRIVATE_KEY self))) ;;
  tx_hash <- command (rpc_send_raw_transaction signed_txn)
               (fun n => eth_send_raw_transaction web3 n signed_txn) ;;
  command (rpc_wait_for_transaction_receipt tx_hash)
    (fun n => eth_wait_for_transaction_receipt web3 n tx_hash).

(** [t[i]] on a tuple. *)
Definition index (t : list pyval) (i : nat) : result pyval :=
  match nth_error t i with
  | Some v => ok v
  | None => raise (PyExc IndexError "tuple index out of range")
  end.

(** The dict literal of [get_medicine]; its items are evaluated in order. *)
Definition decode_medicine (medicine_data : list pyval) : result MedicineData.t :=
  v0 <~ index medicine_data 0 ;;
  v1 <~ index medicine_data 1 ;;
  v2 <~ index medicine_data 2 ;;
  v3 <~ index medicine_data 3 ;;
  v4 <~ index medicine_data 4 ;;
  v5 <~ index medicine_data 5 ;;
  v6 <~ index medicine_data 6 ;;
  v7 <~ index medicine_data 7 ;;
  status <~ MedicineStatus_of_value (exception_text web3) v7 ;;
  v8 <~ index medicine_data 8 ;;
  v9 <~ index medicine_data 9 ;;
  v15 <~ index medicine_data 15 ;;
  ok {| MedicineData.id := v0;
        MedicineData.name := v1;
        MedicineData.batchNumber := v2;
        MedicineData.manufactureDate := v3;
        MedicineData.expiryDate := v4;
        MedicineData.manufacturer := v5;
        MedicineData.currentOwner := v6;
        MedicineData.status := MedicineStatus_value status;
        MedicineData.temperatureThreshold := v8;
        MedicineData.temperatureSensitive := v9;
        MedicineData.isActive := v15 |}.

(** [get_medicine]: [None] stands for Python's [None]. *)
Definition get_medicine (self : Service) (medicine_id : pyval)
    : M (World N) (option MedicineData.t) :=
  require_connected self ;;;
  try_return
    (medicine_data <- query (rpc_call (getMedicine medicine_id))
                        (fun n => call_getMedicine web3 n medicine_id) ;;
     d <- lift (decode_medicine medicine_data) ;;
     ret (Some d))
    (fun _ => None).

(** [for x in xs: medicine = await self.get_medicine(x); if medicine:
    medicines.append(medicine)] *)
Fixpoint fetch_each (self : Service) (xs : list pyval) (medicines : list MedicineData.t)
    : M (World N) (list MedicineData.t) :=
  match xs with
  | [] => ret medicines
  | x :: xs' =>
      medicine <- get_medicine self x ;;
      match medicine with
      | Some m => fetch_each self xs' (medicines ++ [m])%list
      | None => fetch_each self xs' medicines
      end
  end.

(** [range(1, total + 1)] *)
Definition range1 (total : Z) : list Z := seqZ 1 total.

Definition get_all_medicines (self : Service) : M (World N) (list MedicineData.t) :=
  require_connected self ;;;
  total_medicines <- query (rpc_call getTotalMedicines) (call_getTotalMedicines web3) ;;
  fetch_each self (map PyInt (range1 total_medicines)) [].

Definition get_medicines_by_batch (self : Service) (batch_number : string)
    : M (World N) (list MedicineData.t) :=
  require_connected self ;;;
  medicine_ids <- query (rpc_call (getMedicinesByBatch batch_number))
                    (fun n => call_getMedicinesByBatch web3 n batch_number) ;;
  fetch_each self (map PyInt medicine_ids) [].

(** [process_receipt] of the [MedicineManufactured] event: the logs of
    the receipt that are this event. *)
Definition process_receipt (event : string) (receipt : Receipt.t) : list EventData.t :=
  List.filter (fun l => String.eqb (EventData.event l) event) (Receipt.logs receipt).

(** [args['medicineId']]; the message of a [KeyError] is the [repr] of
    the key. *)
Fixpoint args_medicineId (args : list (string * pyval)) : result pyval :=
  match args with
  | [] => raise (PyExc KeyError "'medicineId'")
  | (k, v) :: args' => if String.eqb k "medicineId" then ok v else args_medicineId args'
  end.

(** [process_receipt(receipt)[0]['args']['medicineId']] *)
Definition manufactured_id (receipt : Receipt.t) : result pyval :=
  match process_receipt "MedicineManufactured" receipt with
  | [] => raise (PyExc IndexError "tuple index out of range")
  | e :: _ => args_medicineId (EventData.args e)
  end.

Definition manufacture_medicine (self : Service) (name batch_number : string)
    (expiry_date temperature_threshold : Z) (temperature_sensitive : bool)
    : M (World N) (option MedicineData.t) :=
  require_connected self ;;;
  account <- get_account self ;;
  receipt <- transact self account
               (manufactureMedicine name batch_number expiry_date
                  temperature_threshold temperature_sensitive)
               500000 ;;
  medicine_id <- lift (manufactured_id receipt) ;;
  get_medicine self medicine_id.

Definition transfer_medicine (self : Service) (medicine_id : Z)
    (to_address new_status location : string) : M (World N) string :=
  require_connected self ;;;
  account <- get_account self ;;
  status <- lift (MedicineStatus_getattr (exception_text web3) new_status) ;;
  let status_enum := MedicineStatus_value status in
  receipt <- transact self account
               (transferMedicine medicine_id to_address status_enum location) 500000 ;;
  ret (Receipt.transactionHash receipt).

Definition update_temperature (self : Service) (medicine_id : Z) (temperature : string)
    : M (World N) string :=
  require_connected self ;;;
  account <- get_account self ;;
  receipt <- transact self account (updateTemperature medicine_id temperature) 200000 ;;
  ret (Receipt.transactionHash receipt).

Definition update_location (self : Service) (medicine_id : Z) (location : string)
    : M (World N) string :=
  require_connected self ;;;
  account <- get_account self ;;
  receipt <- transact self account (updateLocation medicine_id location) 200000 ;;
  ret (Receipt.transactionHash receipt).

Definition get_temperature_history (self : Service) (medicine_id : Z)
    : M (World N) (list string * list Z) :=
  require_connected self ;;;
  query (rpc_call (getTemperatureHistory medicine_id))
    (fun n => call_getTemperatureHistory web3 n medicine_id).

Definition get_location_history (self : Service) (medicine_id : Z)
    : M (World N) (list string * list Z) :=
  require_connected self ;;;
  query (rpc_call (getLocationHistory medicine_id))
    (fun n => call_getLocationHistory web3 n medicine_id).

Definition mark_as_expired (self : Service) (medicine_id : Z) : M (World N) string :=
  require_connected self ;;;
  account <- get_account self ;;
  receipt <- transact self account (markAsExpired medicine_id) 200000 ;;
  ret (Receipt.transactionHash receipt).

Definition recall_medicine (self : Service) (medicine_id : Z) (reason : string)
    : M (World N) string :=
  require_connected self ;;;
  account <- get_account self ;;
  receipt <- transact self account (recallMedicine medicine_id reason) 200000 ;;
  ret (Receipt.transactionHash receipt).

Definition get_contract_info (self : Service) : M (World N) ContractInfo.t :=
  let d := deployment_info self in
  let text := exception_text web3 in
  if negb (truthy d) then throw (PyExc Exception "Deployment info not available")
  else
    lift
      (a1 <~ subscripts text d [Key.contracts; Key.AccessControl; Key.address] ;;
       a2 <~ subscripts text d [Key.contracts; Key.MedicineSupplyChain; Key.address] ;;
       n <~ subscripts text d [Key.network] ;;
       c <~ subscripts text d [Key.chainId] ;;
       ok {| ContractInfo.accessControlAddress := a1;
             ContractInfo.medicineSupplyChainAddress := a2;
             ContractInfo.network := n;
             ContractInfo.chainId := c |}).

Definition get_user_role (self : Service) (address : string) : M (World N) string :=
  require_connected self ;;;
  role_value <- query (rpc_call (getRole address)) (fun n => call_getRole web3 n address) ;;
  role <- lift (Role_of_value (exception_text web3) role_value) ;;
  ret (Role_value role).

(** *** Construction *)

(** What [open] and [json.load] make of [../deployment-info.json]: the
    file is missing, reading it raises something else, or it holds a
    JSON value [d].  With a value that was read comes [binding]: what
    [json.loads] of the two ABIs and [w3.eth.contract] for the two
    contracts do once [setup_web3] has found the entries it reads. *)
Inductive descriptor_file :=
| file_not_found
| load_raises (e : exn)
| loaded (d : json) (binding : result unit).

(** The entries of the descriptor that [setup_web3] reads: the ABI of
    each contract, then the address of each. *)
Definition descriptor_entries (d : json) : result unit :=
  let text := exception_text web3 in
  abi1 <~ subscripts text d [Key.contracts; Key.AccessControl; Key.abi] ;;
  abi2 <~ subscripts text d [Key.contracts; Key.MedicineSupplyChain; Key.abi] ;;
  address1 <~ subscripts text d [Key.contracts; Key.AccessControl; Key.address] ;;
  address2 <~ subscripts text d [Key.contracts; Key.MedicineSupplyChain; Key.address] ;;
  ok tt.

(** [__init__], with [load_deployment_info] and [setup_web3].  A missing
    file leaves every attribute at its initial value; any other failure
    to read the file escapes the constructor.  A value that was read is
    kept as it is, [w3] is bound and the node is asked whether it
    answers; [connected] is set when it does, the entries are there and
    the contracts could be bound: [setup_web3] catches every exception
    and leaves [connected] unset. *)
Definition init (file : descriptor_file) (private_key : option string)
    : M (World N) Service :=
  match file with
  | file_not_found =>
      ret {| w3 := false; connected := false;
             deployment_info := JNull; PRIVATE_KEY := private_key |}
  | load_raises e => throw e
  | loaded d binding =>
      answers <- query rpc_is_connected (fun n => ok (w3_is_connected web3 n)) ;;
      if negb answers
      then ret {| w3 := true; connected := false;
                  deployment_info := d; PRIVATE_KEY := private_key |}
      else
        match (entries <~ descriptor_entries d ;; binding) with
        | inl _ => ret {| w3 := true; connected := false;
                          deployment_info := d; PRIVATE_KEY := private_key |}
        | inr _ => ret {| w3 := true; connected := true;
                          deployment_info := d; PRIVATE_KEY := private_key |}
        end
  end.

(** *** What the methods depend on *)

(** The value of [is_connected] in a world. *)
Definition live (self : Service) (w : World N) : bool :=
  connected self && w3 self && w3_is_connected web3 (node w).

(** The world after [is_connected]: the node is asked only when
    [connected] is set and [w3] is bound. *)
Definition probed (self : Service) (w : World N) : World N :=
  if connected self && w3 self then logged rpc_is_connected w else w.

(** What the contract call and the decoding inside [get_medicine] make
    of an id on a ledger: the dict, or [None] when either raises. *)
Definition fetched (n : N) (medicine_id : pyval) : option MedicineData.t :=
  match call_getMedicine web3 n medicine_id with
  | inl _ => None
  | inr medicine_data =>
      match decode_medicine medicine_data with
      | inl _ => None
      | inr d => Some d
      end
  end.

(** A world after further requests that left the ledger as it was. *)
Definition extended (w : World N) (rs : list Rpc) : World N :=
  {| node := node w; trace := (trace w ++ rs)%list |}.

(** The requests of one [get_medicine] on a live connection. *)
Definition fetch_requests (medicine_id : pyval) : list Rpc :=
  [rpc_is_connected; rpc_call (getMedicine medicine_id)].

(** An outcome that is an exception. *)
Definition raises {A} (r : result A * World N) : Prop :=
  exists e w', r = (inl e, w').

End Methods.

End BlockchainService.

(** ** Concrete environments

    A platform, a clock and a scripted node, on which the statements
    below are run. *)

Module Examples.

Import BlockchainService.

(** [datetime.fromtimestamp] where local time is UTC: the years 1 to 9999. *)
Definition fromtimestamp_utc (ts : Z) : result unit :=
  if (-62135596800 <=? ts) && (ts <=? 253402300799) then ok tt
  else raise (PyExc ValueError "year is out of range").

(** The module is loaded at second [1700000000]; a day has 86400 seconds. *)
Definition days (d : Z) : Z := 1700000000 + 86400 * d.

Definition store0 : Main.Store := Main.initial_store days.

Definition to_distributor : MedicineTransfer.t :=
  {| MedicineTransfer.toAddress := Main.distributor_address;
     MedicineTransfer.newStatus := SHIPPED_TO_DISTRIBUTOR;
     MedicineTransfer.location := "Loading Dock A";
     MedicineTransfer.recipientName := None |}.

(** A store whose only medicine is switched off.  No request produces
    such a store: every medicine is seeded or created with [isActive]
    true and no route clears it. *)
Definition inactive_medicine : Main.Medicine.t :=
  {| Main.Medicine.id := 7;
     Main.Medicine.name := "Aspirin";
     Main.Medicine.batchNumber := "ASP001";
     Main.Medicine.manufactureDate := days (-30);
     Main.Medicine.expiryDate := days 365;
     Main.Medicine.manufacturer := Main.manufacturer_address;
     Main.Medicine.currentOwner := Main.manufacturer_address;
     Main.Medicine.status := MANUFACTURED;
     Main.Medicine.temperatureThreshold := 25;
     Main.Medicine.temperatureSensitive := true;
     Main.Medicine.isActive := false;
     Main.Medicine.blockchainTxHash := "0x1234567890abcdef1234567890abcdef12345678";
     Main.Medicine.blockNumber := 1001;
     Main.Medicine.gasUsed := 150000;
     Main.Medicine.currentOwnerName := None;
     Main.Medicine.statusFormatted := None |}.

Definition inactive_store : Main.Store :=
  {| Main.BLOCKCHAIN_MEDICINES := [inactive_medicine];
     Main.BLOCKCHAIN_TEMPERATURE_DATA := ∅;
     Main.BLOCKCHAIN_LOCATION_DATA := ∅;
     Main.BLOCKCHAIN_STAGES_DATA := ∅ |}.

(** The seeded store after [POST /medicines/1/expire]. *)
Definition store_expired : Main.Store := snd (Main.mark_medicine_expired 1 store0).

(** A manufacture request whose expiry date lies before the request. *)
Definition stale_request : MedicineCreate.t :=
  {| MedicineCreate.name := "Aspirin";
     MedicineCreate.batchNumber := "ASP001";
     MedicineCreate.expiryDate := 1600000000;
     MedicineCreate.temperatureThreshold := 25;
     MedicineCreate.temperatureSensitive := false |}.

(** The manufacture request of the scenario: it expires in a year. *)
Definition aspirin_request : MedicineCreate.t :=
  {| MedicineCreate.name := "Aspirin";
     MedicineCreate.batchNumber := "ASP001";
     MedicineCreate.expiryDate := days 365;
     MedicineCreate.temperatureThreshold := 25;
     MedicineCreate.temperatureSensitive := false |}.

(** The seeded store after a first manufacture request. *)
Definition store_after_create : Main.Store :=
  Main.serve fromtimestamp_utc (Main.CreateMedicine 1700000000 aspirin_request) store0.

(** The seeded insulin: medicine 2, temperature sensitive. *)
Definition insulin : Main.Medicine.t :=
  Main.seeded 2 "Insulin" "INS002" (days (-15)) (days 180)
    Main.distributor_address SHIPPED_TO_DISTRIBUTOR 8 true
    "0xabcdef1234567890abcdef1234567890abcdef12" 1002 180000.

(** The seeded aspirin: medicine 1, not temperature sensitive. *)
Definition aspirin : Main.Medicine.t :=
  Main.seeded 1 "Aspirin" "ASP001" (days (-30)) (days 365)
    Main.manufacturer_address MANUFACTURED 25 false
    "0x1234567890abcdef1234567890abcdef12345678" 1001 150000.

(** The seeded vitamin D: medicine 5, already EXPIRED. *)
Definition vitamin_d : Main.Medicine.t :=
  Main.seeded 5 "Vitamin D" "VIT005" (days (-60)) (days (-1))
    Main.patient2_address EXPIRED 25 false
    "0x90abcdef1234567890abcdef1234567890abcdef" 1005 140000.

Definition six_degrees : TemperatureUpdate.t := {| TemperatureUpdate.temperature := "6C" |}.

Definition at_the_dock : LocationUpdate.t := {| LocationUpdate.location := "Loading Dock A" |}.

(** A manufacture request whose expiry date no [datetime] can hold. *)
Definition far_request : MedicineCreate.t :=
  {| MedicineCreate.name := "Aspirin";
     MedicineCreate.batchNumber := "ASP001";
     MedicineCreate.expiryDate := 10 ^ 18;
     MedicineCreate.temperatureThreshold := 25;
     MedicineCreate.temperatureSensitive := false |}.

(** A transfer that names its recipient. *)
Definition to_corner_pharmacy : MedicineTransfer.t :=
  {| MedicineTransfer.toAddress := Main.pharmacy_address;
     MedicineTransfer.newStatus := SHIPPED_TO_PHARMACY;
     MedicineTransfer.location := "Warehouse B - Outbound";
     MedicineTransfer.recipientName := Some "Corner Pharmacy" |}.

(** A scripted node: it answers from the fields of its state, and a
    transaction leaves them as they are. *)
Record Scripted := {
  alive : bool;
  accounts : list string;
  total : Z;
  records : list (Z * list pyval);
  next_receipt : Receipt.t
}.

Definition reverted : exn := PyExc Web3Exception "execution reverted".

Fixpoint record_of (rs : list (Z * list pyval)) (i : Z) : result (list pyval) :=
  match rs with
  | [] => raise reverted
  | (k, t) :: rs' => if k =? i then ok t else record_of rs' i
  end.

(** A stand-in for the texts of the library; nothing below depends on
    their wording. *)
Definition text (f : fault) : string :=
  match f with
  | not_a_member enum _ => "not a valid " +:+ enum
  | no_value_attribute enum name => enum +:+ "." +:+ name +:+ " has no value"
  | not_a_dict _ => "not a dict"
  end.

Definition scripted : Web3 Scripted :=
  {| exception_text := text;
     w3_is_connected := alive;
     eth_accounts := fun n => ok (accounts n);
     eth_gas_price := fun _ => ok 1000000000;
     eth_get_transaction_count := fun _ _ => ok 0;
     eth_account_sign_transaction := fun t key =>
       ok {| SignedTransaction.rawTransaction := t; SignedTransaction.private_key := key |};
     eth_send_raw_transaction := fun n _ => (ok "0xabc", n);
     eth_wait_for_transaction_receipt := fun n _ => (ok (next_receipt n), n);
     call_getMedicine := fun n v =>
       match v with
       | PyInt i => record_of (records n) i
       | _ => raise (PyExc TypeError "medicineId is a uint256")
       end;
     call_getTotalMedicines := fun n => ok (total n);
     call_getMedicinesByBatch := fun _ _ => ok [];
     call_getTemperatureHistory := fun _ _ => ok ([], []);
     call_getLocationHistory := fun _ _ => ok ([], []);
     call_getRole := fun _ _ => ok (PyStr "NONE") |}.

(** The tuple of a medicine with the status as the name of the member. *)
Definition aspirin_tuple (id : Z) : list pyval :=
  [PyInt id; PyStr "Aspirin"; PyStr "ASP001"; PyInt 1700000000; PyInt 1731536000;
   PyStr Main.manufacturer_address; PyStr Main.manufacturer_address;
   PyStr "MANUFACTURED"; PyInt 25; PyBool false;
   PyInt 0; PyInt 0; PyInt 0; PyInt 0; PyInt 0; PyBool true].

Definition manufactured_receipt (id : Z) : Receipt.t :=
  {| Receipt.transactionHash := "0xabc";
     Receipt.logs :=
       [ {| EventData.event := "MedicineManufactured";
            EventData.args := [("medicineId", PyInt id); ("name", PyStr "Aspirin")] |} ] |}.

(** A live node that counts two medicines and reverts on the second. *)
Definition node_two : Scripted :=
  {| alive := true;
     accounts := [Main.manufacturer_address];
     total := 2;
     records := [(1, aspirin_tuple 1)];
     next_receipt := manufactured_receipt 1 |}.

(** The same node when it cannot be reached. *)
Definition node_down : Scripted :=
  {| alive := false;
     accounts := [Main.manufacturer_address];
     total := 2;
     records := [(1, aspirin_tuple 1)];
     next_receipt := manufactured_receipt 1 |}.

Definition world_of (n : Scripted) : World Scripted := {| node := n; trace := [] |}.

(** A descriptor with every entry that the client reads. *)
Definition deployment : json :=
  JDict
    [("network", JStr "localhost");
     ("chainId", JInt 1337);
     ("contracts",
      JDict
        [("AccessControl",
          JDict [("address", JStr "0x5FbDB2315678afecb367f032d93F642f64180aa3");
                 ("abi", JStr "[]")]);
         ("MedicineSupplyChain",
          JDict [("address", JStr "0xe7f1725E7734CE288F8367e1Bb143E90bb3F0512");
                 ("abi", JStr "[]")])])].

(** A descriptor without the entry [network]. *)
Definition deployment_without_network : json :=
  JDict
    [("chainId", JInt 1337);
     ("contracts",
      JDict
        [("AccessControl",
          JDict [("address", JStr "0x5FbDB2315678afecb367f032d93F642f64180aa3");
                 ("abi", JStr "[]")]);
         ("MedicineSupplyChain",
          JDict [("address", JStr "0xe7f1725E7734CE288F8367e1Bb143E90bb3F0512");
                 ("abi", JStr "[]")])])].

(** The service after a successful [setup_web3]. *)
Definition service_up : Service :=
  {| w3 := true; connected := true;
     deployment_info := deployment; PRIVATE_KEY := Some "0xkey" |}.

(** The service when the descriptor was read and the node did not answer:
    [setup_web3] returned before it set [connected]. *)
Definition service_down : Service :=
  {| w3 := true; connected := false;
     deployment_info := deployment; PRIVATE_KEY := Some "0xkey" |}.

(** The tuple of a medicine with the status as a number, the way an
    ABI encodes an enumeration. *)
Definition numbered_tuple (id : Z) : list pyval :=
  [PyInt id; PyStr "Aspirin"; PyStr "ASP001"; PyInt 1700000000; PyInt 1731536000;
   PyStr Main.manufacturer_address; PyStr Main.manufacturer_address;
   PyInt 0; PyInt 25; PyBool false;
   PyInt 0; PyInt 0; PyInt 0; PyInt 0; PyInt 0; PyBool true].

(** A live node whose contract holds two medicines with numbered statuses. *)
Definition node_numbered : Scripted :=
  {| alive := true;
     accounts := [Main.manufacturer_address];
     total := 2;
     records := [(1, numbered_tuple 1); (2, numbered_tuple 2)];
     next_receipt := manufactured_receipt 1 |}.

(** A live node whose receipts carry no event. *)
Definition node_silent : Scripted :=
  {| alive := true;
     accounts := [Main.manufacturer_address];
     total := 2;
     records := [(1, aspirin_tuple 1)];
     next_receipt := {| Receipt.transactionHash := "0xabc"; Receipt.logs := [] |} |}.

(** A live node without accounts. *)
Definition node_without_accounts : Scripted :=
  {| alive := true;
     accounts := [];
     total := 2;
     records := [(1, aspirin_tuple 1)];
     next_receipt := manufactured_receipt 1 |}.

(** The scripted node with a batch index: batch "ASP001" holds the ids 1
    and 2. *)
Definition indexed : Web3 Scripted :=
  {| exception_text := exception_text scripted;
     w3_is_connected := w3_is_connected scripted;
     eth_accounts := eth_accounts scripted;
     eth_gas_price := eth_gas_price scripted;
     eth_get_transaction_count := eth_get_transaction_count scripted;
     eth_account_sign_transaction := eth_account_sign_transaction scripted;
     eth_send_raw_transaction := eth_send_raw_transaction scripted;
     eth_wait_for_transaction_receipt := eth_wait_for_transaction_receipt scripted;
     call_getMedicine := call_getMedicine scripted;
     call_getTotalMedicines := call_getTotalMedicines scripted;
     call_getMedicinesByBatch := fun _ batch =>
       if String.eqb batch "ASP001" then ok [1; 2] else ok [];
     call_getTemperatureHistory := call_getTemperatureHistory scripted;
     call_getLocationHistory := call_getLocationHistory scripted;
     call_getRole := call_getRole scripted |}.

(** The scripted node when its contract reverts every transaction. *)
Definition refusing : Web3 Scripted :=
  {| exception_text := exception_text scripted;
     w3_is_connected := w3_is_connected scripted;
     eth_accounts := eth_accounts scripted;
     eth_gas_price := eth_gas_price scripted;
     eth_get_transaction_count := eth_get_transaction_count scripted;
     eth_account_sign_transaction := eth_account_sign_transaction scripted;
     eth_send_raw_transaction := fun n _ => (raise reverted, n);
     eth_wait_for_transaction_receipt := eth_wait_for_transaction_receipt scripted;
     call_getMedicine := call_getMedicine scripted;
     call_getTotalMedicines := call_getTotalMedicines scripted;
     call_getMedicinesByBatch := call_getMedicinesByBatch scripted;
     call_getTemperatureHistory := call_getTemperatureHistory scripted;
     call_getLocationHistory := call_getLocationHistory scripted;
     call_getRole := call_getRole scripted |}.

(** The scripted node when its contract returns the role as a number,
    the way an ABI encodes an enumeration. *)
Definition numbering : Web3 Scripted :=
  {| exception_text := exception_text scripted;
     w3_is_connected := w3_is_connected scripted;
     eth_accounts := eth_accounts scripted;
     eth_gas_price := eth_gas_price scripted;
     eth_get_transaction_count := eth_get_transaction_count scripted;
     eth_account_sign_transaction := eth_account_sign_transaction scripted;
     eth_send_raw_transaction := eth_send_raw_transaction scripted;
     eth_wait_for_transaction_receipt := eth_wait_for_transaction_receipt scripted;
     call_getMedicine := call_getMedicine scripted;
     call_getTotalMedicines := call_getTotalMedicines scripted;
     call_getMedicinesByBatch := call_getMedicinesByBatch scripted;
     call_getTemperatureHistory := call_getTemperatureHistory scripted;
     call_getLocationHistory := call_getLocationHistory scripted;
     call_getRole := fun _ _ => ok (PyInt 1) |}.

End Examples.

(** * Properties *)

(** ** The routes of [main.py] *)

Section Routes.

Import Main.

(** Unfold the sequencing of a route down to its state function. *)
Ltac run :=
  unfold try_raise, bind, gets, modify, ret, throw, lift, try_except; simpl.

Lemma find_mutate_first medicine_id f l :
  (forall m, Medicine.id (f m) = Medicine.id m) ->
  find (fun m => Medicine.id m =? medicine_id) (mutate_first medicine_id f l)
  = option_map f (find (fun m => Medicine.id m =? medicine_id) l).
Proof.
  intros Hid. induction l as [|a l IH]; simpl; [reflexivity|].
  destruct (Medicine.id a =? medicine_id) eqn:E; simpl.
  - rewrite Hid, E. reflexivity.
  - rewrite E. exact IH.
Qed.

Lemma lookup_mutate_first medicine_id f s :
  (forall m, Medicine.id (f m) = Medicine.id m) ->
  lookup_medicine medicine_id
    (set_medicines (mutate_first medicine_id f (BLOCKCHAIN_MEDICINES s)) s)
  = option_map f (lookup_medicine medicine_id s).
Proof. intros Hid. unfold lookup_medicine. simpl. now apply find_mutate_first. Qed.

Lemma mutate_first_length medicine_id f l :
  length (mutate_first medicine_id f l) = length l.
Proof.
  induction l as [|a l IH]; simpl; [reflexivity|].
  destruct (Medicine.id a =? medicine_id); simpl; congruence.
Qed.

Lemma mutate_first_Forall (P : Medicine.t -> Prop) medicine_id f l :
  (forall m, P m -> P (f m)) -> Forall P l -> Forall P (mutate_first medicine_id f l).
Proof.
  intros Hf. induction 1 as [|a l Ha Hl IH]; simpl; [constructor|].
  destruct (Medicine.id a =? medicine_id); constructor; auto.
Qed.

(** What each writing route does once the id is found. *)

Lemma transfer_medicine_found t1 t2 medicine_id transfer s m :
  lookup_medicine medicine_id s = Some m ->
  exists resp s',
    transfer_medicine t1 t2 medicine_id transfer s = (inr resp, s')
    /\ TransferResult.success resp = true
    /\ BLOCKCHAIN_MEDICINES s'
       = mutate_first medicine_id (transferred medicine_id transfer) (BLOCKCHAIN_MEDICINES s)
    /\ BLOCKCHAIN_TEMPERATURE_DATA s' = BLOCKCHAIN_TEMPERATURE_DATA s
    /\ lookup_medicine medicine_id s' = Some (transferred medicine_id transfer m).
Proof.
  intros Hm. unfold transfer_medicine. run. rewrite Hm. simpl.
  eexists _, _. split; [reflexivity|]. simpl. repeat split.
  pose proof (lookup_mutate_first medicine_id (transferred medicine_id transfer) s
                (fun _ => eq_refl)) as H.
  rewrite Hm in H. exact H.
Qed.

Lemma transfer_medicine_missing t1 t2 medicine_id transfer s :
  lookup_medicine medicine_id s = None ->
  transfer_medicine t1 t2 medicine_id transfer s
  = (inl (transaction_failed not_found), s).
Proof. intros Hm. unfold transfer_medicine. run. rewrite Hm. reflexivity. Qed.

Lemma mark_medicine_expired_found medicine_id s m :
  lookup_medicine medicine_id s = Some m ->
  exists resp s',
    mark_medicine_expired medicine_id s = (inr resp, s')
    /\ UpdateResult.success resp = true
    /\ BLOCKCHAIN_MEDICINES s'
       = mutate_first medicine_id
           (finalised EXPIRED ("0xexpire" +:+ format_040x medicine_id)
              (3000 + medicine_id) 80000)
           (BLOCKCHAIN_MEDICINES s)
    /\ lookup_medicine medicine_id s'
       = Some (finalised EXPIRED ("0xexpire" +:+ format_040x medicine_id)
                 (3000 + medicine_id) 80000 m).
Proof.
  intros Hm. unfold mark_medicine_expired. run. rewrite Hm. simpl.
  eexists _, _. split; [reflexivity|]. simpl. repeat split.
  pose proof (lookup_mutate_first medicine_id
                (finalised EXPIRED ("0xexpire" +:+ format_040x medicine_id)
                   (3000 + medicine_id) 80000) s (fun _ => eq_refl)) as H.
  rewrite Hm in H. exact H.
Qed.

Lemma recall_medicine_found medicine_id reason s m :
  lookup_medicine medicine_id s = Some m ->
  exists resp s',
    recall_medicine medicine_id reason s = (inr resp, s')
    /\ RecallResult.success resp = true
    /\ BLOCKCHAIN_MEDICINES s'
       = mutate_first medicine_id
           (finalised RECALLED ("0xrecall" +:+ format_040x medicine_id)
              (4000 + medicine_id) 100000)
           (BLOCKCHAIN_MEDICINES s)
    /\ lookup_medicine medicine_id s'
       = Some (finalised RECALLED ("0xrecall" +:+ format_040x medicine_id)
                 (4000 + medicine_id) 100000 m).
Proof.
  intros Hm. unfold recall_medicine. run. rewrite Hm. simpl.
  eexists _, _. split; [reflexivity|]. simpl. repeat split.
  pose proof (lookup_mutate_first medicine_id
                (finalised RECALLED ("0xrecall" +:+ format_040x medicine_id)
                   (4000 + medicine_id) 100000) s (fun _ => eq_refl)) as H.
  rewrite Hm in H. exact H.
Qed.

Lemma get_medicine_found medicine_id s m :
  lookup_active_medicine medicine_id s = Some m ->
  get_medicine medicine_id s = (inr (with_names m), s).
Proof. intros Hm. unfold get_medicine. run. rewrite Hm. reflexivity. Qed.

Lemma get_medicine_missing medicine_id s :
  lookup_active_medicine medicine_id s = None ->
  get_medicine medicine_id s = (inl (query_failed not_found), s).
Proof. intros Hm. unfold get_medicine. run. rewrite Hm. reflexivity. Qed.

(** *** Reading a medicine that is not there *)

Lemma get_medicine_missing_status medicine_id s :
  lookup_active_medicine medicine_id s = None ->
  http_status (fst (get_medicine medicine_id s)) = 500.
Proof. intros H. rewrite (get_medicine_missing _ _ H). reflexivity. Qed.

(** C1 (defect of the code).  [GET /medicines/9999] on the seeded store
    does not answer 404: the [HTTPException(404)] that the route raises
    inside its [try] block is caught by its own [except Exception]
    clause and raised again as an [HTTPException(500)] whose detail
    quotes the 404. *)
Theorem get_medicine_9999_answers_500 (days : Z -> Z) :
  get_medicine 9999 (initial_store days)
  = (inl (HTTPException 500
            "Blockchain query failed: 404: Medicine not found on blockchain"),
     initial_store days).
Proof. reflexivity. Qed.

(** *** Transfers out of EXPIRED and RECALLED *)

(** C2, counterexample.  On the seeded store medicine 1 is marked as
    expired; the transfer that follows answers 200 and the medicine is
    SHIPPED_TO_DISTRIBUTOR, owned by the distributor. *)
Lemma transfer_after_expiry_is_accepted :
  option_map Medicine.status (lookup_medicine 1 Examples.store_expired) = Some EXPIRED
  /\ http_status
       (fst (transfer_medicine 1700000100 1700000100 1 Examples.to_distributor
               Examples.store_expired)) = 200
  /\ option_map Medicine.status
       (lookup_medicine 1
          (snd (transfer_medicine 1700000100 1700000100 1 Examples.to_distributor
                  Examples.store_expired)))
     = Some SHIPPED_TO_DISTRIBUTOR.
Proof. repeat split; vm_compute; reflexivity. Qed.

(** C2, as amended.  After [mark_medicine_expired] (or [recall_medicine])
    on a stored id the medicine is EXPIRED (or RECALLED), and the route
    makes no check of the status it overwrites: a transfer on the same
    id that follows is accepted, answers success, and leaves the
    medicine with the requested status and owner. *)
Theorem terminal_status_is_overwritten s medicine_id m reason t1 t2 transfer :
  lookup_medicine medicine_id s = Some m ->
  option_map Medicine.status
    (lookup_medicine medicine_id (snd (mark_medicine_expired medicine_id s))) = Some EXPIRED
  /\ option_map Medicine.status
       (lookup_medicine medicine_id (snd (recall_medicine medicine_id reason s)))
     = Some RECALLED
  /\ forall s1,
       s1 = snd (mark_medicine_expired medicine_id s)
       \/ s1 = snd (recall_medicine medicine_id reason s) ->
       exists resp s2 m2,
         transfer_medicine t1 t2 medicine_id transfer s1 = (inr resp, s2)
         /\ TransferResult.success resp = true
         /\ lookup_medicine medicine_id s2 = Some m2
         /\ Medicine.status m2 = MedicineTransfer.newStatus transfer
         /\ Medicine.currentOwner m2 = MedicineTransfer.toAddress transfer.
Proof.
  intros Hm.
  destruct (mark_medicine_expired_found medicine_id s m Hm)
    as (re & se & Ee & _ & _ & Le).
  destruct (recall_medicine_found medicine_id reason s m Hm)
    as (rr & sr & Er & _ & _ & Lr).
  rewrite Ee, Er. simpl. rewrite Le, Lr. simpl.
  split; [reflexivity|]. split; [reflexivity|].
  intros s1 [-> | ->].
  - destruct (transfer_medicine_found t1 t2 medicine_id transfer se _ Le)
      as (resp & s2 & E & Hs & _ & _ & L).
    exists resp, s2. eexists. repeat split; eauto.
  - destruct (transfer_medicine_found t1 t2 medicine_id transfer sr _ Lr)
      as (resp & s2 & E & Hs & _ & _ & L).
    exists resp, s2. eexists. repeat split; eauto.
Qed.

Lemma terminal_status_is_overwritten_witness :
  lookup_medicine 5 Examples.store0 = Some Examples.vitamin_d
  /\ (option_map Medicine.status
        (lookup_medicine 5 (snd (mark_medicine_expired 5 Examples.store0))) = Some EXPIRED
      /\ option_map Medicine.status
           (lookup_medicine 5 (snd (recall_medicine 5 "contaminated" Examples.store0)))
         = Some RECALLED
      /\ forall s1,
           s1 = snd (mark_medicine_expired 5 Examples.store0)
           \/ s1 = snd (recall_medicine 5 "contaminated" Examples.store0) ->
           exists resp s2 m2,
             transfer_medicine 1700000100 1700000200 5 Examples.to_distributor s1
             = (inr resp, s2)
             /\ TransferResult.success resp = true
             /\ lookup_medicine 5 s2 = Some m2
             /\ Medicine.status m2 = SHIPPED_TO_DISTRIBUTOR
             /\ Medicine.currentOwner m2 = distributor_address).
Proof.
  split; [reflexivity|].
  apply (terminal_status_is_overwritten Examples.store0 5
           Examples.vitamin_d
           "contaminated" 1700000100 1700000200 Examples.to_distributor).
  reflexivity.
Defined.

(** *** Manufacture *)

(** C3, counterexample.  A request whose expiry date (1600000000) lies
    before the time of the request (1700000000) is accepted: the
    medicine returned is MANUFACTURED and active, and its manufacture
    date is after its expiry date. *)
Lemma create_medicine_accepts_past_expiry :
  exists r,
    fst (create_medicine Examples.fromtimestamp_utc 1700000000 Examples.stale_request
           Examples.store0) = inr r
    /\ MedicineResponse.status r = "MANUFACTURED"
    /\ MedicineResponse.isActive r = true
    /\ MedicineResponse.manufactureDate r = 1700000000
    /\ MedicineResponse.expiryDate r = 1600000000
    /\ MedicineResponse.expiryDate r < MedicineResponse.manufactureDate r.
Proof. eexists. split; [vm_compute; reflexivity|]. repeat split. Qed.

(** C3, as amended.  For every manufacture input whose expiry date
    [datetime.fromtimestamp] accepts, the route returns a medicine with
    status MANUFACTURED, active, manufactured at the time of the
    request and expiring when the input says; so manufactureDate <=
    expiryDate holds exactly when the expiry date supplied is not
    before the time of the request. *)
Theorem created_medicine_fields fromtimestamp now medicine s :
  fromtimestamp (MedicineCreate.expiryDate medicine) = inr tt ->
  exists r s',
    create_medicine fromtimestamp now medicine s = (inr r, s')
    /\ MedicineResponse.status r = "MANUFACTURED"
    /\ MedicineResponse.isActive r = true
    /\ MedicineResponse.manufactureDate r = now
    /\ MedicineResponse.expiryDate r = MedicineCreate.expiryDate medicine
    /\ (MedicineResponse.manufactureDate r <= MedicineResponse.expiryDate r
        <-> now <= MedicineCreate.expiryDate medicine).
Proof.
  intros Hts. unfold create_medicine. run. rewrite Hts. simpl.
  eexists _, _. split; [reflexivity|]. simpl. repeat split; auto.
Qed.

Lemma created_medicine_fields_witness :
  Examples.fromtimestamp_utc (MedicineCreate.expiryDate Examples.aspirin_request) = inr tt
  /\ exists r s',
       create_medicine Examples.fromtimestamp_utc 1700000000 Examples.aspirin_request
         Examples.store0 = (inr r, s')
       /\ MedicineResponse.status r = "MANUFACTURED"
       /\ MedicineResponse.isActive r = true
       /\ MedicineResponse.manufactureDate r = 1700000000
       /\ MedicineResponse.expiryDate r = MedicineCreate.expiryDate Examples.aspirin_request
       /\ (MedicineResponse.manufactureDate r <= MedicineResponse.expiryDate r
           <-> 1700000000 <= MedicineCreate.expiryDate Examples.aspirin_request).
Proof.
  split; [reflexivity|].
  apply (created_medicine_fields Examples.fromtimestamp_utc 1700000000
           Examples.aspirin_request Examples.store0).
  reflexivity.
Defined.

(** *** Every medicine that the routes store is active *)

Lemma serve_all_active fromtimestamp r s :
  all_active s -> all_active (serve fromtimestamp r s).
Proof.
  unfold all_active. intros H. destruct r as [now c|t1 t2 i tr|now i u|now i u|i|i reason]; simpl.
  - unfold create_medicine. run.
    destruct (fromtimestamp (MedicineCreate.expiryDate c)) as [e|[]]; simpl; [exact H|].
    apply Forall_app. split; [exact H|]. repeat constructor.
  - unfold transfer_medicine. run.
    destruct (lookup_medicine i s); simpl; [|exact H].
    apply mutate_first_Forall; auto.
  - unfold update_temperature. run.
    destruct (lookup_medicine i s) as [m|]; simpl; [|exact H].
    destruct (Medicine.temperatureSensitive m); simpl; exact H.
  - unfold update_location. run.
    destruct (lookup_medicine i s); simpl; exact H.
  - unfold mark_medicine_expired. run.
    destruct (lookup_medicine i s); simpl; [|exact H].
    apply mutate_first_Forall; auto.
  - unfold recall_medicine. run.
    destruct (lookup_medicine i s); simpl; [|exact H].
    apply mutate_first_Forall; auto.
Qed.

Lemma reachable_all_active fromtimestamp days s :
  reachable fromtimestamp days s -> all_active s.
Proof.
  induction 1 as [|s r _ IH].
  - unfold all_active. simpl. repeat constructor.
  - now apply serve_all_active.
Qed.

Lemma lookup_active_all_active medicine_id s :
  all_active s -> lookup_active_medicine medicine_id s = lookup_medicine medicine_id s.
Proof.
  unfold all_active, lookup_active_medicine, lookup_medicine.
  induction 1 as [|a l Ha _ IH]; simpl; [reflexivity|].
  rewrite Ha, andb_true_r. destruct (Medicine.id a =? medicine_id); [reflexivity|exact IH].
Qed.

Lemma lookup_medicine_In m s :
  In m (BLOCKCHAIN_MEDICINES s) ->
  exists m', lookup_medicine (Medicine.id m) s = Some m'.
Proof.
  intros Hin. unfold lookup_medicine.
  destruct (find (fun x => Medicine.id x =? Medicine.id m) (BLOCKCHAIN_MEDICINES s)) eqn:E;
    [eauto|].
  apply (find_none _ _ E) in Hin. rewrite Z.eqb_refl in Hin. discriminate.
Qed.

(** The transfer and the read that follows, on a medicine that is active. *)
Lemma transfer_then_get_active t1 t2 medicine_id transfer s m :
  lookup_medicine medicine_id s = Some m ->
  Medicine.isActive m = true ->
  exists resp s' r,
    transfer_medicine t1 t2 medicine_id transfer s = (inr resp, s')
    /\ TransferResult.success resp = true
    /\ get_medicine medicine_id s' = (inr r, s')
    /\ MedicineResponse.currentOwner r = MedicineTransfer.toAddress transfer
    /\ MedicineResponse.status r = MedicineStatus_value (MedicineTransfer.newStatus transfer).
Proof.
  intros Hm Hact.
  destruct (transfer_medicine_found t1 t2 medicine_id transfer s m Hm)
    as (resp & s' & E & Hs & Hmeds & _ & L).
  exists resp, s', (with_names (transferred medicine_id transfer m)).
  repeat split; auto.
  apply get_medicine_found.
  unfold lookup_active_medicine. unfold lookup_medicine in L.
  revert L. generalize (BLOCKCHAIN_MEDICINES s'). intros l.
  induction l as [|a l IH]; simpl; [discriminate|].
  destruct (Medicine.id a =? medicine_id); simpl.
  - intros [= ->]. simpl. rewrite Hact. reflexivity.
  - exact IH.
Qed.

(** C7.  In every store that the routes can produce, for every medicine
    stored, the transfer to an address with a status succeeds, and the
    read of the same id that follows it returns a record whose
    currentOwner is that address and whose status is that status. *)
Theorem transfer_then_get_medicine fromtimestamp days s m t1 t2 transfer :
  reachable fromtimestamp days s ->
  In m (BLOCKCHAIN_MEDICINES s) ->
  exists resp s' r,
    transfer_medicine t1 t2 (Medicine.id m) transfer s = (inr resp, s')
    /\ TransferResult.success resp = true
    /\ get_medicine (Medicine.id m) s' = (inr r, s')
    /\ MedicineResponse.currentOwner r = MedicineTransfer.toAddress transfer
    /\ MedicineResponse.status r = MedicineStatus_value (MedicineTransfer.newStatus transfer).
Proof.
  intros Hreach Hin.
  pose proof (reachable_all_active _ _ _ Hreach) as Hall.
  destruct (lookup_medicine_In m s Hin) as [m' Hm'].
  apply transfer_then_get_active with (m := m'); [exact Hm'|].
  unfold all_active in Hall. rewrite List.Forall_forall in Hall. apply Hall.
  unfold lookup_medicine in Hm'. apply find_some in Hm'. tauto.
Qed.

Lemma transfer_then_get_medicine_witness :
  reachable Examples.fromtimestamp_utc Examples.days Examples.store_after_create
  /\ In Examples.insulin (BLOCKCHAIN_MEDICINES Examples.store_after_create)
  /\ exists resp s' r,
       transfer_medicine 1700000100 1700000200 (Medicine.id Examples.insulin)
         Examples.to_distributor Examples.store_after_create = (inr resp, s')
       /\ TransferResult.success resp = true
       /\ get_medicine (Medicine.id Examples.insulin) s' = (inr r, s')
       /\ MedicineResponse.currentOwner r = distributor_address
       /\ MedicineResponse.status r = "SHIPPED_TO_DISTRIBUTOR".
Proof.
  assert (Hr : reachable Examples.fromtimestamp_utc Examples.days Examples.store_after_create)
    by (apply reachable_serve, reachable_initial).
  assert (Hi : In Examples.insulin (BLOCKCHAIN_MEDICINES Examples.store_after_create))
    by (right; left; reflexivity).
  split; [exact Hr|]. split; [exact Hi|].
  exact (transfer_then_get_medicine Examples.fromtimestamp_utc Examples.days
           Examples.store_after_create Examples.insulin 1700000100 1700000200
           Examples.to_distributor Hr Hi).
Defined.

(** X22.  On the stores that the routes can produce, [GET /medicines]
    returns as many records as [GET /health] counts. *)
Lemma get_medicines_size_reachable fromtimestamp days s :
  reachable fromtimestamp days s ->
  exists rs h,
    get_medicines s = (inr rs, s)
    /\ health_check s = (inr h, s)
    /\ Z.of_nat (length rs) = Health.total_medicines h.
Proof.
  intros Hreach. apply reachable_all_active in Hreach.
  unfold get_medicines, health_check. run.
  eexists _, _. split; [reflexivity|]. split; [reflexivity|]. simpl.
  rewrite length_map. f_equal. f_equal.
  unfold all_active in Hreach. induction Hreach as [|a l Ha _ IH]; simpl; [reflexivity|].
  rewrite Ha. simpl. now rewrite IH.
Qed.

(** *** Histories *)

Lemma combine_map {A B C} (f : A -> B) (g : A -> C) (l : list A) :
  combine (map f l) (map g l) = map (fun x => (f x, g x)) l.
Proof. induction l as [|a l IH]; simpl; [reflexivity|]. now rewrite IH. Qed.

Lemma lookup_append_at {A} (k : Z) (x : A) (d : gmap Z (list A)) :
  append_at k x d !! k = Some (default [] (d !! k) ++ [x])%list.
Proof. unfold append_at. apply lookup_insert_eq. Qed.

Lemma lookup_append_at_ne {A} (k k' : Z) (x : A) (d : gmap Z (list A)) :
  k <> k' -> append_at k x d !! k' = d !! k'.
Proof. intros H. unfold append_at. now apply lookup_insert_ne. Qed.

(** C8.  In every store, hence in every store that the routes can
    produce, and for every id, the temperature history and the location
    history each return their values and their timestamps with the same
    length, and the i-th value and the i-th timestamp are those of the
    i-th stored entry; the transaction hashes are aligned with them too. *)
Theorem histories_are_aligned s medicine_id :
  (exists r,
     get_temperature_history medicine_id s = (inr r, s)
     /\ length (TemperatureHistoryResponse.temperatures r)
        = length (TemperatureHistoryResponse.timestamps r)
     /\ length (TemperatureHistoryResponse.transactionHashes r)
        = length (TemperatureHistoryResponse.timestamps r)
     /\ combine (TemperatureHistoryResponse.temperatures r)
                (TemperatureHistoryResponse.timestamps r)
        = map (fun d => (Reading.temperature d, Reading.timestamp d))
              (default [] (BLOCKCHAIN_TEMPERATURE_DATA s !! medicine_id)))
  /\ (exists r,
        get_location_history medicine_id s = (inr r, s)
        /\ length (LocationHistoryResponse.locations r)
           = length (LocationHistoryResponse.timestamps r)
        /\ length (LocationHistoryResponse.transactionHashes r)
           = length (LocationHistoryResponse.timestamps r)
        /\ combine (LocationHistoryResponse.locations r)
                   (LocationHistoryResponse.timestamps r)
           = map (fun d => (LocationEvent.location d, LocationEvent.timestamp d))
                 (default [] (BLOCKCHAIN_LOCATION_DATA s !! medicine_id))).
Proof.
  split.
  - unfold get_temperature_history. run.
    destruct (BLOCKCHAIN_TEMPERATURE_DATA s !! medicine_id) as [data|]; simpl;
      eexists; (split; [reflexivity|]); simpl;
      rewrite ?length_map, ?combine_map; auto.
  - unfold get_location_history. run.
    destruct (BLOCKCHAIN_LOCATION_DATA s !! medicine_id) as [data|]; simpl;
      eexists; (split; [reflexivity|]); simpl;
      rewrite ?length_map, ?combine_map; auto.
Qed.

(** *** Temperature and location updates *)

Lemma update_temperature_rejected now medicine_id temp_update s m :
  lookup_medicine medicine_id s = Some m ->
  Medicine.temperatureSensitive m = false ->
  update_temperature now medicine_id temp_update s
  = (inl (HTTPException 400
            "Blockchain transaction failed: 400: Medicine is not temperature sensitive"),
     s).
Proof.
  intros Hm Hs. unfold update_temperature. run. rewrite Hm. simpl. rewrite Hs. reflexivity.
Qed.

Lemma update_temperature_accepted now medicine_id temp_update s m :
  lookup_medicine medicine_id s = Some m ->
  Medicine.temperatureSensitive m = true ->
  exists resp s',
    update_temperature now medicine_id temp_update s = (inr resp, s')
    /\ UpdateResult.success resp = true
    /\ BLOCKCHAIN_MEDICINES s' = BLOCKCHAIN_MEDICINES s
    /\ BLOCKCHAIN_TEMPERATURE_DATA s' !! medicine_id
       = Some (default [] (BLOCKCHAIN_TEMPERATURE_DATA s !! medicine_id)
               ++ [ {| Reading.temperature := TemperatureUpdate.temperature temp_update;
                       Reading.timestamp := now;
                       Reading.txHash := "0xtemp" +:+ format_040x medicine_id |} ])%list.
Proof.
  intros Hm Hs. unfold update_temperature. run. rewrite Hm. simpl. rewrite Hs. simpl.
  eexists _, _. split; [reflexivity|]. simpl. repeat split. apply lookup_append_at.
Qed.

Lemma update_location_found now medicine_id location_update s m :
  lookup_medicine medicine_id s = Some m ->
  exists resp s',
    update_location now medicine_id location_update s = (inr resp, s')
    /\ UpdateResult.success resp = true
    /\ BLOCKCHAIN_MEDICINES s' = BLOCKCHAIN_MEDICINES s
    /\ BLOCKCHAIN_LOCATION_DATA s' !! medicine_id
       = Some (default [] (BLOCKCHAIN_LOCATION_DATA s !! medicine_id)
               ++ [ {| LocationEvent.location := LocationUpdate.location location_update;
                       LocationEvent.timestamp := now;
                       LocationEvent.txHash := "0xloc" +:+ format_040x medicine_id |} ])%list.
Proof.
  intros Hm. unfold update_location. run. rewrite Hm. simpl.
  eexists _, _. split; [reflexivity|]. simpl. repeat split. apply lookup_append_at.
Qed.

(** C9.  For a stored medicine that is not temperature sensitive,
    [update_temperature] answers 400 and leaves the store, and with it
    the temperature history, as it was; [update_location] makes no such
    test: for any stored medicine it answers success and appends the
    location to the history of the id. *)
Theorem temperature_is_gated_location_is_not
    s medicine_id m now temp_update location_update :
  lookup_medicine medicine_id s = Some m ->
  (Medicine.temperatureSensitive m = false ->
     http_status (fst (update_temperature now medicine_id temp_update s)) = 400
     /\ snd (update_temperature now medicine_id temp_update s) = s
     /\ get_temperature_history medicine_id
          (snd (update_temperature now medicine_id temp_update s))
        = get_temperature_history medicine_id s)
  /\ exists resp s',
       update_location now medicine_id location_update s = (inr resp, s')
       /\ UpdateResult.success resp = true
       /\ BLOCKCHAIN_LOCATION_DATA s' !! medicine_id
          = Some (default [] (BLOCKCHAIN_LOCATION_DATA s !! medicine_id)
                  ++ [ {| LocationEvent.location := LocationUpdate.location location_update;
                          LocationEvent.timestamp := now;
                          LocationEvent.txHash := "0xloc" +:+ format_040x medicine_id |} ])%list.
Proof.
  intros Hm. split.
  - intros Hs. rewrite (update_temperature_rejected now _ temp_update _ _ Hm Hs).
    simpl. auto.
  - destruct (update_location_found now medicine_id location_update s m Hm)
      as (resp & s' & E & Hok & _ & L).
    exists resp, s'. auto.
Qed.

Lemma temperature_is_gated_location_is_not_witness :
  lookup_medicine 1 Examples.store0 = Some Examples.aspirin
  /\ ((Medicine.temperatureSensitive Examples.aspirin = false ->
         http_status (fst (update_temperature 1700000100 1 Examples.six_degrees
                             Examples.store0)) = 400
         /\ snd (update_temperature 1700000100 1 Examples.six_degrees Examples.store0)
            = Examples.store0
         /\ get_temperature_history 1
              (snd (update_temperature 1700000100 1 Examples.six_degrees Examples.store0))
            = get_temperature_history 1 Examples.store0)
      /\ exists resp s',
           update_location 1700000100 1 Examples.at_the_dock Examples.store0 = (inr resp, s')
           /\ UpdateResult.success resp = true
           /\ BLOCKCHAIN_LOCATION_DATA s' !! 1
              = Some (default [] (BLOCKCHAIN_LOCATION_DATA Examples.store0 !! 1)
                      ++ [ {| LocationEvent.location := "Loading Dock A";
                              LocationEvent.timestamp := 1700000100;
                              LocationEvent.txHash := "0xloc" +:+ format_040x 1 |} ])%list).
Proof.
  split; [reflexivity|].
  apply (temperature_is_gated_location_is_not Examples.store0 1 Examples.aspirin
           1700000100 Examples.six_degrees Examples.at_the_dock).
  reflexivity.
Defined.

(** *** Medicines that are switched off *)

Lemma with_names_isActive m :
  MedicineResponse.isActive (with_names m) = Medicine.isActive m.
Proof. reflexivity. Qed.

Lemma get_medicines_active s :
  exists rs,
    get_medicines s = (inr rs, s)
    /\ rs = map with_names (List.filter Medicine.isActive (BLOCKCHAIN_MEDICINES s))
    /\ Forall (fun r => MedicineResponse.isActive r = true) rs.
Proof.
  unfold get_medicines. run. eexists. split; [reflexivity|]. split; [reflexivity|].
  rewrite List.Forall_forall. intros r Hr. apply in_map_iff in Hr.
  destruct Hr as (m & <- & Hm). apply filter_In in Hm. apply Hm.
Qed.

Lemma get_medicines_by_batch_active batch_number s :
  exists r,
    get_medicines_by_batch batch_number s = (inr r, s)
    /\ BatchResponse.batchNumber r = batch_number
    /\ Forall (fun r => MedicineResponse.isActive r = true
                        /\ MedicineResponse.batchNumber r = batch_number)
              (BatchResponse.medicines r).
Proof.
  unfold get_medicines_by_batch. run. eexists. split; [reflexivity|]. split; [reflexivity|].
  simpl. rewrite List.Forall_forall. intros r Hr. apply in_map_iff in Hr.
  destruct Hr as (m & <- & Hm). apply filter_In in Hm. destruct Hm as [_ Hm].
  apply andb_true_iff in Hm. destruct Hm as [Hb Ha]. apply String.eqb_eq in Hb.
  split; [exact Ha|exact Hb].
Qed.

Lemma get_medicine_active medicine_id s r :
  fst (get_medicine medicine_id s) = inr r ->
  MedicineResponse.isActive r = true /\ MedicineResponse.id r = medicine_id.
Proof.
  destruct (lookup_active_medicine medicine_id s) as [m|] eqn:E.
  - rewrite (get_medicine_found _ _ _ E). simpl. intros [= <-].
    unfold lookup_active_medicine in E. apply find_some in E. destruct E as [_ E].
    apply andb_true_iff in E. destruct E as [Ei Ea]. apply Z.eqb_eq in Ei.
    split; [exact Ea|exact Ei].
  - rewrite (get_medicine_missing _ _ E). discriminate.
Qed.

Lemma lookup_medicine_Some medicine_id s m :
  lookup_medicine medicine_id s = Some m ->
  In m (BLOCKCHAIN_MEDICINES s) /\ Medicine.id m = medicine_id.
Proof.
  unfold lookup_medicine. intros H. apply find_some in H.
  destruct H as [Hin Hid]. apply Z.eqb_eq in Hid. auto.
Qed.

(** The first medicine with the id is also the first active one with
    it, when it is active. *)
Lemma lookup_active_first medicine_id s m :
  lookup_medicine medicine_id s = Some m ->
  Medicine.isActive m = true ->
  lookup_active_medicine medicine_id s = Some m.
Proof.
  unfold lookup_medicine, lookup_active_medicine.
  induction (BLOCKCHAIN_MEDICINES s) as [|a l IH]; simpl; [discriminate|].
  destruct (Medicine.id a =? medicine_id); simpl.
  - intros [= ->] ->. reflexivity.
  - exact IH.
Qed.

Lemma lookup_active_none medicine_id s m :
  Medicine.isActive m = false ->
  (forall m', In m' (BLOCKCHAIN_MEDICINES s) -> Medicine.id m' = medicine_id -> m' = m) ->
  lookup_active_medicine medicine_id s = None.
Proof.
  intros Hoff Hone. unfold lookup_active_medicine.
  destruct (find _ (BLOCKCHAIN_MEDICINES s)) as [m'|] eqn:E; [|reflexivity].
  apply find_some in E. destruct E as [Hin E].
  apply andb_true_iff in E. destruct E as [Ei Ea]. apply Z.eqb_eq in Ei.
  rewrite (Hone m' Hin Ei), Hoff in Ea. discriminate.
Qed.

(** C10.  The three reads select by [isActive]; the five writes take the
    first medicine with the id and do not look at [isActive].  For the
    first medicine [m] with an id in any store: the list reads return
    active medicines only, and return [m] exactly when it is active;
    [get_medicine] returns active medicines only, returns [m] when it is
    active, and when [m] is switched off and is the only medicine with
    the id it reports that the medicine is not found (the 404 of the
    route, which its own handler turns into a 500).  Whether [m] is
    active or not, transfer, expire and recall on its id answer success
    and change it, [update_location] answers success and appends to the
    location history of the id, and [update_temperature] does the same
    for a reading when [m] is temperature sensitive and answers 400
    without a change when it is not.  No store that requests produce
    holds a medicine that is switched off. *)
Theorem isActive_is_tested_by_reads_only
    s medicine_id m t1 t2 transfer reason now temp_update location_update :
  lookup_medicine medicine_id s = Some m ->
  (exists rs, get_medicines s = (inr rs, s)
              /\ Forall (fun r => MedicineResponse.isActive r = true) rs
              /\ (Medicine.isActive m = true -> In (with_names m) rs)
              /\ (Medicine.isActive m = false -> ~ In (with_names m) rs))
  /\ (exists r, get_medicines_by_batch (Medicine.batchNumber m) s = (inr r, s)
                /\ Forall (fun r => MedicineResponse.isActive r = true
                                    /\ MedicineResponse.batchNumber r = Medicine.batchNumber m)
                          (BatchResponse.medicines r)
                /\ (Medicine.isActive m = true -> In (with_names m) (BatchResponse.medicines r))
                /\ (Medicine.isActive m = false
                    -> ~ In (with_names m) (BatchResponse.medicines r)))
  /\ (forall r, fst (get_medicine medicine_id s) = inr r ->
                MedicineResponse.isActive r = true /\ MedicineResponse.id r = medicine_id)
  /\ (Medicine.isActive m = true -> get_medicine medicine_id s = (inr (with_names m), s))
  /\ (Medicine.isActive m = false ->
      fst (get_medicine medicine_id s) <> inr (with_names m)
      /\ ((forall m', In m' (BLOCKCHAIN_MEDICINES s) -> Medicine.id m' = medicine_id -> m' = m) ->
          get_medicine medicine_id s
          = (inl (HTTPException 500 "Blockchain query failed: 404: Medicine not found on blockchain"), s)))
  /\ (exists resp s',
        transfer_medicine t1 t2 medicine_id transfer s = (inr resp, s')
        /\ TransferResult.success resp = true
        /\ lookup_medicine medicine_id s' = Some (transferred medicine_id transfer m))
  /\ (exists resp s',
        mark_medicine_expired medicine_id s = (inr resp, s')
        /\ UpdateResult.success resp = true
        /\ option_map Medicine.status (lookup_medicine medicine_id s') = Some EXPIRED)
  /\ (exists resp s',
        recall_medicine medicine_id reason s = (inr resp, s')
        /\ RecallResult.success resp = true
        /\ option_map Medicine.status (lookup_medicine medicine_id s') = Some RECALLED)
  /\ (exists resp s',
        update_location now medicine_id location_update s = (inr resp, s')
        /\ UpdateResult.success resp = true
        /\ BLOCKCHAIN_LOCATION_DATA s' !! medicine_id
           = Some (default [] (BLOCKCHAIN_LOCATION_DATA s !! medicine_id)
                   ++ [ {| LocationEvent.location := LocationUpdate.location location_update;
                           LocationEvent.timestamp := now;
                           LocationEvent.txHash := "0xloc" +:+ format_040x medicine_id |} ])%list)
  /\ (if Medicine.temperatureSensitive m
      then exists resp s',
             update_temperature now medicine_id temp_update s = (inr resp, s')
             /\ UpdateResult.success resp = true
             /\ BLOCKCHAIN_TEMPERATURE_DATA s' !! medicine_id
                = Some (default [] (BLOCKCHAIN_TEMPERATURE_DATA s !! medicine_id)
                        ++ [ {| Reading.temperature := TemperatureUpdate.temperature temp_update;
                                Reading.timestamp := now;
                                Reading.txHash := "0xtemp" +:+ format_040x medicine_id |} ])%list
      else http_status (fst (update_temperature now medicine_id temp_update s)) = 400
           /\ snd (update_temperature now medicine_id temp_update s) = s)
  /\ (forall fromtimestamp days,
        reachable fromtimestamp days s -> Medicine.isActive m = true).
Proof.
  intros Hm. destruct (lookup_medicine_Some _ _ _ Hm) as [Hin Hid].
  assert (Hhidden : forall rs,
             Forall (fun r => MedicineResponse.isActive r = true) rs ->
             Medicine.isActive m = false -> ~ In (with_names m) rs).
  { intros rs Hall Hoff Hr. rewrite List.Forall_forall in Hall. apply Hall in Hr.
    rewrite with_names_isActive, Hoff in Hr. discriminate. }
  split.
  { destruct (get_medicines_active s) as (rs & E & Hrs & Hall).
    exists rs. repeat split; auto.
    intros Hon. rewrite Hrs. apply in_map, filter_In. auto. }
  split.
  { destruct (get_medicines_by_batch_active (Medicine.batchNumber m) s) as (r & E & _ & Hall).
    exists r. split; [exact E|]. split; [exact Hall|]. split.
    - intros Hon. revert E. unfold get_medicines_by_batch. run. intros [= <-]. simpl.
      apply in_map, filter_In. split; [exact Hin|].
      now rewrite String.eqb_refl, Hon.
    - apply Hhidden. eapply List.Forall_impl; [|exact Hall]. simpl. tauto. }
  split; [intros r; apply get_medicine_active|].
  split.
  { intros Hon. apply get_medicine_found. now apply lookup_active_first. }
  split.
  { intros Hoff. split.
    - intros E. apply get_medicine_active in E. destruct E as [E _].
      rewrite with_names_isActive, Hoff in E. discriminate.
    - intros Hone. rewrite (get_medicine_missing _ _ (lookup_active_none _ _ _ Hoff Hone)).
      reflexivity. }
  split.
  { destruct (transfer_medicine_found t1 t2 medicine_id transfer s m Hm)
      as (resp & s' & E & Hok & _ & _ & L). exists resp, s'. auto. }
  split.
  { destruct (mark_medicine_expired_found medicine_id s m Hm)
      as (resp & s' & E & Hok & _ & L). exists resp, s'. rewrite L. auto. }
  split.
  { destruct (recall_medicine_found medicine_id reason s m Hm)
      as (resp & s' & E & Hok & _ & L). exists resp, s'. rewrite L. auto. }
  split.
  { destruct (update_location_found now medicine_id location_update s m Hm)
      as (resp & s' & E & Hok & _ & L). exists resp, s'. auto. }
  split.
  { destruct (Medicine.temperatureSensitive m) eqn:Hs.
    - destruct (update_temperature_accepted now medicine_id temp_update s m Hm Hs)
        as (resp & s' & E & Hok & _ & L). exists resp, s'. auto.
    - rewrite (update_temperature_rejected now _ temp_update _ _ Hm Hs). auto. }
  intros fromtimestamp days Hr. apply reachable_all_active in Hr.
  unfold all_active in Hr. rewrite List.Forall_forall in Hr. now apply Hr.
Qed.

(** The seeded insulin is active: it is read and written.  On a store
    whose medicine 7 is switched off - a store that no request produces -
    the reads do not find medicine 7 and the writes change it. *)
Lemma isActive_is_tested_by_reads_only_witness :
  (reachable Examples.fromtimestamp_utc Examples.days Examples.store0
   /\ lookup_medicine 2 Examples.store0 = Some Examples.insulin
   /\ get_medicine 2 Examples.store0 = (inr (with_names Examples.insulin), Examples.store0)
   /\ exists resp s',
        transfer_medicine 1700000100 1700000200 2 Examples.to_distributor Examples.store0
        = (inr resp, s')
        /\ TransferResult.success resp = true
        /\ lookup_medicine 2 s' = Some (transferred 2 Examples.to_distributor Examples.insulin))
  /\ (lookup_medicine 7 Examples.inactive_store = Some Examples.inactive_medicine
      /\ Medicine.isActive Examples.inactive_medicine = false
      /\ get_medicines Examples.inactive_store = (inr [], Examples.inactive_store)
      /\ get_medicine 7 Examples.inactive_store
         = (inl (HTTPException 500 "Blockchain query failed: 404: Medicine not found on blockchain"),
            Examples.inactive_store)
      /\ (exists resp s',
            transfer_medicine 1700000100 1700000200 7 Examples.to_distributor
              Examples.inactive_store = (inr resp, s')
            /\ TransferResult.success resp = true
            /\ lookup_medicine 7 s'
               = Some (transferred 7 Examples.to_distributor Examples.inactive_medicine))
      /\ exists resp s',
           update_temperature 1700000300 7 Examples.six_degrees Examples.inactive_store
           = (inr resp, s')
           /\ UpdateResult.success resp = true).
Proof.
  split.
  - destruct (isActive_is_tested_by_reads_only
                Examples.store0 2 Examples.insulin
                1700000100 1700000200 Examples.to_distributor "contaminated"
                1700000300 Examples.six_degrees Examples.at_the_dock eq_refl)
      as (_ & _ & _ & Hget & _ & Htransfer & _).
    split; [constructor|]. split; [reflexivity|].
    split; [exact (Hget eq_refl)|exact Htransfer].
  - destruct (isActive_is_tested_by_reads_only
                Examples.inactive_store 7 Examples.inactive_medicine
                1700000100 1700000200 Examples.to_distributor "contaminated"
                1700000300 Examples.six_degrees Examples.at_the_dock eq_refl)
      as (_ & _ & _ & _ & Hoff & Htransfer & _ & _ & _ & Htemp & _).
    split; [reflexivity|]. split; [reflexivity|]. split; [reflexivity|].
    split.
    + apply (Hoff eq_refl). intros m' [<-|[]] _. reflexivity.
    + split; [exact Htransfer|].
      destruct Htemp as (resp & s' & E & Hok & _). exists resp, s'. auto.
Defined.

End Routes.

(** ** The methods of [blockchain_service.py] *)

Section Ledger.

Import BlockchainService.

Context {N : Type} (web3 : Web3 N).

Lemma bind_raises {S A B} (c : M S A) (k : A -> M S B) s e s' :
  c s = (inl e, s') -> bind c k s = (inl e, s').
Proof. intros H. unfold bind. now rewrite H. Qed.

Lemma bind_returns {S A B} (c : M S A) (k : A -> M S B) s a s' :
  c s = (inr a, s') -> bind c k s = k a s'.
Proof. intros H. unfold bind. now rewrite H. Qed.

Lemma is_connected_run self w :
  is_connected web3 self w = (inr (live web3 self w), probed self w).
Proof.
  unfold is_connected, live, probed.
  destruct (connected self), (w3 self); reflexivity.
Qed.

Lemma probed_node self (w : World N) : node (probed self w) = node w.
Proof. unfold probed. destruct (connected self && w3 self); reflexivity. Qed.

Lemma probed_trace self (w : World N) :
  trace (probed self w) = trace w
  \/ trace (probed self w) = (trace w ++ [rpc_is_connected])%list.
Proof. unfold probed. destruct (connected self && w3 self); simpl; auto. Qed.

Lemma probed_live self w :
  live web3 self w = true -> probed self w = logged rpc_is_connected w.
Proof.
  unfold live, probed. intros H. apply andb_true_iff in H. destruct H as [H _].
  now rewrite H.
Qed.

Lemma live_logged self r w : live web3 self (logged r w) = live web3 self w.
Proof. reflexivity. Qed.

Lemma require_connected_down self w :
  live web3 self w = false ->
  require_connected web3 self w = (inl not_connected, probed self w).
Proof.
  intros H. unfold require_connected.
  rewrite (bind_returns _ _ _ _ _ (is_connected_run self w)), H. reflexivity.
Qed.

Lemma require_connected_up self w :
  live web3 self w = true ->
  require_connected web3 self w = (inr tt, logged rpc_is_connected w).
Proof.
  intros H. unfold require_connected.
  rewrite (bind_returns _ _ _ _ _ (is_connected_run self w)), H.
  rewrite (probed_live _ _ H). reflexivity.
Qed.

(** A method that opens with the check raises at once on a dead connection. *)
Lemma guarded_down {A} self (rest : M (World N) A) w :
  live web3 self w = false ->
  bind (require_connected web3 self) (fun _ => rest) w
  = (inl not_connected, probed self w).
Proof. intros H. unfold bind. now rewrite (require_connected_down _ _ H). Qed.

Lemma guarded_up {A} self (rest : M (World N) A) w :
  live web3 self w = true ->
  bind (require_connected web3 self) (fun _ => rest) w
  = rest (logged rpc_is_connected w).
Proof. intros H. unfold bind. now rewrite (require_connected_up _ _ H). Qed.

(** *** The liveness check *)

(** The world after [is_connected], written out. *)
Lemma probed_world self (w : World N) :
  probed self w
  = {| node := node w;
       trace := (trace w ++ if connected self && w3 self
                            then [rpc_is_connected] else [])%list |}.
Proof.
  unfold probed, logged. destruct (connected self && w3 self); [reflexivity|].
  rewrite List.app_nil_r. now destruct w.
Qed.

Lemma subscript_class text v k e :
  subscript text v k = inl e ->
  exists cls msg, e = PyExc cls msg /\ (cls = KeyError \/ cls = TypeError).
Proof.
  unfold subscript, raise, ok. intros H.
  destruct v; try (injection H as <-; eauto).
  destruct (item items (key_name k)); [discriminate|].
  injection H as <-. eauto.
Qed.

Lemma subscripts_class text ks : forall v e,
  subscripts text v ks = inl e ->
  exists cls msg, e = PyExc cls msg /\ (cls = KeyError \/ cls = TypeError).
Proof.
  induction ks as [|k ks IH]; intros v e H; simpl in H; [discriminate|].
  unfold and_then in H. destruct (subscript text v k) eqn:E.
  - injection H as <-. eapply subscript_class, E.
  - eapply IH, H.
Qed.

(** C5, counterexample.  The descriptor was read and the node does not
    answer: [is_connected] is false, and [get_contract_info] returns the
    addresses all the same, without a request to the node. *)
Lemma get_contract_info_answers_when_disconnected :
  fst (is_connected Examples.scripted Examples.service_down
         (Examples.world_of Examples.node_down)) = inr false
  /\ get_contract_info Examples.scripted Examples.service_down
       (Examples.world_of Examples.node_down)
     = (inr {| ContractInfo.accessControlAddress :=
                 JStr "0x5FbDB2315678afecb367f032d93F642f64180aa3";
               ContractInfo.medicineSupplyChainAddress :=
                 JStr "0xe7f1725E7734CE288F8367e1Bb143E90bb3F0512";
               ContractInfo.network := JStr "localhost";
               ContractInfo.chainId := JInt 1337 |},
        Examples.world_of Examples.node_down).
Proof. split; reflexivity. Qed.

(** C5, as amended.  When the client is not connected, every method but
    [get_contract_info] raises [Exception("Not connected to blockchain")]
    as the outcome of [is_connected], and nothing else has happened by
    then: the ledger is as before, and the trace has grown by the one
    liveness probe exactly when [connected] is set and [w3] is bound -
    the node then did not answer - and by nothing otherwise, so a
    service whose [connected] is unset fails without asking the node.
    [get_contract_info] makes no liveness check and no request.  It
    raises "Deployment info not available" when the descriptor is falsy;
    it returns the two addresses, the network and the chain id when the
    descriptor holds them; and on a descriptor that is truthy and lacks
    one of them it raises the [KeyError] of the missing key, or the
    [TypeError] of subscripting a value that is no dict, never "Not
    connected to blockchain". *)
Theorem disconnected_methods_raise_first
    self w name batch_number expiry_date temperature_threshold temperature_sensitive
    medicine_id (id : Z) to_address new_status location temperature reason address :
  live web3 self w = false ->
  let asked :=
    {| node := node w;
       trace := (trace w ++ if connected self && w3 self
                            then [rpc_is_connected] else [])%list |} in
  let down {A} (r : result A * World N) := r = (inl not_connected, asked) in
  let d := deployment_info self in
  let text := exception_text web3 in
  (connected self && w3 self = true -> w3_is_connected web3 (node w) = false)
  /\ down (get_account web3 self w)
  /\ down (manufacture_medicine web3 self name batch_number expiry_date
             temperature_threshold temperature_sensitive w)
  /\ down (get_medicine web3 self medicine_id w)
  /\ down (get_all_medicines web3 self w)
  /\ down (get_medicines_by_batch web3 self batch_number w)
  /\ down (transfer_medicine web3 self id to_address new_status location w)
  /\ down (update_temperature web3 self id temperature w)
  /\ down (update_location web3 self id location w)
  /\ down (get_temperature_history web3 self id w)
  /\ down (get_location_history web3 self id w)
  /\ down (mark_as_expired web3 self id w)
  /\ down (recall_medicine web3 self id reason w)
  /\ down (get_user_role web3 self address w)
  /\ snd (get_contract_info web3 self w) = w
  /\ (truthy d = false ->
      fst (get_contract_info web3 self w)
      = inl (PyExc Exception "Deployment info not available"))
  /\ (forall a1 a2 n c,
        truthy d = true ->
        subscripts text d [Key.contracts; Key.AccessControl; Key.address] = inr a1 ->
        subscripts text d [Key.contracts; Key.MedicineSupplyChain; Key.address] = inr a2 ->
        subscript text d Key.network = inr n ->
        subscript text d Key.chainId = inr c ->
        fst (get_contract_info web3 self w)
        = inr {| ContractInfo.accessControlAddress := a1;
                 ContractInfo.medicineSupplyChainAddress := a2;
                 ContractInfo.network := n;
                 ContractInfo.chainId := c |})
  /\ (forall a1 a2 items,
        d = JDict items -> items <> [] ->
        subscripts text d [Key.contracts; Key.AccessControl; Key.address] = inr a1 ->
        subscripts text d [Key.contracts; Key.MedicineSupplyChain; Key.address] = inr a2 ->
        item items "network" = None ->
        fst (get_contract_info web3 self w) = inl (PyExc KeyError "'network'"))
  /\ (forall e,
        truthy d = true ->
        fst (get_contract_info web3 self w) = inl e ->
        exists cls msg, e = PyExc cls msg /\ (cls = KeyError \/ cls = TypeError)).
Proof.
  intros H asked down d text. unfold down, asked. rewrite <- probed_world.
  split.
  { intros E. unfold live in H. rewrite E in H. exact H. }
  do 13 (split; [now apply guarded_down|]).
  unfold get_contract_info, throw, lift. fold d text.
  split; [destruct (negb (truthy d)); reflexivity|].
  split; [intros ->; reflexivity|].
  split.
  { intros a1 a2 n c -> E1 E2 E3 E4. cbn [negb fst]. rewrite E1, E2.
    cbn [and_then]. cbn [subscripts and_then]. rewrite E3, E4. reflexivity. }
  split.
  { intros a1 a2 items Hd Hne E1 E2 Hn.
    replace (truthy d) with true by (rewrite Hd; now destruct items).
    cbn [negb fst]. rewrite E1, E2. cbn [and_then subscripts].
    rewrite Hd. cbn [subscript key_name]. rewrite Hn. reflexivity. }
  intros e -> He. cbn [negb fst] in He. unfold and_then at 1 in He.
  destruct (subscripts text d [Key.contracts; Key.AccessControl; Key.address]) eqn:E1;
    [injection He as <-; eapply subscripts_class, E1|].
  unfold and_then at 1 in He.
  destruct (subscripts text d [Key.contracts; Key.MedicineSupplyChain; Key.address]) eqn:E2;
    [injection He as <-; eapply subscripts_class, E2|].
  unfold and_then at 1 in He.
  destruct (subscripts text d [Key.network]) eqn:E3;
    [injection He as <-; eapply subscripts_class, E3|].
  unfold and_then at 1 in He.
  destruct (subscripts text d [Key.chainId]) eqn:E4;
    [injection He as <-; eapply subscripts_class, E4|].
  discriminate.
Qed.

(** *** Reading on a live connection *)

Lemma extended_extended (w : World N) rs rs' :
  extended (extended w rs) rs' = extended w (rs ++ rs')%list.
Proof. unfold extended. simpl. now rewrite <- List.app_assoc. Qed.

Lemma live_extended self (w : World N) rs :
  live web3 self (extended w rs) = live web3 self w.
Proof. reflexivity. Qed.

Lemma get_medicine_up self medicine_id w :
  live web3 self w = true ->
  get_medicine web3 self medicine_id w
  = (inr (fetched web3 (node w) medicine_id), extended w (fetch_requests medicine_id)).
Proof.
  intros H. unfold get_medicine. rewrite (guarded_up _ _ _ H).
  unfold try_return, bind, query, lift, ret, fetched, extended, fetch_requests, logged.
  simpl. rewrite <- List.app_assoc. simpl.
  destruct (call_getMedicine web3 (node w) medicine_id) as [e|t]; simpl; [reflexivity|].
  destruct (decode_medicine web3 t); reflexivity.
Qed.

Lemma omap_cons {A B} (f : A -> option B) (x : A) (xs : list A) :
  omap f (x :: xs)
  = match f x with Some y => y :: omap f xs | None => omap f xs end.
Proof. reflexivity. Qed.

Lemma fetch_each_up self xs : forall medicines w,
  live web3 self w = true ->
  fetch_each web3 self xs medicines w
  = (inr (medicines ++ omap (fetched web3 (node w)) xs)%list,
     extended w (flat_map fetch_requests xs)).
Proof.
  induction xs as [|x xs IH]; intros medicines w H.
  - simpl. unfold ret, extended. rewrite !List.app_nil_r. now destruct w.
  - cbn [fetch_each flat_map]. unfold bind. rewrite (get_medicine_up _ _ _ H).
    rewrite omap_cons.
    destruct (fetched web3 (node w) x) as [m|];
      rewrite IH by exact H; rewrite extended_extended; cbn [node extended];
      rewrite <- ?List.app_assoc; reflexivity.
Qed.

Lemma omap_length_le {A B} (f : A -> option B) (l : list A) :
  (length (omap f l) <= length l)%nat.
Proof.
  induction l as [|a l IH]; [simpl; lia|].
  rewrite omap_cons. destruct (f a); simpl; lia.
Qed.

Lemma omap_length_full {A B} (f : A -> option B) (l : list A) :
  length (omap f l) = length l <-> List.Forall (fun x => is_Some (f x)) l.
Proof.
  induction l as [|a l IH].
  - split; [constructor|reflexivity].
  - pose proof (omap_length_le f l) as Hle.
    rewrite omap_cons. destruct (f a) eqn:E; simpl.
    + split.
      * intros H. constructor; [rewrite E; eauto|]. apply IH. lia.
      * intros H. inversion H; subst. f_equal. now apply IH.
    + split; [lia|]. intros H. inversion H as [|? ? [b Hb] _]; subst.
      rewrite E in Hb. discriminate.
Qed.

(** *** Reading all medicines *)

(** C4, counterexample.  The node counts two medicines and its contract
    reverts on the second: [get_all_medicines] returns one record. *)
Lemma get_all_medicines_skips_a_reverted_id :
  call_getTotalMedicines Examples.scripted Examples.node_two = inr 2
  /\ option_map (@length _)
       (match fst (get_all_medicines Examples.scripted Examples.service_up
                     (Examples.world_of Examples.node_two)) with
        | inr medicines => Some medicines
        | inl _ => None
        end)
     = Some 1%nat.
Proof. split; reflexivity. Qed.

(** C4, as amended.  On a live connection [get_all_medicines] reads
    the total count and then fetches the ids 1..count one after the
    other, in this order, keeping the records whose fetch returned one.
    The size of the result is at most the count, and it is the count
    exactly when every id in 1..count was fetched and decoded. *)
Theorem get_all_medicines_size self w total :
  live web3 self w = true ->
  call_getTotalMedicines web3 (node w) = inr total ->
  exists medicines w',
    get_all_medicines web3 self w = (inr medicines, w')
    /\ node w' = node w
    /\ trace w'
       = (trace w ++ [rpc_is_connected; rpc_call getTotalMedicines]
            ++ flat_map (fun i => [rpc_is_connected; rpc_call (getMedicine (PyInt i))])
                 (seqZ 1 total))%list
    /\ medicines = omap (fun i => fetched web3 (node w) (PyInt i)) (seqZ 1 total)
    /\ Z.of_nat (length medicines) <= Z.max 0 total
    /\ (Z.of_nat (length medicines) = total
        <-> 0 <= total
            /\ forall i, 1 <= i <= total -> is_Some (fetched web3 (node w) (PyInt i))).
Proof.
  intros H Htotal. unfold get_all_medicines. rewrite (guarded_up _ _ _ H).
  unfold bind at 1. unfold query at 1. simpl. rewrite Htotal.
  rewrite fetch_each_up by exact H. simpl.
  eexists _, _. split; [reflexivity|]. simpl.
  split; [reflexivity|].
  split.
  { rewrite <- !List.app_assoc. simpl. do 3 f_equal. unfold range1.
    generalize (seqZ 1 total). intros l. induction l as [|a l IH]; simpl; congruence. }
  assert (Hmap : omap (fetched web3 (node w)) (map PyInt (range1 total))
                 = omap (fun i => fetched web3 (node w) (PyInt i)) (seqZ 1 total)).
  { unfold range1. generalize (seqZ 1 total). intros l.
    induction l as [|a l IH]; [reflexivity|].
    cbn [map]. rewrite !omap_cons, IH. reflexivity. }
  rewrite Hmap. split; [reflexivity|].
  pose proof (omap_length_le (fun i => fetched web3 (node w) (PyInt i)) (seqZ 1 total)) as Hle.
  pose proof (omap_length_full (fun i => fetched web3 (node w) (PyInt i)) (seqZ 1 total)) as Hfull.
  rewrite length_seqZ in Hle, Hfull.
  split; [lia|].
  split.
  - intros Hlen. split; [lia|]. intros i Hi.
    assert (Hf : List.Forall (fun x => is_Some (fetched web3 (node w) (PyInt x))) (seqZ 1 total))
      by (apply Hfull; lia).
    rewrite List.Forall_forall in Hf. apply Hf. apply list_elem_of_In.
    apply elem_of_seqZ. lia.
  - intros [Hpos Hall].
    assert (Hf : List.Forall (fun x => is_Some (fetched web3 (node w) (PyInt x))) (seqZ 1 total)).
    { rewrite List.Forall_forall. intros x Hx. apply list_elem_of_In in Hx.
      apply elem_of_seqZ in Hx. apply Hall. lia. }
    apply Hfull in Hf. lia.
Qed.

(** *** Decoding the tuple of the contract *)

Lemma MedicineStatus_of_value_value text st :
  MedicineStatus_of_value text (PyStr (MedicineStatus_value st)) = inr st.
Proof. destruct st; reflexivity. Qed.

Lemma MedicineStatus_of_value_inv text v st :
  MedicineStatus_of_value text v = inr st -> v = PyStr (MedicineStatus_value st).
Proof.
  unfold MedicineStatus_of_value, raise, ok.
  destruct v as [n|s|b]; try discriminate.
  destruct (find (fun m => String.eqb (MedicineStatus_value m) s) MedicineStatus_members)
    as [m|] eqn:E; [|discriminate].
  intros [= <-]. apply find_some in E. destruct E as [_ E].
  apply String.eqb_eq in E. now rewrite E.
Qed.

Lemma decode_medicine_inv t d :
  decode_medicine web3 t = inr d ->
  exists v0 v1 v2 v3 v4 v5 v6 st v8 v9 v10 v11 v12 v13 v14 v15 rest,
    t = v0 :: v1 :: v2 :: v3 :: v4 :: v5 :: v6 :: PyStr (MedicineStatus_value st)
        :: v8 :: v9 :: v10 :: v11 :: v12 :: v13 :: v14 :: v15 :: rest
    /\ d = {| MedicineData.id := v0;
              MedicineData.name := v1;
              MedicineData.batchNumber := v2;
              MedicineData.manufactureDate := v3;
              MedicineData.expiryDate := v4;
              MedicineData.manufacturer := v5;
              MedicineData.currentOwner := v6;
              MedicineData.status := MedicineStatus_value st;
              MedicineData.temperatureThreshold := v8;
              MedicineData.temperatureSensitive := v9;
              MedicineData.isActive := v15 |}.
Proof.
  destruct t as [|v0 [|v1 [|v2 [|v3 [|v4 [|v5 [|v6 [|v7 t]]]]]]]]; try discriminate.
  unfold decode_medicine. cbn [index nth_error and_then ok].
  destruct (MedicineStatus_of_value (exception_text web3) v7) as [e|st] eqn:Est;
    [discriminate|].
  apply MedicineStatus_of_value_inv in Est. subst v7. cbn [and_then].
  destruct t as [|v8 [|v9 [|v10 [|v11 [|v12 [|v13 [|v14 [|v15 rest]]]]]]]];
    try discriminate.
  cbn. intros [= <-]. now eexists _, _, _, _, _, _, _, st, _, _, _, _, _, _, _, _, _.
Qed.

Lemma decode_medicine_tuple v0 v1 v2 v3 v4 v5 v6 st v8 v9 v10 v11 v12 v13 v14 v15 rest :
  decode_medicine web3
    (v0 :: v1 :: v2 :: v3 :: v4 :: v5 :: v6 :: PyStr (MedicineStatus_value st)
     :: v8 :: v9 :: v10 :: v11 :: v12 :: v13 :: v14 :: v15 :: rest)
  = inr {| MedicineData.id := v0;
           MedicineData.name := v1;
           MedicineData.batchNumber := v2;
           MedicineData.manufactureDate := v3;
           MedicineData.expiryDate := v4;
           MedicineData.manufacturer := v5;
           MedicineData.currentOwner := v6;
           MedicineData.status := MedicineStatus_value st;
           MedicineData.temperatureThreshold := v8;
           MedicineData.temperatureSensitive := v9;
           MedicineData.isActive := v15 |}.
Proof.
  unfold decode_medicine. cbn [index nth_error and_then ok].
  rewrite MedicineStatus_of_value_value. reflexivity.
Qed.

Lemma decode_medicine_short t :
  (length t < 16)%nat -> exists e, decode_medicine web3 t = inl e.
Proof.
  intros Hlen. destruct (decode_medicine web3 t) as [e|d] eqn:E; [eauto|].
  apply decode_medicine_inv in E.
  destruct E as (v0 & v1 & v2 & v3 & v4 & v5 & v6 & st & v8 & v9 & v10 & v11 & v12 & v13
                 & v14 & v15 & rest & -> & _).
  simpl in Hlen. lia.
Qed.

Lemma decode_medicine_status t v7 :
  nth_error t 7 = Some v7 ->
  (forall st, v7 <> PyStr (MedicineStatus_value st)) ->
  exists e, decode_medicine web3 t = inl e.
Proof.
  intros Hnth Hno. destruct (decode_medicine web3 t) as [e|d] eqn:E; [eauto|].
  apply decode_medicine_inv in E.
  destruct E as (v0 & v1 & v2 & v3 & v4 & v5 & v6 & st & v8 & v9 & v10 & v11 & v12 & v13
                 & v14 & v15 & rest & -> & _).
  simpl in Hnth. injection Hnth as <-. now destruct (Hno st).
Qed.

(** *** Manufacture *)

(** C6, counterexample.  On a live node the transaction is mined and the
    receipt carries the event with the new id; the contract holds a
    record for the id, with the status as a number: the method returns
    [None], no record.  And on a node whose receipt carries no event the
    method raises the [IndexError] of [process_receipt(receipt)[0]],
    the only failure the client has for it. *)
Lemma manufacture_medicine_may_return_None :
  (process_receipt "MedicineManufactured" (Examples.next_receipt Examples.node_numbered)
   = [ {| EventData.event := "MedicineManufactured";
          EventData.args := [("medicineId", PyInt 1); ("name", PyStr "Aspirin")] |} ]
   /\ call_getMedicine Examples.scripted Examples.node_numbered (PyInt 1)
      = inr (Examples.numbered_tuple 1)
   /\ fst (manufacture_medicine Examples.scripted Examples.service_up
              "Aspirin" "ASP001" 1731536000 25 false
              (Examples.world_of Examples.node_numbered))
      = inr None)
  /\ (process_receipt "MedicineManufactured" (Examples.next_receipt Examples.node_silent) = []
      /\ fst (manufacture_medicine Examples.scripted Examples.service_up
                 "Aspirin" "ASP001" 1731536000 25 false
                 (Examples.world_of Examples.node_silent))
         = inl (PyExc IndexError "tuple index out of range")).
Proof. repeat split. Qed.

(** C6, as amended.  When the transaction was sent and its receipt
    arrived, [manufacture_medicine] takes the id from the argument
    [medicineId] of the first [MedicineManufactured] event of the
    receipt.  Without such an event it raises the [IndexError] of
    indexing the empty tuple of decoded events, and without that
    argument the [KeyError] of the key; nothing is fetched.  With an id
    it asks whether the node answers and raises "Not connected to
    blockchain" when it does not; otherwise it makes the one contract
    call [getMedicine(id)] on the ledger as the transaction left it and
    returns the record built from the tuple of the contract when the
    tuple has at least 16 positions and position 7 is the string value
    of a status, and [None] when the call raises, the tuple is shorter
    or position 7 is anything else. *)
Theorem manufacture_medicine_reads_the_event
    self w name batch_number expiry_date temperature_threshold temperature_sensitive
    account accounts gas_price nonce signed_txn tx_hash n1 receipt n2 :
  live web3 self w = true ->
  eth_accounts web3 (node w) = inr (account :: accounts) ->
  eth_gas_price web3 (node w) = inr gas_price ->
  eth_get_transaction_count web3 (node w) account = inr nonce ->
  eth_account_sign_transaction web3
    {| Transaction.function :=
         manufactureMedicine name batch_number expiry_date
           temperature_threshold temperature_sensitive;
       Transaction.from := account;
       Transaction.gas := 500000;
       Transaction.gasPrice := gas_price;
       Transaction.nonce := nonce |}
    (default "" (PRIVATE_KEY self)) = inr signed_txn ->
  eth_send_raw_transaction web3 (node w) signed_txn = (inr tx_hash, n1) ->
  eth_wait_for_transaction_receipt web3 n1 tx_hash = (inr receipt, n2) ->
  let sent :=
    {| node := n2;
       trace := (trace w ++
                 [rpc_is_connected; rpc_is_connected; rpc_accounts; rpc_gas_price;
                  rpc_get_transaction_count account;
                  rpc_send_raw_transaction signed_txn;
                  rpc_wait_for_transaction_receipt tx_hash])%list |} in
  let run :=
    manufacture_medicine web3 self name batch_number expiry_date
      temperature_threshold temperature_sensitive w in
  (process_receipt "MedicineManufactured" receipt = [] ->
   run = (inl (PyExc IndexError "tuple index out of range"), sent))
  /\ (forall e events,
        process_receipt "MedicineManufactured" receipt = e :: events ->
        (forall k v, In (k, v) (EventData.args e) -> k <> "medicineId") ->
        run = (inl (PyExc KeyError "'medicineId'"), sent))
  /\ (forall e events medicine_id,
        process_receipt "MedicineManufactured" receipt = e :: events ->
        args_medicineId (EventData.args e) = inr medicine_id ->
        let asked := extended sent [rpc_is_connected] in
        let called := extended sent [rpc_is_connected; rpc_call (getMedicine medicine_id)] in
        (w3_is_connected web3 n2 = false -> run = (inl not_connected, asked))
        /\ (w3_is_connected web3 n2 = true ->
            (forall x,
               call_getMedicine web3 n2 medicine_id = inl x -> run = (inr None, called))
            /\ (forall t,
                  call_getMedicine web3 n2 medicine_id = inr t ->
                  (length t < 16)%nat -> run = (inr None, called))
            /\ (forall t v7,
                  call_getMedicine web3 n2 medicine_id = inr t ->
                  nth_error t 7 = Some v7 ->
                  (forall st, v7 <> PyStr (MedicineStatus_value st)) ->
                  run = (inr None, called))
            /\ (forall v0 v1 v2 v3 v4 v5 v6 st v8 v9 v10 v11 v12 v13 v14 v15 rest,
                  call_getMedicine web3 n2 medicine_id
                  = inr (v0 :: v1 :: v2 :: v3 :: v4 :: v5 :: v6
                         :: PyStr (MedicineStatus_value st)
                         :: v8 :: v9 :: v10 :: v11 :: v12 :: v13 :: v14 :: v15 :: rest) ->
                  run = (inr (Some {| MedicineData.id := v0;
                                      MedicineData.name := v1;
                                      MedicineData.batchNumber := v2;
                                      MedicineData.manufactureDate := v3;
                                      MedicineData.expiryDate := v4;
                                      MedicineData.manufacturer := v5;
                                      MedicineData.currentOwner := v6;
                                      MedicineData.status := MedicineStatus_value st;
                                      MedicineData.temperatureThreshold := v8;
                                      MedicineData.temperatureSensitive := v9;
                                      MedicineData.isActive := v15 |}),
                         called)))).
Proof.
  intros H Hacc Hgas Hnonce Hsign Hsend Hwait sent run.
  assert (Hrun : run = bind (lift (manufactured_id receipt))
                         (fun medicine_id => get_medicine web3 self medicine_id) sent).
  { unfold run, manufacture_medicine. rewrite (guarded_up _ _ _ H).
    unfold get_account. unfold bind at 1. rewrite guarded_up by exact H.
    unfold bind at 1. unfold query at 1. cbn [node logged]. rewrite Hacc.
    unfold ret at 1. unfold transact.
    unfold bind, query, command, lift. cbn [node logged trace].
    rewrite Hgas, Hnonce, Hsign, Hsend. cbn [node trace]. rewrite Hwait.
    unfold sent. rewrite <- !List.app_assoc. reflexivity. }
  assert (Hbound : connected self && w3 self = true).
  { unfold live in H. apply andb_true_iff in H. apply H. }
  split.
  { intros Hnone. rewrite Hrun. unfold bind, lift, manufactured_id.
    now rewrite Hnone. }
  split.
  { intros e events Hsome Hno. rewrite Hrun. unfold bind, lift, manufactured_id.
    rewrite Hsome.
    assert (Hkey : args_medicineId (EventData.args e) = inl (PyExc KeyError "'medicineId'")).
    { induction (EventData.args e) as [|[k v] args IH]; [reflexivity|].
      simpl. destruct (String.eqb k "medicineId") eqn:Ek.
      - apply String.eqb_eq in Ek. destruct (Hno k v (or_introl eq_refl) Ek).
      - apply IH. intros k' v' Hin. apply (Hno k' v'). now right. }
    now rewrite Hkey. }
  intros e events medicine_id Hsome Hid asked called.
  assert (Hget : run = get_medicine web3 self medicine_id sent).
  { rewrite Hrun. unfold bind, lift, manufactured_id. now rewrite Hsome, Hid. }
  split.
  { intros Hdown. rewrite Hget. unfold get_medicine.
    rewrite guarded_down by (unfold live; cbn [node sent]; now rewrite Hbound, Hdown).
    unfold probed. now rewrite Hbound. }
  intros Hup.
  assert (Hfetch : run = (inr (fetched web3 n2 medicine_id), called)).
  { rewrite Hget. apply get_medicine_up. unfold live. cbn [node sent].
    now rewrite Hbound, Hup. }
  rewrite Hfetch. unfold fetched.
  split; [intros x ->; reflexivity|].
  split.
  { intros t -> Hlen. destruct (decode_medicine_short t Hlen) as [x ->]. reflexivity. }
  split.
  { intros t v7 -> Hnth Hno. destruct (decode_medicine_status t v7 Hnth Hno) as [x ->].
    reflexivity. }
  intros v0 v1 v2 v3 v4 v5 v6 st v8 v9 v10 v11 v12 v13 v14 v15 rest ->.
  now rewrite decode_medicine_tuple.
Qed.

End Ledger.

(** *** The statements above on the scripted node *)

Section Scripted.

Import BlockchainService.

(** The service is connected and the node does not answer: one probe,
    then the exception.  The service never got connected and the node
    answers: the exception without a probe.  [get_contract_info]
    answers from the descriptor in both, and raises the [KeyError] of
    the key that a descriptor lacks. *)
Lemma disconnected_methods_raise_first_witness :
  (live Examples.scripted Examples.service_up (Examples.world_of Examples.node_down) = false
   /\ get_all_medicines Examples.scripted Examples.service_up
        (Examples.world_of Examples.node_down)
      = (inl not_connected,
         {| node := Examples.node_down; trace := [rpc_is_connected] |})
   /\ transfer_medicine Examples.scripted Examples.service_up 1
        Main.distributor_address "SHIPPED_TO_DISTRIBUTOR" "Loading Dock A"
        (Examples.world_of Examples.node_down)
      = (inl not_connected,
         {| node := Examples.node_down; trace := [rpc_is_connected] |})
   /\ get_contract_info Examples.scripted Examples.service_up
        (Examples.world_of Examples.node_down)
      = (inr {| ContractInfo.accessControlAddress :=
                  JStr "0x5FbDB2315678afecb367f032d93F642f64180aa3";
                ContractInfo.medicineSupplyChainAddress :=
                  JStr "0xe7f1725E7734CE288F8367e1Bb143E90bb3F0512";
                ContractInfo.network := JStr "localhost";
                ContractInfo.chainId := JInt 1337 |},
         Examples.world_of Examples.node_down))
  /\ (w3_is_connected Examples.scripted Examples.node_two = true
      /\ live Examples.scripted Examples.service_down (Examples.world_of Examples.node_two)
         = false
      /\ get_all_medicines Examples.scripted Examples.service_down
           (Examples.world_of Examples.node_two)
         = (inl not_connected, {| node := Examples.node_two; trace := [] |}))
  /\ fst (get_contract_info Examples.scripted
            {| w3 := true; connected := false;
               deployment_info := Examples.deployment_without_network;
               PRIVATE_KEY := None |}
            (Examples.world_of Examples.node_two))
     = inl (PyExc KeyError "'network'").
Proof.
  split; [|split].
  - destruct (disconnected_methods_raise_first Examples.scripted Examples.service_up
                (Examples.world_of Examples.node_down)
                "Aspirin" "ASP001" 1731536000 25 false (PyInt 1) 1
                Main.distributor_address "SHIPPED_TO_DISTRIBUTOR" "Loading Dock A"
                "6C" "contaminated" Main.manufacturer_address eq_refl)
      as (_ & _ & _ & _ & Hall & _ & Htransfer & _ & _ & _ & _ & _ & _ & _
          & Hworld & _ & Hinfo & _).
    split; [reflexivity|].
    split; [exact Hall|]. split; [exact Htransfer|].
    rewrite surjective_pairing at 1. rewrite Hworld.
    rewrite (Hinfo _ _ _ _ eq_refl eq_refl eq_refl eq_refl eq_refl). reflexivity.
  - destruct (disconnected_methods_raise_first Examples.scripted Examples.service_down
                (Examples.world_of Examples.node_two)
                "Aspirin" "ASP001" 1731536000 25 false (PyInt 1) 1
                Main.distributor_address "SHIPPED_TO_DISTRIBUTOR" "Loading Dock A"
                "6C" "contaminated" Main.manufacturer_address eq_refl)
      as (_ & _ & _ & _ & Hall & _).
    split; [reflexivity|]. split; [reflexivity|]. exact Hall.
  - destruct (disconnected_methods_raise_first Examples.scripted
                {| w3 := true; connected := false;
                   deployment_info := Examples.deployment_without_network;
                   PRIVATE_KEY := None |}
                (Examples.world_of Examples.node_two)
                "Aspirin" "ASP001" 1731536000 25 false (PyInt 1) 1
                Main.distributor_address "SHIPPED_TO_DISTRIBUTOR" "Loading Dock A"
                "6C" "contaminated" Main.manufacturer_address eq_refl)
      as (_ & _ & _ & _ & _ & _ & _ & _ & _ & _ & _ & _ & _ & _ & _ & _ & _ & Hkey & _).
    exact (Hkey _ _ _ eq_refl ltac:(discriminate) eq_refl eq_refl eq_refl).
Defined.

Lemma get_all_medicines_size_witness :
  live Examples.scripted Examples.service_up (Examples.world_of Examples.node_two) = true
  /\ call_getTotalMedicines Examples.scripted Examples.node_two = inr 2
  /\ exists medicines w',
       get_all_medicines Examples.scripted Examples.service_up
         (Examples.world_of Examples.node_two) = (inr medicines, w')
       /\ trace w'
          = [rpc_is_connected; rpc_call getTotalMedicines;
             rpc_is_connected; rpc_call (getMedicine (PyInt 1));
             rpc_is_connected; rpc_call (getMedicine (PyInt 2))]
       /\ Z.of_nat (length medicines) <= 2.
Proof.
  destruct (get_all_medicines_size Examples.scripted Examples.service_up
              (Examples.world_of Examples.node_two) 2 eq_refl eq_refl)
    as (medicines & w' & E & _ & Htrace & _ & Hle & _).
  split; [reflexivity|]. split; [reflexivity|].
  exists medicines, w'. split; [exact E|]. split; [exact Htrace|exact Hle].
Defined.

(** The receipt names medicine 1 and the contract holds its record with
    the status as a string: the record is returned. *)
Lemma manufacture_medicine_reads_the_event_witness :
  live Examples.scripted Examples.service_up (Examples.world_of Examples.node_two) = true
  /\ process_receipt "MedicineManufactured" (Examples.manufactured_receipt 1)
     = Receipt.logs (Examples.manufactured_receipt 1)
  /\ call_getMedicine Examples.scripted Examples.node_two (PyInt 1)
     = inr (Examples.aspirin_tuple 1)
  /\ fst (manufacture_medicine Examples.scripted Examples.service_up
            "Aspirin" "ASP001" 1731536000 25 false
            (Examples.world_of Examples.node_two))
     = inr (Some {| MedicineData.id := PyInt 1;
                    MedicineData.name := PyStr "Aspirin";
                    MedicineData.batchNumber := PyStr "ASP001";
                    MedicineData.manufactureDate := PyInt 1700000000;
                    MedicineData.expiryDate := PyInt 1731536000;
                    MedicineData.manufacturer := PyStr Main.manufacturer_address;
                    MedicineData.currentOwner := PyStr Main.manufacturer_address;
                    MedicineData.status := "MANUFACTURED";
                    MedicineData.temperatureThreshold := PyInt 25;
                    MedicineData.temperatureSensitive := PyBool false;
                    MedicineData.isActive := PyBool true |})
  /\ map (fun r => match r with
                   | rpc_send_raw_transaction _ => "send"
                   | rpc_call (getMedicine _) => "getMedicine"
                   | _ => ""
                   end)
         (trace (snd (manufacture_medicine Examples.scripted Examples.service_up
                        "Aspirin" "ASP001" 1731536000 25 false
                        (Examples.world_of Examples.node_two))))
     = [""; ""; ""; ""; ""; "send"; ""; ""; "getMedicine"].
Proof.
  pose proof (manufacture_medicine_reads_the_event Examples.scripted Examples.service_up
                (Examples.world_of Examples.node_two)
                "Aspirin" "ASP001" 1731536000 25 false
                Main.manufacturer_address [] 1000000000 0
                _ "0xabc" Examples.node_two (Examples.manufactured_receipt 1)
                Examples.node_two
                eq_refl eq_refl eq_refl eq_refl eq_refl eq_refl eq_refl) as (_ & _ & Hsome).
  destruct (Hsome _ _ (PyInt 1) eq_refl eq_refl) as [_ Hup].
  destruct (Hup eq_refl) as (_ & _ & _ & Hrecord).
  specialize (Hrecord _ _ _ _ _ _ _ MANUFACTURED _ _ _ _ _ _ _ _ _ eq_refl).
  cbv zeta in Hrecord.
  split; [reflexivity|]. split; [reflexivity|]. split; [reflexivity|].
  rewrite Hrecord. split; reflexivity.
Defined.

End Scripted.

(** ** Further properties of the routes *)

Section MoreRoutes.

Import Main.

Ltac run :=
  unfold try_raise, bind, gets, modify, ret, throw, lift, try_except; simpl.

Lemma map_id_mutate_first medicine_id f l :
  (forall m, Medicine.id (f m) = Medicine.id m) ->
  map Medicine.id (mutate_first medicine_id f l) = map Medicine.id l.
Proof.
  intros Hid. induction l as [|a l IH]; simpl; [reflexivity|].
  destruct (Medicine.id a =? medicine_id); simpl; [now rewrite Hid|now rewrite IH].
Qed.

Lemma py_max_ge x xs : forall y, In y (x :: xs) -> y <= py_max x xs.
Proof.
  unfold py_max. revert x. induction xs as [|a xs IH]; intros x y Hy; simpl in *.
  - destruct Hy as [<-|[]]. lia.
  - destruct Hy as [<-|[<-|Hy]].
    + specialize (IH (Z.max x a) (Z.max x a) (or_introl eq_refl)). lia.
    + specialize (IH (Z.max x a) (Z.max x a) (or_introl eq_refl)). lia.
    + apply IH. now right.
Qed.

Lemma py_max_In x xs : In (py_max x xs) (x :: xs).
Proof.
  unfold py_max. revert x. induction xs as [|a xs IH]; intros x; simpl.
  - now left.
  - destruct (IH (Z.max x a)) as [H|H].
    + rewrite <- H. destruct (Z.max_spec x a) as [[_ ->]|[_ ->]]; auto.
    + auto.
Qed.

Lemma next_id_fresh s m : In m (BLOCKCHAIN_MEDICINES s) -> Medicine.id m < next_id s.
Proof.
  intros Hin. unfold next_id. apply (in_map Medicine.id) in Hin.
  destruct (map Medicine.id (BLOCKCHAIN_MEDICINES s)) as [|x xs]; [destruct Hin|].
  pose proof (py_max_ge x xs _ Hin). lia.
Qed.

Lemma next_id_sequential s :
  sequential s -> next_id s = Z.of_nat (length (BLOCKCHAIN_MEDICINES s)) + 1.
Proof.
  unfold sequential, next_id. intros Hseq.
  destruct (BLOCKCHAIN_MEDICINES s) as [|m l]; [reflexivity|].
  cbn [map] in *.
  set (n := Z.of_nat (length (m :: l))) in *.
  assert (Hn : 1 <= n) by (unfold n; simpl; lia).
  pose proof (py_max_In (Medicine.id m) (map Medicine.id l)) as Hin.
  rewrite Hseq in Hin. apply list_elem_of_In, elem_of_seqZ in Hin.
  assert (Hge : n <= py_max (Medicine.id m) (map Medicine.id l)).
  { apply py_max_ge. rewrite Hseq. apply list_elem_of_In, elem_of_seqZ. lia. }
  lia.
Qed.

Lemma create_medicine_accepted fromtimestamp now medicine s :
  fromtimestamp (MedicineCreate.expiryDate medicine) = inr tt ->
  exists r s' new_medicine,
    create_medicine fromtimestamp now medicine s = (inr r, s')
    /\ r = MedicineResponse_of new_medicine
    /\ with_names new_medicine = r
    /\ Medicine.id new_medicine = next_id s
    /\ Medicine.isActive new_medicine = true
    /\ BLOCKCHAIN_MEDICINES s' = (BLOCKCHAIN_MEDICINES s ++ [new_medicine])%list
    /\ BLOCKCHAIN_TEMPERATURE_DATA s' = BLOCKCHAIN_TEMPERATURE_DATA s
    /\ BLOCKCHAIN_LOCATION_DATA s'
       = <[next_id s := [ located "Manufacturing Plant A" now
                            ("0xloc" +:+ format_05d (next_id s)) ]]>
           (BLOCKCHAIN_LOCATION_DATA s)
    /\ BLOCKCHAIN_STAGES_DATA s'
       = <[next_id s := [ staged MANUFACTURED "Manufacturing Plant A" manufacturer_address
                            NoNames now ("0x" +:+ format_040x (next_id s)) ]]>
           (BLOCKCHAIN_STAGES_DATA s)
    /\ Medicine.blockchainTxHash new_medicine = "0x" +:+ format_040x (next_id s).
Proof.
  intros Hts. unfold create_medicine. run. rewrite Hts. simpl.
  eexists _, _, _. split; [reflexivity|]. simpl. repeat split.
Qed.

Lemma create_medicine_rejected fromtimestamp now medicine s e :
  fromtimestamp (MedicineCreate.expiryDate medicine) = inl e ->
  create_medicine fromtimestamp now medicine s = (inl (transaction_failed e), s).
Proof. intros Hts. unfold create_medicine. run. rewrite Hts. reflexivity. Qed.

Lemma serve_sequential fromtimestamp r s :
  sequential s -> sequential (serve fromtimestamp r s).
Proof.
  intros H. destruct r as [now c|t1 t2 i tr|now i u|now i u|i|i reason]; simpl.
  - destruct (fromtimestamp (MedicineCreate.expiryDate c)) as [e|[]] eqn:E.
    + now rewrite (create_medicine_rejected _ now _ s _ E).
    + destruct (create_medicine_accepted _ now _ s E)
        as (r & s' & nm & -> & _ & _ & Hid & _ & Hmeds & _).
      unfold sequential. simpl. rewrite Hmeds, map_app, length_app. simpl.
      rewrite Hid, (next_id_sequential s H), H.
      rewrite Nat2Z.inj_add. simpl.
      rewrite seqZ_app by lia. simpl. now rewrite Z.add_comm.
  - unfold sequential, transfer_medicine in *. run.
    destruct (lookup_medicine i s); simpl; [|exact H].
    rewrite map_id_mutate_first, mutate_first_length by reflexivity. exact H.
  - unfold sequential, update_temperature in *. run.
    destruct (lookup_medicine i s) as [m|]; simpl; [|exact H].
    destruct (Medicine.temperatureSensitive m); simpl; exact H.
  - unfold sequential, update_location in *. run.
    destruct (lookup_medicine i s); simpl; exact H.
  - unfold sequential, mark_medicine_expired in *. run.
    destruct (lookup_medicine i s); simpl; [|exact H].
    rewrite map_id_mutate_first, mutate_first_length by reflexivity. exact H.
  - unfold sequential, recall_medicine in *. run.
    destruct (lookup_medicine i s); simpl; [|exact H].
    rewrite map_id_mutate_first, mutate_first_length by reflexivity. exact H.
Qed.

(** X1.  In every store that the routes can produce the ids of the
    medicines are 1, 2, ..., n in the order of the list, hence pairwise
    distinct, and a manufacture request that is accepted there returns
    the id n + 1. *)
Theorem reachable_ids_are_sequential fromtimestamp days s :
  reachable fromtimestamp days s ->
  map Medicine.id (BLOCKCHAIN_MEDICINES s)
  = seqZ 1 (Z.of_nat (length (BLOCKCHAIN_MEDICINES s)))
  /\ NoDup (map Medicine.id (BLOCKCHAIN_MEDICINES s))
  /\ forall now medicine,
       fromtimestamp (MedicineCreate.expiryDate medicine) = inr tt ->
       exists r s',
         create_medicine fromtimestamp now medicine s = (inr r, s')
         /\ MedicineResponse.id r = Z.of_nat (length (BLOCKCHAIN_MEDICINES s)) + 1.
Proof.
  intros Hreach.
  assert (Hseq : sequential s).
  { induction Hreach as [|s r _ IH]; [reflexivity|now apply serve_sequential]. }
  split; [exact Hseq|]. split; [rewrite Hseq; apply NoDup_seqZ|].
  intros now medicine Hts.
  destruct (create_medicine_accepted _ now _ s Hts)
    as (r & s' & nm & E & -> & _ & Hid & _).
  exists (MedicineResponse_of nm), s'. split; [exact E|].
  simpl. rewrite Hid. now apply next_id_sequential.
Qed.

Lemma reachable_ids_are_sequential_witness :
  reachable Examples.fromtimestamp_utc Examples.days Examples.store_after_create
  /\ map Medicine.id (BLOCKCHAIN_MEDICINES Examples.store_after_create) = [1; 2; 3; 4; 5; 6]
  /\ exists r s',
       create_medicine Examples.fromtimestamp_utc 1700000500 Examples.aspirin_request
         Examples.store_after_create = (inr r, s')
       /\ MedicineResponse.id r = 7.
Proof.
  assert (Hr : reachable Examples.fromtimestamp_utc Examples.days Examples.store_after_create)
    by (apply reachable_serve, reachable_initial).
  destruct (reachable_ids_are_sequential _ _ _ Hr) as (Hids & _ & Hnext).
  split; [exact Hr|]. split; [exact Hids|].
  exact (Hnext 1700000500 Examples.aspirin_request eq_refl).
Defined.

Lemma find_app_last {A} (p : A -> bool) (l : list A) (x : A) :
  (forall y, In y l -> p y = false) -> p x = true ->
  find p (l ++ [x]) = Some x.
Proof.
  intros Hl Hx. induction l as [|a l IH]; simpl.
  - now rewrite Hx.
  - rewrite (Hl a (or_introl eq_refl)). apply IH. intros y Hy. apply Hl. now right.
Qed.

(** X2.  A manufacture request whose expiry date the platform accepts is
    given an id above every id in the store, one medicine is added, and
    the read of that id that follows returns the very record that the
    request was answered with. *)
Theorem create_then_get_medicine fromtimestamp now medicine s :
  fromtimestamp (MedicineCreate.expiryDate medicine) = inr tt ->
  exists r s',
    create_medicine fromtimestamp now medicine s = (inr r, s')
    /\ (forall m, In m (BLOCKCHAIN_MEDICINES s) -> Medicine.id m < MedicineResponse.id r)
    /\ length (BLOCKCHAIN_MEDICINES s') = S (length (BLOCKCHAIN_MEDICINES s))
    /\ get_medicine (MedicineResponse.id r) s' = (inr r, s').
Proof.
  intros Hts.
  destruct (create_medicine_accepted _ now _ s Hts)
    as (r & s' & nm & E & -> & Hnames & Hid & Hact & Hmeds & _).
  exists (MedicineResponse_of nm), s'. split; [exact E|].
  change (MedicineResponse.id (MedicineResponse_of nm)) with (Medicine.id nm).
  split; [intros m Hm; rewrite Hid; now apply next_id_fresh|].
  split; [rewrite Hmeds, length_app; simpl; lia|].
  rewrite <- Hnames. apply get_medicine_found.
  unfold lookup_active_medicine. rewrite Hmeds. apply find_app_last.
  - intros y Hy. apply next_id_fresh in Hy. rewrite Hid.
    apply andb_false_iff. left. apply Z.eqb_neq. lia.
  - now rewrite Z.eqb_refl, Hact.
Qed.

Lemma create_then_get_medicine_witness :
  Examples.fromtimestamp_utc (MedicineCreate.expiryDate Examples.aspirin_request) = inr tt
  /\ exists r s',
       create_medicine Examples.fromtimestamp_utc 1700000000 Examples.aspirin_request
         Examples.store0 = (inr r, s')
       /\ (forall m, In m (BLOCKCHAIN_MEDICINES Examples.store0) ->
                     Medicine.id m < MedicineResponse.id r)
       /\ length (BLOCKCHAIN_MEDICINES s') = 6%nat
       /\ get_medicine (MedicineResponse.id r) s' = (inr r, s').
Proof.
  split; [reflexivity|].
  exact (create_then_get_medicine Examples.fromtimestamp_utc 1700000000
           Examples.aspirin_request Examples.store0 eq_refl).
Defined.

Lemma get_location_history_at medicine_id s data :
  BLOCKCHAIN_LOCATION_DATA s !! medicine_id = Some data ->
  get_location_history medicine_id s
  = (inr {| LocationHistoryResponse.locations := map LocationEvent.location data;
            LocationHistoryResponse.timestamps := map LocationEvent.timestamp data;
            LocationHistoryResponse.transactionHashes := map LocationEvent.txHash data |},
     s).
Proof. intros H. unfold get_location_history. run. now rewrite H. Qed.

Lemma get_supply_chain_stages_at medicine_id s stages :
  BLOCKCHAIN_STAGES_DATA s !! medicine_id = Some stages ->
  get_supply_chain_stages medicine_id s = (inr (map stage_with_names stages), s).
Proof. intros H. unfold get_supply_chain_stages. run. now rewrite H. Qed.

Lemma get_temperature_history_at medicine_id s data :
  BLOCKCHAIN_TEMPERATURE_DATA s !! medicine_id = Some data ->
  get_temperature_history medicine_id s
  = (inr {| TemperatureHistoryResponse.temperatures := map Reading.temperature data;
            TemperatureHistoryResponse.timestamps := map Reading.timestamp data;
            TemperatureHistoryResponse.transactionHashes := map Reading.txHash data |},
     s).
Proof. intros H. unfold get_temperature_history. run. now rewrite H. Qed.

(** X3.  After a manufacture request that was accepted, the location
    history of the new id is the single entry "Manufacturing Plant A" at
    the time of the request, and its timeline is the single stage
    MANUFACTURED, owned by the manufacturer and formatted
    "Manufactured": whatever the two tables held under that id before is
    replaced. *)
Theorem created_medicine_starts_its_histories fromtimestamp now medicine s :
  fromtimestamp (MedicineCreate.expiryDate medicine) = inr tt ->
  exists r s' locations stages stage,
    create_medicine fromtimestamp now medicine s = (inr r, s')
    /\ get_location_history (MedicineResponse.id r) s' = (inr locations, s')
    /\ LocationHistoryResponse.locations locations = ["Manufacturing Plant A"]
    /\ LocationHistoryResponse.timestamps locations = [now]
    /\ get_supply_chain_stages (MedicineResponse.id r) s' = (inr stages, s')
    /\ stages = [stage]
    /\ SupplyChainStage.stage stage = "MANUFACTURED"
    /\ SupplyChainStage.owner stage = manufacturer_address
    /\ SupplyChainStage.timestamp stage = now
    /\ SupplyChainStage.stageFormatted stage = Some "Manufactured"
    /\ SupplyChainStage.txHash stage = MedicineResponse.blockchainTxHash r.
Proof.
  intros Hts.
  destruct (create_medicine_accepted _ now _ s Hts)
    as (r & s' & nm & E & -> & _ & Hid & _ & _ & _ & Hloc & Hst & Htx).
  assert (Hl : BLOCKCHAIN_LOCATION_DATA s' !! Medicine.id nm
               = Some [located "Manufacturing Plant A" now
                         ("0xloc" +:+ format_05d (next_id s))])
    by (rewrite Hloc, Hid; apply lookup_insert_eq).
  assert (Hs : BLOCKCHAIN_STAGES_DATA s' !! Medicine.id nm
               = Some [staged MANUFACTURED "Manufacturing Plant A" manufacturer_address
                         NoNames now ("0x" +:+ format_040x (next_id s))])
    by (rewrite Hst, Hid; apply lookup_insert_eq).
  eexists _, s', _, _, _. split; [exact E|].
  change (MedicineResponse.id (MedicineResponse_of nm)) with (Medicine.id nm).
  rewrite (get_location_history_at _ _ _ Hl), (get_supply_chain_stages_at _ _ _ Hs).
  repeat split. simpl. now rewrite Htx.
Qed.

Lemma created_medicine_starts_its_histories_witness :
  Examples.fromtimestamp_utc (MedicineCreate.expiryDate Examples.aspirin_request) = inr tt
  /\ exists r s' locations,
       create_medicine Examples.fromtimestamp_utc 1700000000 Examples.aspirin_request
         Examples.store0 = (inr r, s')
       /\ get_location_history (MedicineResponse.id r) s' = (inr locations, s')
       /\ LocationHistoryResponse.locations locations = ["Manufacturing Plant A"]
       /\ LocationHistoryResponse.timestamps locations = [1700000000].
Proof.
  split; [reflexivity|].
  destruct (created_medicine_starts_its_histories Examples.fromtimestamp_utc 1700000000
              Examples.aspirin_request Examples.store0 eq_refl)
    as (r & s' & locations & _ & _ & E & Hl & Hloc & Hts & _).
  exists r, s', locations. auto.
Defined.

(** *** Writes that fail, and what a write leaves alone *)

Lemma update_temperature_missing now medicine_id temp_update s :
  lookup_medicine medicine_id s = None ->
  update_temperature now medicine_id temp_update s
  = (inl (transaction_failed not_found), s).
Proof. intros Hm. unfold update_temperature. run. rewrite Hm. reflexivity. Qed.

Lemma update_location_missing now medicine_id location_update s :
  lookup_medicine medicine_id s = None ->
  update_location now medicine_id location_update s
  = (inl (transaction_failed not_found), s).
Proof. intros Hm. unfold update_location. run. rewrite Hm. reflexivity. Qed.

Lemma mark_medicine_expired_missing medicine_id s :
  lookup_medicine medicine_id s = None ->
  mark_medicine_expired medicine_id s = (inl (transaction_failed not_found), s).
Proof. intros Hm. unfold mark_medicine_expired. run. rewrite Hm. reflexivity. Qed.

Lemma recall_medicine_missing medicine_id reason s :
  lookup_medicine medicine_id s = None ->
  recall_medicine medicine_id reason s = (inl (transaction_failed not_found), s).
Proof. intros Hm. unfold recall_medicine. run. rewrite Hm. reflexivity. Qed.

(** X4.  A request to a writing route that is not answered 200 is
    answered 400, and the store is then exactly as it was: no route
    fails after it has changed something. *)
Theorem failed_write_changes_nothing fromtimestamp r s :
  answer_status fromtimestamp r s <> 200 ->
  answer_status fromtimestamp r s = 400 /\ serve fromtimestamp r s = s.
Proof.
  destruct r as [now c|t1 t2 i tr|now i u|now i u|i|i reason]; simpl.
  - destruct (fromtimestamp (MedicineCreate.expiryDate c)) as [e|[]] eqn:E.
    + rewrite (create_medicine_rejected _ now _ s _ E). simpl. auto.
    + destruct (create_medicine_accepted _ now _ s E) as (r & s' & nm & -> & _).
      simpl. congruence.
  - destruct (lookup_medicine i s) as [m|] eqn:E.
    + destruct (transfer_medicine_found t1 t2 i tr s m E) as (r & s' & -> & _).
      simpl. congruence.
    + rewrite (transfer_medicine_missing t1 t2 i tr s E). simpl. auto.
  - destruct (lookup_medicine i s) as [m|] eqn:E.
    + destruct (Medicine.temperatureSensitive m) eqn:Es.
      * destruct (update_temperature_accepted now i u s m E Es) as (r & s' & -> & _).
        simpl. congruence.
      * rewrite (update_temperature_rejected now i u s m E Es). simpl. auto.
    + rewrite (update_temperature_missing now i u s E). simpl. auto.
  - destruct (lookup_medicine i s) as [m|] eqn:E.
    + destruct (update_location_found now i u s m E) as (r & s' & -> & _).
      simpl. congruence.
    + rewrite (update_location_missing now i u s E). simpl. auto.
  - destruct (lookup_medicine i s) as [m|] eqn:E.
    + destruct (mark_medicine_expired_found i s m E) as (r & s' & -> & _).
      simpl. congruence.
    + rewrite (mark_medicine_expired_missing i s E). simpl. auto.
  - destruct (lookup_medicine i s) as [m|] eqn:E.
    + destruct (recall_medicine_found i reason s m E) as (r & s' & -> & _).
      simpl. congruence.
    + rewrite (recall_medicine_missing i reason s E). simpl. auto.
Qed.

Lemma failed_write_changes_nothing_witness :
  answer_status Examples.fromtimestamp_utc
    (CreateMedicine 1700000000 Examples.far_request) Examples.store0 <> 200
  /\ answer_status Examples.fromtimestamp_utc
       (CreateMedicine 1700000000 Examples.far_request) Examples.store0 = 400
  /\ serve Examples.fromtimestamp_utc
       (CreateMedicine 1700000000 Examples.far_request) Examples.store0 = Examples.store0.
Proof.
  assert (H : answer_status Examples.fromtimestamp_utc
                (CreateMedicine 1700000000 Examples.far_request) Examples.store0 <> 200)
    by (vm_compute; discriminate).
  split; [exact H|].
  exact (failed_write_changes_nothing Examples.fromtimestamp_utc
           (CreateMedicine 1700000000 Examples.far_request) Examples.store0 H).
Defined.

(** X5.  On an id that is not stored, each of the five routes that write
    to a medicine answers 400, not 404: the 404 it raises is caught by
    its own handler and quoted in the detail of the 400; the store is
    unchanged. *)
Theorem writes_on_missing_id_answer_400
    s medicine_id t1 t2 transfer now temp_update location_update reason :
  lookup_medicine medicine_id s = None ->
  let missing :=
    HTTPException 400 "Blockchain transaction failed: 404: Medicine not found on blockchain" in
  transfer_medicine t1 t2 medicine_id transfer s = (inl missing, s)
  /\ update_temperature now medicine_id temp_update s = (inl missing, s)
  /\ update_location now medicine_id location_update s = (inl missing, s)
  /\ mark_medicine_expired medicine_id s = (inl missing, s)
  /\ recall_medicine medicine_id reason s = (inl missing, s).
Proof.
  intros H missing.
  rewrite (transfer_medicine_missing _ _ _ _ _ H), (update_temperature_missing _ _ _ _ H),
    (update_location_missing _ _ _ _ H), (mark_medicine_expired_missing _ _ H),
    (recall_medicine_missing _ _ _ H).
  repeat split.
Qed.

Lemma writes_on_missing_id_answer_400_witness :
  lookup_medicine 9999 Examples.store0 = None
  /\ http_status (fst (transfer_medicine 1700000100 1700000200 9999
                         Examples.to_distributor Examples.store0)) = 400
  /\ snd (mark_medicine_expired 9999 Examples.store0) = Examples.store0.
Proof.
  destruct (writes_on_missing_id_answer_400 Examples.store0 9999 1700000100 1700000200
              Examples.to_distributor 1700000300 Examples.six_degrees
              Examples.at_the_dock "contaminated" eq_refl)
    as (Ht & _ & _ & He & _).
  split; [reflexivity|]. rewrite Ht, He. split; reflexivity.
Defined.

Lemma find_append {A} (p : A -> bool) (l l' : list A) :
  find p (l ++ l') = match find p l with Some x => Some x | None => find p l' end.
Proof.
  induction l as [|a l IH]; simpl; [reflexivity|]. destruct (p a); [reflexivity|exact IH].
Qed.

Lemma find_mutate_first_ne medicine_id j f l :
  (forall m, Medicine.id (f m) = Medicine.id m) ->
  medicine_id <> j ->
  find (fun m => Medicine.id m =? j) (mutate_first medicine_id f l)
  = find (fun m => Medicine.id m =? j) l.
Proof.
  intros Hid Hne. induction l as [|a l IH]; simpl; [reflexivity|].
  destruct (Medicine.id a =? medicine_id) eqn:E; simpl.
  - rewrite Hid. apply Z.eqb_eq in E.
    destruct (Medicine.id a =? j) eqn:Ej; [|reflexivity].
    apply Z.eqb_eq in Ej. congruence.
  - destruct (Medicine.id a =? j); [reflexivity|exact IH].
Qed.

(** X6.  A request to a writing route leaves every other id alone: the
    medicine found under an id that the request does not address, and
    the temperature, location and stage entries under that id, are
    after the request what they were before it. *)
Theorem writes_leave_other_ids_alone fromtimestamp r s j :
  addressed r s <> j ->
  lookup_medicine j (serve fromtimestamp r s) = lookup_medicine j s
  /\ BLOCKCHAIN_TEMPERATURE_DATA (serve fromtimestamp r s) !! j
     = BLOCKCHAIN_TEMPERATURE_DATA s !! j
  /\ BLOCKCHAIN_LOCATION_DATA (serve fromtimestamp r s) !! j
     = BLOCKCHAIN_LOCATION_DATA s !! j
  /\ BLOCKCHAIN_STAGES_DATA (serve fromtimestamp r s) !! j
     = BLOCKCHAIN_STAGES_DATA s !! j.
Proof.
  destruct r as [now c|t1 t2 i tr|now i u|now i u|i|i reason]; simpl; intros Hne.
  - destruct (fromtimestamp (MedicineCreate.expiryDate c)) as [e|[]] eqn:E.
    + rewrite (create_medicine_rejected _ now _ s _ E). simpl. auto.
    + destruct (create_medicine_accepted _ now _ s E)
        as (r & s' & nm & -> & _ & _ & Hid & _ & Hmeds & Htemp & Hloc & Hst & _).
      simpl. rewrite Htemp, Hloc, Hst, !lookup_insert_ne by exact Hne.
      repeat split. unfold lookup_medicine. rewrite Hmeds, find_append.
      destruct (find _ (BLOCKCHAIN_MEDICINES s)); [reflexivity|].
      simpl. rewrite Hid. apply Z.eqb_neq in Hne. now rewrite Hne.
  - unfold transfer_medicine. run.
    destruct (lookup_medicine i s); simpl; [|auto].
    rewrite !lookup_append_at_ne by exact Hne. repeat split.
    unfold lookup_medicine. simpl. now apply find_mutate_first_ne.
  - unfold update_temperature. run.
    destruct (lookup_medicine i s) as [m|]; simpl; [|auto].
    destruct (Medicine.temperatureSensitive m); simpl; [|auto].
    rewrite lookup_append_at_ne by exact Hne. auto.
  - unfold update_location. run.
    destruct (lookup_medicine i s); simpl; [|auto].
    rewrite lookup_append_at_ne by exact Hne. auto.
  - unfold mark_medicine_expired. run.
    destruct (lookup_medicine i s); simpl; [|auto].
    repeat split. unfold lookup_medicine. simpl. now apply find_mutate_first_ne.
  - unfold recall_medicine. run.
    destruct (lookup_medicine i s); simpl; [|auto].
    repeat split. unfold lookup_medicine. simpl. now apply find_mutate_first_ne.
Qed.

Lemma writes_leave_other_ids_alone_witness :
  addressed (TransferMedicine 1700000100 1700000200 1 Examples.to_distributor)
    Examples.store0 <> 2
  /\ lookup_medicine 2
       (serve Examples.fromtimestamp_utc
          (TransferMedicine 1700000100 1700000200 1 Examples.to_distributor)
          Examples.store0)
     = Some Examples.insulin.
Proof.
  assert (H : addressed (TransferMedicine 1700000100 1700000200 1 Examples.to_distributor)
                Examples.store0 <> 2) by (simpl; lia).
  split; [exact H|].
  destruct (writes_leave_other_ids_alone Examples.fromtimestamp_utc _ _ _ H) as [-> _].
  reflexivity.
Defined.

(** *** What a write adds to the histories *)

Lemma get_temperature_history_default medicine_id s :
  get_temperature_history medicine_id s
  = (inr (let data := default [] (BLOCKCHAIN_TEMPERATURE_DATA s !! medicine_id) in
          {| TemperatureHistoryResponse.temperatures := map Reading.temperature data;
             TemperatureHistoryResponse.timestamps := map Reading.timestamp data;
             TemperatureHistoryResponse.transactionHashes := map Reading.txHash data |}),
     s).
Proof.
  unfold get_temperature_history. run.
  destruct (BLOCKCHAIN_TEMPERATURE_DATA s !! medicine_id); reflexivity.
Qed.

Lemma get_location_history_default medicine_id s :
  get_location_history medicine_id s
  = (inr (let data := default [] (BLOCKCHAIN_LOCATION_DATA s !! medicine_id) in
          {| LocationHistoryResponse.locations := map LocationEvent.location data;
             LocationHistoryResponse.timestamps := map LocationEvent.timestamp data;
             LocationHistoryResponse.transactionHashes := map LocationEvent.txHash data |}),
     s).
Proof.
  unfold get_location_history. run.
  destruct (BLOCKCHAIN_LOCATION_DATA s !! medicine_id); reflexivity.
Qed.

Lemma get_supply_chain_stages_default medicine_id s :
  get_supply_chain_stages medicine_id s
  = (inr (map stage_with_names (default [] (BLOCKCHAIN_STAGES_DATA s !! medicine_id))), s).
Proof.
  unfold get_supply_chain_stages. run.
  destruct (BLOCKCHAIN_STAGES_DATA s !! medicine_id); reflexivity.
Qed.

(** X7.  A temperature update on a stored, temperature sensitive
    medicine is answered with success, and the temperature history of
    the id read after it is the history read before it followed by one
    entry: the reading, the time of the request and the transaction
    hash of the answer. *)
Theorem update_temperature_then_history now medicine_id temp_update s m :
  lookup_medicine medicine_id s = Some m ->
  Medicine.temperatureSensitive m = true ->
  exists resp s' before after,
    update_temperature now medicine_id temp_update s = (inr resp, s')
    /\ UpdateResult.success resp = true
    /\ get_temperature_history medicine_id s = (inr before, s)
    /\ get_temperature_history medicine_id s' = (inr after, s')
    /\ TemperatureHistoryResponse.temperatures after
       = (TemperatureHistoryResponse.temperatures before
          ++ [TemperatureUpdate.temperature temp_update])%list
    /\ TemperatureHistoryResponse.timestamps after
       = (TemperatureHistoryResponse.timestamps before ++ [now])%list
    /\ TemperatureHistoryResponse.transactionHashes after
       = (TemperatureHistoryResponse.transactionHashes before
          ++ [UpdateResult.transaction_hash resp])%list.
Proof.
  intros Hm Hs. unfold update_temperature. run. rewrite Hm. simpl. rewrite Hs. simpl.
  eexists _, _, _, _. split; [reflexivity|]. split; [reflexivity|].
  split; [apply get_temperature_history_default|].
  split; [apply get_temperature_history_default|].
  simpl. rewrite lookup_append_at. simpl. rewrite !map_app. repeat split.
Qed.

Lemma update_temperature_then_history_witness :
  lookup_medicine 2 Examples.store0 = Some Examples.insulin
  /\ Medicine.temperatureSensitive Examples.insulin = true
  /\ exists resp s' after,
       update_temperature 1700000100 2 Examples.six_degrees Examples.store0 = (inr resp, s')
       /\ get_temperature_history 2 s' = (inr after, s')
       /\ TemperatureHistoryResponse.temperatures after = ["5°C"; "6°C"; "4°C"; "7°C"; "6C"]
       /\ List.last (TemperatureHistoryResponse.timestamps after) 0 = 1700000100.
Proof.
  destruct (update_temperature_then_history 1700000100 2 Examples.six_degrees
              Examples.store0 Examples.insulin eq_refl eq_refl)
    as (resp & s' & before & after & E & _ & Eb & Ea & Ht & Hts & _).
  split; [reflexivity|]. split; [reflexivity|].
  exists resp, s', after. split; [exact E|]. split; [exact Ea|].
  rewrite Ht, Hts.
  rewrite get_temperature_history_default in Eb. injection Eb as <-.
  split; reflexivity.
Defined.

Lemma new_stage_formatted now medicine_id transfer :
  SupplyChainStage.stageFormatted (stage_with_names (new_stage now medicine_id transfer))
  = Some (format_status_with_recipient
            (MedicineTransfer.newStatus transfer)
            (MedicineTransfer.toAddress transfer)
            (MedicineTransfer.recipientName transfer)).
Proof.
  destruct transfer as [to st loc rn].
  unfold stage_with_names, new_stage, format_status_with_recipient. cbn [Stage.stage
    Stage.owner Stage.recipientName Stage.pharmacyName Stage.distributorName
    Stage.patientName SupplyChainStage.stageFormatted MedicineTransfer.newStatus
    MedicineTransfer.toAddress MedicineTransfer.recipientName MedicineTransfer.location].
  f_equal.
  generalize (dict_get PHARMACY_NAMES to "Pharmacy") as dp.
  generalize (dict_get DISTRIBUTOR_NAMES to "Distributor") as dd.
  generalize (dict_get PATIENT_NAMES to "Patient") as dq.
  intros dq dd dp.
  destruct st; destruct rn as [[|c r]|]; cbn; try reflexivity;
    first [destruct dp as [|c' r']; reflexivity
          |destruct dd as [|c' r']; reflexivity
          |destruct dq as [|c' r']; reflexivity].
Qed.

(** X8.  A transfer of a stored medicine appends one entry to the
    location history of the id, with the location of the request, and
    one stage to its timeline: the new status, the new owner, the
    location, the transaction hash of the answer, and as formatted
    stage the status formatted with the new owner and the recipient
    name of the request.  The temperature data are not touched. *)
Theorem transfer_is_recorded t1 t2 medicine_id transfer s m :
  lookup_medicine medicine_id s = Some m ->
  exists resp s' locations locations' stages stage,
    transfer_medicine t1 t2 medicine_id transfer s = (inr resp, s')
    /\ get_location_history medicine_id s = (inr locations, s)
    /\ get_location_history medicine_id s' = (inr locations', s')
    /\ LocationHistoryResponse.locations locations'
       = (LocationHistoryResponse.locations locations
          ++ [MedicineTransfer.location transfer])%list
    /\ LocationHistoryResponse.timestamps locations'
       = (LocationHistoryResponse.timestamps locations ++ [t2])%list
    /\ get_supply_chain_stages medicine_id s = (inr stages, s)
    /\ get_supply_chain_stages medicine_id s' = (inr (stages ++ [stage])%list, s')
    /\ SupplyChainStage.stage stage = MedicineStatus_value (MedicineTransfer.newStatus transfer)
    /\ SupplyChainStage.owner stage = MedicineTransfer.toAddress transfer
    /\ SupplyChainStage.location stage = MedicineTransfer.location transfer
    /\ SupplyChainStage.timestamp stage = t1
    /\ SupplyChainStage.txHash stage = TransferResult.transaction_hash resp
    /\ SupplyChainStage.stageFormatted stage
       = Some (format_status_with_recipient
                 (MedicineTransfer.newStatus transfer)
                 (MedicineTransfer.toAddress transfer)
                 (MedicineTransfer.recipientName transfer))
    /\ BLOCKCHAIN_TEMPERATURE_DATA s' = BLOCKCHAIN_TEMPERATURE_DATA s.
Proof.
  intros Hm. unfold transfer_medicine. run. rewrite Hm. simpl.
  eexists _, _, _, _, _, (stage_with_names (new_stage t1 medicine_id transfer)).
  split; [reflexivity|].
  split; [apply get_location_history_default|].
  split; [apply get_location_history_default|].
  cbn [BLOCKCHAIN_LOCATION_DATA BLOCKCHAIN_STAGES_DATA BLOCKCHAIN_TEMPERATURE_DATA
       set_location_data set_stages_data set_medicines].
  rewrite lookup_append_at. cbn zeta.
  cbn [LocationHistoryResponse.locations LocationHistoryResponse.timestamps
       from_option default id].
  rewrite !map_app. split; [reflexivity|]. split; [reflexivity|].
  split; [apply get_supply_chain_stages_default|].
  split.
  { rewrite get_supply_chain_stages_default.
    cbn [BLOCKCHAIN_STAGES_DATA set_location_data set_stages_data].
    rewrite lookup_append_at. cbn [default from_option id]. now rewrite map_app. }
  split; [reflexivity|]. split; [reflexivity|]. split; [reflexivity|].
  split; [reflexivity|]. split; [reflexivity|].
  split; [apply new_stage_formatted|reflexivity].
Qed.

Lemma transfer_is_recorded_witness :
  lookup_medicine 3 Examples.store0
  = Some (nth 2 (seed_medicines Examples.days) Examples.aspirin)
  /\ exists resp s' stages stage,
       transfer_medicine 1700000100 1700000200 3 Examples.to_corner_pharmacy Examples.store0
       = (inr resp, s')
       /\ get_supply_chain_stages 3 s' = (inr (stages ++ [stage])%list, s')
       /\ length stages = 5%nat
       /\ SupplyChainStage.stage stage = "SHIPPED_TO_PHARMACY"
       /\ SupplyChainStage.stageFormatted stage = Some "Shipped to Corner Pharmacy".
Proof.
  destruct (transfer_is_recorded 1700000100 1700000200 3 Examples.to_corner_pharmacy
              Examples.store0 _ eq_refl)
    as (resp & s' & l & l' & stages & stage & E & _ & _ & _ & _ & Es & Es' & Hst & _ & _
        & _ & _ & Hf & _).
  split; [reflexivity|].
  exists resp, s', stages, stage. split; [exact E|]. split; [exact Es'|].
  rewrite get_supply_chain_stages_default in Es. injection Es as <-.
  split; [reflexivity|]. split; [exact Hst|exact Hf].
Defined.

(** *** Reading by batch *)

(** X9.  The medicines that [GET /medicines/batch/{batch_number}]
    returns are those of [GET /medicines] whose batch number is the one
    asked for, in the same order; a batch that no active medicine has is
    answered with an empty list, not with an error. *)
Theorem batch_is_a_filter_of_all batch_number s :
  exists all batch,
    get_medicines s = (inr all, s)
    /\ get_medicines_by_batch batch_number s = (inr batch, s)
    /\ BatchResponse.batchNumber batch = batch_number
    /\ BatchResponse.medicines batch
       = List.filter (fun r => String.eqb (MedicineResponse.batchNumber r) batch_number) all.
Proof.
  unfold get_medicines, get_medicines_by_batch. run.
  eexists _, _. split; [reflexivity|]. split; [reflexivity|]. split; [reflexivity|].
  simpl. induction (BLOCKCHAIN_MEDICINES s) as [|a l IH]; simpl; [reflexivity|].
  destruct (Medicine.isActive a); simpl.
  - rewrite andb_true_r.
    destruct (String.eqb (Medicine.batchNumber a) batch_number); simpl; now rewrite IH.
  - rewrite andb_false_r. exact IH.
Qed.

(** *** What no route does *)

Lemma mutate_first_In medicine_id f l m :
  In m l -> exists m', In m' (mutate_first medicine_id f l) /\ (m' = m \/ m' = f m).
Proof.
  induction l as [|a l IH]; simpl; [tauto|].
  intros [<-|Hin].
  - destruct (Medicine.id a =? medicine_id); eexists; split; [left; reflexivity| |left; reflexivity|]; auto.
  - destruct (Medicine.id a =? medicine_id).
    + exists m. split; [now right|now left].
    + destruct (IH Hin) as (m' & Hm' & H). exists m'. split; [now right|exact H].
Qed.

Lemma same_core_refl m : same_core m m.
Proof. unfold same_core. tauto. Qed.

(** X10.  No route removes a medicine or rewrites what identifies it:
    every medicine of the store is, after any request to a writing
    route, still in the store with the same id, name, batch number,
    manufacture and expiry dates, manufacturer, temperature threshold
    and sensitivity and the same [isActive]; and the number of
    medicines grows by at most one. *)
Theorem routes_keep_every_medicine fromtimestamp r s m :
  In m (BLOCKCHAIN_MEDICINES s) ->
  (exists m', In m' (BLOCKCHAIN_MEDICINES (serve fromtimestamp r s)) /\ same_core m m')
  /\ (length (BLOCKCHAIN_MEDICINES s)
      <= length (BLOCKCHAIN_MEDICINES (serve fromtimestamp r s))
      <= S (length (BLOCKCHAIN_MEDICINES s)))%nat.
Proof.
  intros Hin.
  assert (Hmut : forall i f,
             (forall x, same_core x (f x)) ->
             (exists m', In m' (mutate_first i f (BLOCKCHAIN_MEDICINES s)) /\ same_core m m')
             /\ (length (BLOCKCHAIN_MEDICINES s)
                 <= length (mutate_first i f (BLOCKCHAIN_MEDICINES s))
                 <= S (length (BLOCKCHAIN_MEDICINES s)))%nat).
  { intros i f Hf. split; [|rewrite mutate_first_length; lia].
    destruct (mutate_first_In i f _ _ Hin) as (m' & Hm' & [->| ->]);
      eexists; split; eauto using same_core_refl. }
  assert (Hsame : (exists m', In m' (BLOCKCHAIN_MEDICINES s) /\ same_core m m')
                  /\ (length (BLOCKCHAIN_MEDICINES s) <= length (BLOCKCHAIN_MEDICINES s)
                      <= S (length (BLOCKCHAIN_MEDICINES s)))%nat).
  { split; [exists m; split; [exact Hin|apply same_core_refl]|lia]. }
  destruct r as [now c|t1 t2 i tr|now i u|now i u|i|i reason]; simpl.
  - destruct (fromtimestamp (MedicineCreate.expiryDate c)) as [e|[]] eqn:E.
    + rewrite (create_medicine_rejected _ now _ s _ E). exact Hsame.
    + destruct (create_medicine_accepted _ now _ s E)
        as (r & s' & nm & -> & _ & _ & _ & _ & Hmeds & _).
      simpl. rewrite Hmeds, length_app. simpl. split; [|lia].
      exists m. split; [apply in_or_app; now left|apply same_core_refl].
  - unfold transfer_medicine. run.
    destruct (lookup_medicine i s); simpl; [|exact Hsame].
    apply Hmut. intros x. unfold same_core. simpl. tauto.
  - unfold update_temperature. run.
    destruct (lookup_medicine i s) as [x|]; simpl; [|exact Hsame].
    destruct (Medicine.temperatureSensitive x); simpl; exact Hsame.
  - unfold update_location. run.
    destruct (lookup_medicine i s); simpl; exact Hsame.
  - unfold mark_medicine_expired. run.
    destruct (lookup_medicine i s); simpl; [|exact Hsame].
    apply Hmut. intros x. unfold same_core. simpl. tauto.
  - unfold recall_medicine. run.
    destruct (lookup_medicine i s); simpl; [|exact Hsame].
    apply Hmut. intros x. unfold same_core. simpl. tauto.
Qed.

Lemma routes_keep_every_medicine_witness :
  In Examples.vitamin_d (BLOCKCHAIN_MEDICINES Examples.store0)
  /\ exists m',
       In m' (BLOCKCHAIN_MEDICINES
                (serve Examples.fromtimestamp_utc (RecallMedicine 5 "contaminated")
                   Examples.store0))
       /\ same_core Examples.vitamin_d m'.
Proof.
  assert (H : In Examples.vitamin_d (BLOCKCHAIN_MEDICINES Examples.store0))
    by (do 4 right; left; reflexivity).
  split; [exact H|].
  exact (proj1 (routes_keep_every_medicine Examples.fromtimestamp_utc
                  (RecallMedicine 5 "contaminated") Examples.store0 _ H)).
Defined.

End MoreRoutes.

(** ** Further properties of the client *)

Section MoreLedger.

Import BlockchainService.

Context {N : Type} (web3 : Web3 N).

(** *** Decoding a medicine *)

(** X11.  [get_medicine] decodes the tuple of the contract exactly when
    it has at least 16 positions and position 7 is the string value of a
    member of [MedicineStatus]; the dict then holds positions 0 to 6, 8,
    9 and 15, and the status as that string.  Positions 10 to 14 and
    what follows position 15 are ignored. *)
Theorem decode_medicine_spec t d :
  decode_medicine web3 t = inr d
  <-> exists v0 v1 v2 v3 v4 v5 v6 st v8 v9 v10 v11 v12 v13 v14 v15 rest,
        t = v0 :: v1 :: v2 :: v3 :: v4 :: v5 :: v6 :: PyStr (MedicineStatus_value st)
            :: v8 :: v9 :: v10 :: v11 :: v12 :: v13 :: v14 :: v15 :: rest
        /\ d = {| MedicineData.id := v0;
                  MedicineData.name := v1;
                  MedicineData.batchNumber := v2;
                  MedicineData.manufactureDate := v3;
                  MedicineData.expiryDate := v4;
                  MedicineData.manufacturer := v5;
                  MedicineData.currentOwner := v6;
                  MedicineData.status := MedicineStatus_value st;
                  MedicineData.temperatureThreshold := v8;
                  MedicineData.temperatureSensitive := v9;
                  MedicineData.isActive := v15 |}.
Proof.
  split; [apply decode_medicine_inv|].
  intros (v0 & v1 & v2 & v3 & v4 & v5 & v6 & st & v8 & v9 & v10 & v11 & v12 & v13 & v14
          & v15 & rest & -> & ->).
  unfold decode_medicine. cbn [index nth_error and_then ok].
  rewrite MedicineStatus_of_value_value. reflexivity.
Qed.

Lemma fetched_numbered n medicine_id :
  (forall t, call_getMedicine web3 n medicine_id = inr t ->
             exists k, nth_error t 7 = Some (PyInt k)) ->
  fetched web3 n medicine_id = None.
Proof.
  intros H. unfold fetched.
  destruct (call_getMedicine web3 n medicine_id) as [e|t]; [reflexivity|].
  destruct (decode_medicine web3 t) as [e|d] eqn:E; [reflexivity|].
  destruct (H t eq_refl) as [k Hk].
  apply decode_medicine_inv in E.
  destruct E as (v0 & v1 & v2 & v3 & v4 & v5 & v6 & st & v8 & v9 & v10 & v11 & v12 & v13
                 & v14 & v15 & rest & -> & _).
  discriminate.
Qed.

(** X12.  When the contract returns the status of every medicine as a
    number at position 7, as an ABI encodes an enumeration, each fetch
    of [get_all_medicines] ends in the [ValueError] of
    [MedicineStatus(...)], which [get_medicine] turns into [None]: on a
    live connection the method returns the empty list, whatever the
    count. *)
Theorem numbered_status_hides_every_medicine self w total :
  live web3 self w = true ->
  call_getTotalMedicines web3 (node w) = inr total ->
  (forall i t, call_getMedicine web3 (node w) (PyInt i) = inr t ->
               exists k, nth_error t 7 = Some (PyInt k)) ->
  (forall i, fst (get_medicine web3 self (PyInt i) w) = inr None)
  /\ fst (get_all_medicines web3 self w) = inr [].
Proof.
  intros H Htotal Hnum. split.
  - intros i. rewrite (get_medicine_up web3 _ _ _ H). simpl.
    now rewrite (fetched_numbered _ _ (Hnum i)).
  - unfold get_all_medicines. rewrite (guarded_up web3 _ _ _ H).
    unfold bind at 1. unfold query at 1. simpl. rewrite Htotal.
    rewrite (fetch_each_up web3) by exact H. simpl. f_equal.
    unfold range1. generalize (seqZ 1 total). intros l.
    induction l as [|a l IH]; [reflexivity|].
    cbn [map]. rewrite omap_cons, (fetched_numbered _ _ (Hnum a)). exact IH.
Qed.

(** *** Reading by batch *)

(** X13.  On a live connection [get_medicines_by_batch] asks the index
    for the ids of the batch and then fetches them one after the other
    in the order of the index, keeping the records whose fetch returned
    one: the result is never longer than the index. *)
Theorem get_medicines_by_batch_follows_the_index self w batch_number medicine_ids :
  live web3 self w = true ->
  call_getMedicinesByBatch web3 (node w) batch_number = inr medicine_ids ->
  exists medicines w',
    get_medicines_by_batch web3 self batch_number w = (inr medicines, w')
    /\ node w' = node w
    /\ trace w'
       = (trace w ++ [rpc_is_connected; rpc_call (getMedicinesByBatch batch_number)]
            ++ flat_map (fun i => [rpc_is_connected; rpc_call (getMedicine (PyInt i))])
                 medicine_ids)%list
    /\ medicines = omap (fun i => fetched web3 (node w) (PyInt i)) medicine_ids
    /\ (length medicines <= length medicine_ids)%nat.
Proof.
  intros H Hids. unfold get_medicines_by_batch. rewrite (guarded_up web3 _ _ _ H).
  unfold bind at 1. unfold query at 1. simpl. rewrite Hids.
  rewrite (fetch_each_up web3) by exact H. simpl.
  eexists _, _. split; [reflexivity|]. simpl. split; [reflexivity|].
  assert (Hmap : omap (fetched web3 (node w)) (map PyInt medicine_ids)
                 = omap (fun i => fetched web3 (node w) (PyInt i)) medicine_ids).
  { clear Hids. induction medicine_ids as [|a l IH]; [reflexivity|].
    cbn [map]. rewrite !omap_cons, IH. reflexivity. }
  split.
  { rewrite <- !List.app_assoc. simpl. do 3 f_equal.
    clear. induction medicine_ids as [|a l IH]; simpl; congruence. }
  rewrite Hmap. split; [reflexivity|]. apply omap_length_le.
Qed.

(** *** Accounts and transactions *)

Lemma get_account_up self w account accounts :
  live web3 self w = true ->
  eth_accounts web3 (node w) = inr (account :: accounts) ->
  get_account web3 self w = (inr account, extended w [rpc_is_connected; rpc_accounts]).
Proof.
  intros H Hacc. unfold get_account. rewrite (guarded_up web3 _ _ _ H).
  unfold bind, query, ret, extended, logged. simpl. rewrite Hacc.
  now rewrite <- List.app_assoc.
Qed.

Lemma get_account_empty self w :
  live web3 self w = true ->
  eth_accounts web3 (node w) = inr [] ->
  get_account web3 self w
  = (inl (PyExc IndexError "list index out of range"),
     extended w [rpc_is_connected; rpc_accounts]).
Proof.
  intros H Hacc. unfold get_account. rewrite (guarded_up web3 _ _ _ H).
  unfold bind, query, throw, extended, logged. simpl. rewrite Hacc.
  now rewrite <- List.app_assoc.
Qed.

Lemma transact_up self account f gas w gas_price nonce signed_txn tx_hash n1 receipt n2 :
  eth_gas_price web3 (node w) = inr gas_price ->
  eth_get_transaction_count web3 (node w) account = inr nonce ->
  eth_account_sign_transaction web3
    {| Transaction.function := f;
       Transaction.from := account;
       Transaction.gas := gas;
       Transaction.gasPrice := gas_price;
       Transaction.nonce := nonce |}
    (default "" (PRIVATE_KEY self)) = inr signed_txn ->
  eth_send_raw_transaction web3 (node w) signed_txn = (inr tx_hash, n1) ->
  eth_wait_for_transaction_receipt web3 n1 tx_hash = (inr receipt, n2) ->
  transact web3 self account f gas w
  = (inr receipt,
     {| node := n2;
        trace := (trace w ++
                  [rpc_gas_price; rpc_get_transaction_count account;
                   rpc_send_raw_transaction signed_txn;
                   rpc_wait_for_transaction_receipt tx_hash])%list |}).
Proof.
  intros Hgas Hnonce Hsign Hsend Hwait. unfold transact.
  unfold bind, query, command, lift. cbn [node logged trace].
  rewrite Hgas, Hnonce, Hsign, Hsend. cbn [node trace]. rewrite Hwait.
  now rewrite <- !List.app_assoc.
Qed.

Lemma raises_bind_left {A B} (c : M (World N) A) (k : A -> M (World N) B) w :
  raises (c w) -> raises (bind c k w).
Proof. intros (e & w' & H). exists e, w'. unfold bind. now rewrite H. Qed.

Lemma raises_bind_right {A B} (c : M (World N) A) (k : A -> M (World N) B) w :
  (forall a w1, raises (k a w1)) -> raises (bind c k w).
Proof.
  intros Hk. unfold bind. destruct (c w) as [[e|a] w1].
  - now exists e, w1.
  - apply Hk.
Qed.

Lemma transact_refused self account f gas w :
  (forall n signed_txn, exists e n',
      eth_send_raw_transaction web3 n signed_txn = (inl e, n'))
  \/ (forall n tx_hash, exists e n',
         eth_wait_for_transaction_receipt web3 n tx_hash = (inl e, n')) ->
  raises (transact web3 self account f gas w).
Proof.
  intros Hrefuse. unfold transact, bind, query, command, lift, raises. cbn [node logged trace].
  destruct (eth_gas_price web3 (node w)) as [e|gp]; [eauto|].
  destruct (eth_get_transaction_count web3 (node w) account) as [e|nn]; [eauto|].
  destruct (eth_account_sign_transaction web3 _ _) as [e|st]; [eauto|].
  destruct (eth_send_raw_transaction web3 (node w) st) as [[e|h] n1] eqn:Es; [eauto|].
  cbn [node trace].
  destruct (eth_wait_for_transaction_receipt web3 n1 h) as [[e|rc] n2] eqn:Ew; [eauto|].
  destruct Hrefuse as [Hs|Hw].
  - destruct (Hs (node w) st) as (e & n' & H). rewrite Es in H. discriminate.
  - destruct (Hw n1 h) as (e & n' & H). rewrite Ew in H. discriminate.
Qed.

(** X14.  When the node refuses every transaction it is sent, or no
    receipt ever arrives, none of the six writing methods returns a
    value: each of them raises.  No method answers a refusal of the
    ledger with a result of its own. *)
Theorem refused_transaction_is_never_a_success
    self w name batch_number expiry_date temperature_threshold temperature_sensitive
    medicine_id to_address new_status location temperature reason :
  (forall n signed_txn, exists e n',
      eth_send_raw_transaction web3 n signed_txn = (inl e, n'))
  \/ (forall n tx_hash, exists e n',
         eth_wait_for_transaction_receipt web3 n tx_hash = (inl e, n')) ->
  raises (manufacture_medicine web3 self name batch_number expiry_date
            temperature_threshold temperature_sensitive w)
  /\ raises (transfer_medicine web3 self medicine_id to_address new_status location w)
  /\ raises (update_temperature web3 self medicine_id temperature w)
  /\ raises (update_location web3 self medicine_id location w)
  /\ raises (mark_as_expired web3 self medicine_id w)
  /\ raises (recall_medicine web3 self medicine_id reason w).
Proof.
  intros Hrefuse.
  assert (Ht : forall {A} account f gas (k : Receipt.t -> M (World N) A) w1,
             raises (bind (transact web3 self account f gas) k w1)).
  { intros A account f gas k w1. apply raises_bind_left. now apply transact_refused. }
  repeat split.
  - unfold manufacture_medicine. apply raises_bind_right. intros _ w1.
    apply raises_bind_right. intros account w2. apply Ht.
  - unfold transfer_medicine. apply raises_bind_right. intros _ w1.
    apply raises_bind_right. intros account w2.
    apply raises_bind_right. intros status w3. apply Ht.
  - unfold update_temperature. apply raises_bind_right. intros _ w1.
    apply raises_bind_right. intros account w2. apply Ht.
  - unfold update_location. apply raises_bind_right. intros _ w1.
    apply raises_bind_right. intros account w2. apply Ht.
  - unfold mark_as_expired. apply raises_bind_right. intros _ w1.
    apply raises_bind_right. intros account w2. apply Ht.
  - unfold recall_medicine. apply raises_bind_right. intros _ w1.
    apply raises_bind_right. intros account w2. apply Ht.
Qed.

Lemma MedicineStatus_getattr_unknown text name :
  (forall st, MedicineStatus_value st <> name) ->
  MedicineStatus_getattr text name
  = inl (PyExc AttributeError (text (no_value_attribute "MedicineStatus" name))).
Proof.
  intros H. unfold MedicineStatus_getattr.
  destruct (find (fun m => String.eqb (MedicineStatus_value m) name) MedicineStatus_members)
    as [m|] eqn:E; [|reflexivity].
  apply find_some in E. destruct E as [_ E]. apply String.eqb_eq in E.
  now destruct (H m).
Qed.

Lemma MedicineStatus_getattr_value text st :
  MedicineStatus_getattr text (MedicineStatus_value st) = inr st.
Proof. destruct st; reflexivity. Qed.

(** X15.  A transfer whose status is not the name of a member of
    [MedicineStatus] raises [AttributeError], with the message that the
    library has for that name, after the account was read and before
    anything else is asked of the node: no gas price, no nonce, no
    transaction; the ledger is as it was. *)
Theorem transfer_with_unknown_status_sends_nothing
    self w medicine_id to_address new_status location account accounts :
  live web3 self w = true ->
  eth_accounts web3 (node w) = inr (account :: accounts) ->
  (forall st, MedicineStatus_value st <> new_status) ->
  transfer_medicine web3 self medicine_id to_address new_status location w
  = (inl (PyExc AttributeError
            (exception_text web3 (no_value_attribute "MedicineStatus" new_status))),
     extended w [rpc_is_connected; rpc_is_connected; rpc_accounts]).
Proof.
  intros H Hacc Hname. unfold transfer_medicine. rewrite (guarded_up web3 _ _ _ H).
  unfold bind at 1. rewrite get_account_up with (account := account) (accounts := accounts)
    by assumption.
  unfold bind, lift. rewrite (MedicineStatus_getattr_unknown _ _ Hname).
  unfold extended, logged. simpl. now rewrite <- List.app_assoc.
Qed.

(** X16.  A transfer with the name of a member as status sends that very
    string to the contract, in a transaction from the first account of
    the node with gas 500000 and the gas price and nonce read for it,
    and returns the transaction hash of the receipt; it does not look
    at what else the receipt holds. *)
Theorem transfer_medicine_sends_the_status_name
    self w medicine_id to_address st location
    account accounts gas_price nonce signed_txn tx_hash n1 receipt n2 :
  live web3 self w = true ->
  eth_accounts web3 (node w) = inr (account :: accounts) ->
  eth_gas_price web3 (node w) = inr gas_price ->
  eth_get_transaction_count web3 (node w) account = inr nonce ->
  eth_account_sign_transaction web3
    {| Transaction.function :=
         transferMedicine medicine_id to_address (MedicineStatus_value st) location;
       Transaction.from := account;
       Transaction.gas := 500000;
       Transaction.gasPrice := gas_price;
       Transaction.nonce := nonce |}
    (default "" (PRIVATE_KEY self)) = inr signed_txn ->
  eth_send_raw_transaction web3 (node w) signed_txn = (inr tx_hash, n1) ->
  eth_wait_for_transaction_receipt web3 n1 tx_hash = (inr receipt, n2) ->
  transfer_medicine web3 self medicine_id to_address (MedicineStatus_value st) location w
  = (inr (Receipt.transactionHash receipt),
     {| node := n2;
        trace := (trace w ++
                  [rpc_is_connected; rpc_is_connected; rpc_accounts; rpc_gas_price;
                   rpc_get_transaction_count account;
                   rpc_send_raw_transaction signed_txn;
                   rpc_wait_for_transaction_receipt tx_hash])%list |}).
Proof.
  intros H Hacc Hgas Hnonce Hsign Hsend Hwait.
  unfold transfer_medicine. rewrite (guarded_up web3 _ _ _ H).
  unfold bind at 1. rewrite get_account_up with (account := account) (accounts := accounts)
    by assumption.
  unfold bind at 1. unfold lift at 1. rewrite MedicineStatus_getattr_value.
  unfold bind.
  rewrite (transact_up self account _ 500000 _ gas_price nonce signed_txn tx_hash n1
             receipt n2) by assumption.
  unfold ret, extended, logged. simpl. now rewrite <- !List.app_assoc.
Qed.

(** X17.  The four other writing methods send their contract function
    with gas 200000, from the first account of the node and with the
    gas price and nonce read for it, and return the transaction hash of
    the receipt, whatever else the receipt holds. *)
Theorem write_returns_the_receipt_hash
    self w medicine_id temperature location reason run f
    account accounts gas_price nonce signed_txn tx_hash n1 receipt n2 :
  In (run, f)
     [ (update_temperature web3 self medicine_id temperature w,
        updateTemperature medicine_id temperature);
       (update_location web3 self medicine_id location w,
        updateLocation medicine_id location);
       (mark_as_expired web3 self medicine_id w, markAsExpired medicine_id);
       (recall_medicine web3 self medicine_id reason w,
        recallMedicine medicine_id reason) ] ->
  live web3 self w = true ->
  eth_accounts web3 (node w) = inr (account :: accounts) ->
  eth_gas_price web3 (node w) = inr gas_price ->
  eth_get_transaction_count web3 (node w) account = inr nonce ->
  eth_account_sign_transaction web3
    {| Transaction.function := f;
       Transaction.from := account;
       Transaction.gas := 200000;
       Transaction.gasPrice := gas_price;
       Transaction.nonce := nonce |}
    (default "" (PRIVATE_KEY self)) = inr signed_txn ->
  eth_send_raw_transaction web3 (node w) signed_txn = (inr tx_hash, n1) ->
  eth_wait_for_transaction_receipt web3 n1 tx_hash = (inr receipt, n2) ->
  run = (inr (Receipt.transactionHash receipt),
         {| node := n2;
            trace := (trace w ++
                      [rpc_is_connected; rpc_is_connected; rpc_accounts; rpc_gas_price;
                       rpc_get_transaction_count account;
                       rpc_send_raw_transaction signed_txn;
                       rpc_wait_for_transaction_receipt tx_hash])%list |}).
Proof.
  intros Hin H Hacc Hgas Hnonce Hsign Hsend Hwait.
  assert (Hrun : bind (require_connected web3 self)
                   (fun _ => bind (get_account web3 self)
                      (fun account => bind (transact web3 self account f 200000)
                         (fun receipt => ret (Receipt.transactionHash receipt)))) w
                 = (inr (Receipt.transactionHash receipt),
                    {| node := n2;
                       trace := (trace w ++
                                 [rpc_is_connected; rpc_is_connected; rpc_accounts;
                                  rpc_gas_price; rpc_get_transaction_count account;
                                  rpc_send_raw_transaction signed_txn;
                                  rpc_wait_for_transaction_receipt tx_hash])%list |})).
  { rewrite (guarded_up web3 _ _ _ H).
    unfold bind at 1. rewrite get_account_up with (account := account) (accounts := accounts)
      by assumption.
    unfold bind.
    rewrite (transact_up self account f 200000 _ gas_price nonce signed_txn tx_hash n1
               receipt n2) by assumption.
    unfold ret, extended, logged. simpl. now rewrite <- !List.app_assoc. }
  simpl in Hin.
  destruct Hin as [[= <- <-]|[[= <- <-]|[[= <- <-]|[[= <- <-]|[]]]]]; exact Hrun.
Qed.

(** X18.  On a node without accounts every writing method raises
    [IndexError] when it takes the first account: the node was asked
    for its liveness, twice, and for its accounts, and nothing was
    built, signed or sent. *)
Theorem no_account_no_transaction
    self w name batch_number expiry_date temperature_threshold temperature_sensitive
    medicine_id to_address new_status location temperature reason :
  live web3 self w = true ->
  eth_accounts web3 (node w) = inr [] ->
  let stopped {A} (r : result A * World N) :=
    r = (inl (PyExc IndexError "list index out of range"),
         extended w [rpc_is_connected; rpc_is_connected; rpc_accounts]) in
  stopped (manufacture_medicine web3 self name batch_number expiry_date
             temperature_threshold temperature_sensitive w)
  /\ stopped (transfer_medicine web3 self medicine_id to_address new_status location w)
  /\ stopped (update_temperature web3 self medicine_id temperature w)
  /\ stopped (update_location web3 self medicine_id location w)
  /\ stopped (mark_as_expired web3 self medicine_id w)
  /\ stopped (recall_medicine web3 self medicine_id reason w).
Proof.
  intros H Hacc stopped. unfold stopped.
  assert (Hstop : forall {A} (k : string -> M (World N) A),
             bind (require_connected web3 self)
               (fun _ => bind (get_account web3 self) k) w
             = (inl (PyExc IndexError "list index out of range"),
                extended w [rpc_is_connected; rpc_is_connected; rpc_accounts])).
  { intros A k. rewrite (guarded_up web3 _ _ _ H). unfold bind.
    rewrite get_account_empty by assumption.
    unfold extended, logged. simpl. now rewrite <- List.app_assoc. }
  repeat split; apply Hstop.
Qed.

(** *** Roles *)

Lemma Role_of_value_other text v :
  (forall r, v <> PyStr (Role_value r)) ->
  Role_of_value text v = inl (PyExc ValueError (text (not_a_member "Role" v))).
Proof.
  intros H. unfold Role_of_value.
  destruct v as [n|s|b]; try reflexivity.
  destruct (find (fun m => String.eqb (Role_value m) s) Role_members) as [m|] eqn:E;
    [|reflexivity].
  apply find_some in E. destruct E as [_ E]. apply String.eqb_eq in E.
  destruct (H m). now rewrite E.
Qed.

(** X19.  On a live connection [get_user_role] makes one call.  It
    returns the name of the role when the contract returns it as the
    string value of a member of [Role]; a failure of the call, and the
    [ValueError] of [Role(...)] for any other value - a number, a
    boolean, any other string - are not caught: they reach the
    caller. *)
Theorem get_user_role_outcomes self w address :
  live web3 self w = true ->
  let asked := extended w [rpc_is_connected; rpc_call (getRole address)] in
  (forall e, call_getRole web3 (node w) address = inl e ->
             get_user_role web3 self address w = (inl e, asked))
  /\ (forall r, call_getRole web3 (node w) address = inr (PyStr (Role_value r)) ->
                get_user_role web3 self address w = (inr (Role_value r), asked))
  /\ (forall v, call_getRole web3 (node w) address = inr v ->
                (forall r, v <> PyStr (Role_value r)) ->
                get_user_role web3 self address w
                = (inl (PyExc ValueError (exception_text web3 (not_a_member "Role" v))),
                   asked)).
Proof.
  intros H asked. unfold asked, get_user_role. rewrite (guarded_up web3 _ _ _ H).
  unfold bind, query, lift, ret, extended, logged. simpl.
  rewrite <- List.app_assoc. simpl.
  repeat split.
  - intros e ->. reflexivity.
  - intros r ->. destruct r; reflexivity.
  - intros v -> Hv. now rewrite (Role_of_value_other _ _ Hv).
Qed.

(** *** Construction *)

Lemma subscript_falsy text v k :
  truthy v = false -> exists e, subscript text v k = inl e.
Proof.
  destruct v as [|b|n|r|s|l|items]; simpl; intros Hv; try (eexists; reflexivity).
  destruct items; [|discriminate]. eexists; reflexivity.
Qed.

Lemma descriptor_entries_falsy d :
  truthy d = false -> exists e, descriptor_entries web3 d = inl e.
Proof.
  intros Hd. unfold descriptor_entries. cbn [subscripts].
  destruct (subscript_falsy (exception_text web3) d Key.contracts Hd) as [e ->].
  eexists; reflexivity.
Qed.

Lemma descriptor_entries_inv d :
  descriptor_entries web3 d = inr tt ->
  exists abi1 abi2 address1 address2,
    subscripts (exception_text web3) d [Key.contracts; Key.AccessControl; Key.abi]
    = inr abi1
    /\ subscripts (exception_text web3) d [Key.contracts; Key.MedicineSupplyChain; Key.abi]
       = inr abi2
    /\ subscripts (exception_text web3) d [Key.contracts; Key.AccessControl; Key.address]
       = inr address1
    /\ subscripts (exception_text web3) d
         [Key.contracts; Key.MedicineSupplyChain; Key.address]
       = inr address2.
Proof.
  unfold descriptor_entries.
  destruct (subscripts _ d [Key.contracts; Key.AccessControl; Key.abi]) as [e|abi1];
    [discriminate|].
  destruct (subscripts _ d [Key.contracts; Key.MedicineSupplyChain; Key.abi]) as [e|abi2];
    [discriminate|].
  destruct (subscripts _ d [Key.contracts; Key.AccessControl; Key.address]) as [e|a1];
    [discriminate|].
  destruct (subscripts _ d [Key.contracts; Key.MedicineSupplyChain; Key.address])
    as [e|a2]; [discriminate|].
  intros _. now exists abi1, abi2, a1, a2.
Qed.

(** X20.  [__init__] raises only what reading the descriptor raises
    other than a missing file.  When the file is missing the node is not
    asked, [w3] stays unbound and the descriptor is [None].  When the
    file was read, whatever value it holds is kept as the descriptor,
    [w3] is bound and the node is asked once whether it answers; the
    service is [connected] exactly when the node answered, the
    descriptor holds the ABI and the address of both contracts and the
    contracts could be bound.  So a file that holds [null], or any
    other falsy value, gives a service with [w3] bound that is not
    connected. *)
Theorem init_outcomes file private_key w :
  match init web3 file private_key w with
  | (inl e, w') => file = load_raises e /\ w' = w
  | (inr self, w') =>
      PRIVATE_KEY self = private_key
      /\ (forall e, file <> load_raises e)
      /\ (file = file_not_found ->
          w' = w /\ w3 self = false /\ connected self = false
          /\ deployment_info self = JNull)
      /\ (forall d binding,
            file = loaded d binding ->
            w' = extended w [rpc_is_connected]
            /\ w3 self = true
            /\ deployment_info self = d
            /\ (connected self = true
                <-> w3_is_connected web3 (node w) = true
                    /\ descriptor_entries web3 d = inr tt
                    /\ binding = inr tt)
            /\ (connected self = true ->
                exists abi1 abi2 address1 address2,
                  subscripts (exception_text web3) d
                    [Key.contracts; Key.AccessControl; Key.abi] = inr abi1
                  /\ subscripts (exception_text web3) d
                       [Key.contracts; Key.MedicineSupplyChain; Key.abi] = inr abi2
                  /\ subscripts (exception_text web3) d
                       [Key.contracts; Key.AccessControl; Key.address] = inr address1
                  /\ subscripts (exception_text web3) d
                       [Key.contracts; Key.MedicineSupplyChain; Key.address]
                     = inr address2)
            /\ (truthy d = false -> connected self = false))
  end.
Proof.
  destruct file as [|e|d binding].
  - cbn. split; [reflexivity|]. split; [discriminate|]. split; [auto|].
    intros d binding. discriminate.
  - cbn. auto.
  - unfold init, bind, query, ret, extended. cbn [node trace logged].
    assert (Hcase :
      forall c : bool,
        (c = true <-> w3_is_connected web3 (node w) = true
                      /\ descriptor_entries web3 d = inr tt /\ binding = inr tt) ->
        let self := {| w3 := true; connected := c;
                       deployment_info := d; PRIVATE_KEY := private_key |} in
        PRIVATE_KEY self = private_key
        /\ (forall e, loaded d binding <> load_raises e)
        /\ (loaded d binding = file_not_found ->
            {| node := node w; trace := (trace w ++ [rpc_is_connected])%list |} = w
            /\ w3 self = false /\ connected self = false /\ deployment_info self = JNull)
        /\ (forall d0 binding0,
              loaded d binding = loaded d0 binding0 ->
              {| node := node w; trace := (trace w ++ [rpc_is_connected])%list |}
              = {| node := node w; trace := (trace w ++ [rpc_is_connected])%list |}
              /\ w3 self = true
              /\ deployment_info self = d0
              /\ (connected self = true
                  <-> w3_is_connected web3 (node w) = true
                      /\ descriptor_entries web3 d0 = inr tt
                      /\ binding0 = inr tt)
              /\ (connected self = true ->
                  exists abi1 abi2 address1 address2,
                    subscripts (exception_text web3) d0
                      [Key.contracts; Key.AccessControl; Key.abi] = inr abi1
                    /\ subscripts (exception_text web3) d0
                         [Key.contracts; Key.MedicineSupplyChain; Key.abi] = inr abi2
                    /\ subscripts (exception_text web3) d0
                         [Key.contracts; Key.AccessControl; Key.address] = inr address1
                    /\ subscripts (exception_text web3) d0
                         [Key.contracts; Key.MedicineSupplyChain; Key.address]
                       = inr address2)
              /\ (truthy d0 = false -> connected self = false))).
    { intros c Hc self. split; [reflexivity|]. split; [discriminate|].
      split; [discriminate|]. intros d0 binding0 [= <- <-].
      split; [reflexivity|]. split; [reflexivity|]. split; [reflexivity|].
      split; [exact Hc|]. split.
      - intros Hon. apply Hc in Hon. destruct Hon as (_ & Hentries & _).
        now apply descriptor_entries_inv.
      - intros Hd. destruct c; [|reflexivity].
        destruct (proj1 Hc eq_refl) as (_ & Hentries & _).
        destruct (descriptor_entries_falsy d Hd) as [e He]. congruence. }
    destruct (w3_is_connected web3 (node w)) eqn:Hup; cbn [negb].
    + unfold and_then.
      destruct (descriptor_entries web3 d) as [e|[]] eqn:Hentries.
      * apply Hcase. split; [discriminate|]. intros (_ & H & _). discriminate.
      * destruct binding as [e|[]].
        -- apply Hcase. split; [discriminate|]. intros (_ & _ & H). discriminate.
        -- apply Hcase. tauto.
    + apply Hcase. split; [discriminate|]. intros (H & _). discriminate.
Qed.

(** X21.  A service constructed without a descriptor answers no
    request: [get_contract_info] raises "Deployment info not
    available", every other method raises "Not connected to
    blockchain", and none of them asks the node anything, not even for
    its liveness. *)
Theorem service_without_descriptor_is_inert
    private_key w self w0 name batch_number expiry_date temperature_threshold
    temperature_sensitive medicine_id (id : Z) to_address new_status location
    temperature reason address :
  init web3 file_not_found private_key w0 = (inr self, w) ->
  let down {A} (r : result A * World N) := r = (inl not_connected, w) in
  w = w0
  /\ get_contract_info web3 self w
     = (inl (PyExc Exception "Deployment info not available"), w)
  /\ down (get_account web3 self w)
  /\ down (manufacture_medicine web3 self name batch_number expiry_date
             temperature_threshold temperature_sensitive w)
  /\ down (get_medicine web3 self medicine_id w)
  /\ down (get_all_medicines web3 self w)
  /\ down (get_medicines_by_batch web3 self batch_number w)
  /\ down (transfer_medicine web3 self id to_address new_status location w)
  /\ down (update_temperature web3 self id temperature w)
  /\ down (update_location web3 self id location w)
  /\ down (get_temperature_history web3 self id w)
  /\ down (get_location_history web3 self id w)
  /\ down (mark_as_expired web3 self id w)
  /\ down (recall_medicine web3 self id reason w)
  /\ down (get_user_role web3 self address w).
Proof.
  unfold init, ret. intros [= <- <-].
  split; [reflexivity|]. split; [reflexivity|].
  assert (Hdown : live web3 {| w3 := false; connected := false;
                               deployment_info := JNull;
                               PRIVATE_KEY := private_key |} w0 = false) by reflexivity.
  repeat split; exact (guarded_down web3 _ _ _ Hdown).
Qed.

End MoreLedger.

(** *** The statements above on the scripted nodes *)

Section MoreScripted.

Import BlockchainService.

Lemma numbered_status_hides_every_medicine_witness :
  live Examples.scripted Examples.service_up (Examples.world_of Examples.node_numbered) = true
  /\ call_getTotalMedicines Examples.scripted Examples.node_numbered = inr 2
  /\ call_getMedicine Examples.scripted Examples.node_numbered (PyInt 2)
     = inr (Examples.numbered_tuple 2)
  /\ fst (get_all_medicines Examples.scripted Examples.service_up
            (Examples.world_of Examples.node_numbered)) = inr [].
Proof.
  assert (Hnum : forall i t,
             call_getMedicine Examples.scripted
               (node (Examples.world_of Examples.node_numbered)) (PyInt i) = inr t ->
             exists k, nth_error t 7 = Some (PyInt k)).
  { intros i t H.
    cbn [call_getMedicine Examples.scripted node Examples.world_of Examples.records
         Examples.node_numbered Examples.record_of] in H.
    unfold ok, raise in H.
    destruct (1 =? i); [injection H as <-; eexists; reflexivity|].
    destruct (2 =? i); [injection H as <-; eexists; reflexivity|discriminate]. }
  split; [reflexivity|]. split; [reflexivity|]. split; [reflexivity|].
  exact (proj2 (numbered_status_hides_every_medicine Examples.scripted Examples.service_up
                  (Examples.world_of Examples.node_numbered) 2 eq_refl eq_refl Hnum)).
Defined.

Lemma get_medicines_by_batch_follows_the_index_witness :
  live Examples.indexed Examples.service_up (Examples.world_of Examples.node_two) = true
  /\ call_getMedicinesByBatch Examples.indexed Examples.node_two "ASP001" = inr [1; 2]
  /\ exists medicines w',
       get_medicines_by_batch Examples.indexed Examples.service_up "ASP001"
         (Examples.world_of Examples.node_two) = (inr medicines, w')
       /\ trace w'
          = [rpc_is_connected; rpc_call (getMedicinesByBatch "ASP001");
             rpc_is_connected; rpc_call (getMedicine (PyInt 1));
             rpc_is_connected; rpc_call (getMedicine (PyInt 2))]
       /\ (length medicines <= 2)%nat.
Proof.
  destruct (get_medicines_by_batch_follows_the_index Examples.indexed Examples.service_up
              (Examples.world_of Examples.node_two) "ASP001" [1; 2] eq_refl eq_refl)
    as (medicines & w' & E & _ & Htrace & _ & Hle).
  split; [reflexivity|]. split; [reflexivity|].
  exists medicines, w'. split; [exact E|]. split; [exact Htrace|exact Hle].
Defined.

Lemma refused_transaction_is_never_a_success_witness :
  (forall n signed_txn, exists e n',
      eth_send_raw_transaction Examples.refusing n signed_txn = (inl e, n'))
  /\ raises (mark_as_expired Examples.refusing Examples.service_up 1
               (Examples.world_of Examples.node_two))
  /\ raises (transfer_medicine Examples.refusing Examples.service_up 1
               Main.distributor_address "SHIPPED_TO_DISTRIBUTOR" "Loading Dock A"
               (Examples.world_of Examples.node_two)).
Proof.
  assert (H : forall n signed_txn, exists e n',
             eth_send_raw_transaction Examples.refusing n signed_txn = (inl e, n'))
    by (intros n st; eexists _, _; reflexivity).
  destruct (refused_transaction_is_never_a_success Examples.refusing Examples.service_up
              (Examples.world_of Examples.node_two)
              "Aspirin" "ASP001" 1731536000 25 false 1
              Main.distributor_address "SHIPPED_TO_DISTRIBUTOR" "Loading Dock A"
              "6C" "contaminated" (or_introl H))
    as (_ & Ht & _ & _ & He & _).
  split; [exact H|]. split; [exact He|exact Ht].
Defined.

Lemma transfer_with_unknown_status_sends_nothing_witness :
  live Examples.scripted Examples.service_up (Examples.world_of Examples.node_two) = true
  /\ (forall st, MedicineStatus_value st <> "LOST")
  /\ transfer_medicine Examples.scripted Examples.service_up 1
       Main.distributor_address "LOST" "Loading Dock A"
       (Examples.world_of Examples.node_two)
     = (inl (PyExc AttributeError
               (Examples.text (no_value_attribute "MedicineStatus" "LOST"))),
        {| node := Examples.node_two;
           trace := [rpc_is_connected; rpc_is_connected; rpc_accounts] |}).
Proof.
  assert (H : forall st, MedicineStatus_value st <> "LOST")
    by (intros st; destruct st; discriminate).
  split; [reflexivity|]. split; [exact H|].
  exact (transfer_with_unknown_status_sends_nothing Examples.scripted Examples.service_up
           (Examples.world_of Examples.node_two) 1 Main.distributor_address "LOST"
           "Loading Dock A" Main.manufacturer_address [] eq_refl eq_refl H).
Defined.

Lemma transfer_medicine_sends_the_status_name_witness :
  live Examples.scripted Examples.service_up (Examples.world_of Examples.node_two) = true
  /\ exists signed_txn,
       Transaction.function (SignedTransaction.rawTransaction signed_txn)
       = transferMedicine 1 Main.distributor_address "SHIPPED_TO_DISTRIBUTOR" "Loading Dock A"
       /\ transfer_medicine Examples.scripted Examples.service_up 1
            Main.distributor_address "SHIPPED_TO_DISTRIBUTOR" "Loading Dock A"
            (Examples.world_of Examples.node_two)
          = (inr "0xabc",
             {| node := Examples.node_two;
                trace := [rpc_is_connected; rpc_is_connected; rpc_accounts; rpc_gas_price;
                          rpc_get_transaction_count Main.manufacturer_address;
                          rpc_send_raw_transaction signed_txn;
                          rpc_wait_for_transaction_receipt "0xabc"] |}).
Proof.
  split; [reflexivity|]. eexists. split; [|
    exact (transfer_medicine_sends_the_status_name Examples.scripted Examples.service_up
             (Examples.world_of Examples.node_two) 1 Main.distributor_address
             SHIPPED_TO_DISTRIBUTOR "Loading Dock A" Main.manufacturer_address []
             1000000000 0 _ "0xabc" Examples.node_two (Examples.manufactured_receipt 1)
             Examples.node_two eq_refl eq_refl eq_refl eq_refl eq_refl eq_refl eq_refl)].
  reflexivity.
Defined.

Lemma write_returns_the_receipt_hash_witness :
  live Examples.scripted Examples.service_up (Examples.world_of Examples.node_two) = true
  /\ fst (recall_medicine Examples.scripted Examples.service_up 1 "contaminated"
            (Examples.world_of Examples.node_two)) = inr "0xabc".
Proof.
  split; [reflexivity|].
  rewrite (write_returns_the_receipt_hash Examples.scripted Examples.service_up
             (Examples.world_of Examples.node_two) 1 "6C" "Loading Dock A" "contaminated"
             (recall_medicine Examples.scripted Examples.service_up 1 "contaminated"
                (Examples.world_of Examples.node_two))
             (recallMedicine 1 "contaminated")
             Main.manufacturer_address [] 1000000000 0 _ "0xabc" Examples.node_two
             (Examples.manufactured_receipt 1) Examples.node_two
             (or_intror (or_intror (or_intror (or_introl eq_refl))))
             eq_refl eq_refl eq_refl eq_refl eq_refl eq_refl eq_refl).
  reflexivity.
Defined.

Lemma no_account_no_transaction_witness :
  live Examples.scripted Examples.service_up
    (Examples.world_of Examples.node_without_accounts) = true
  /\ eth_accounts Examples.scripted Examples.node_without_accounts = inr []
  /\ update_location Examples.scripted Examples.service_up 1 "Loading Dock A"
       (Examples.world_of Examples.node_without_accounts)
     = (inl (PyExc IndexError "list index out of range"),
        {| node := Examples.node_without_accounts;
           trace := [rpc_is_connected; rpc_is_connected; rpc_accounts] |}).
Proof.
  destruct (no_account_no_transaction Examples.scripted Examples.service_up
              (Examples.world_of Examples.node_without_accounts)
              "Aspirin" "ASP001" 1731536000 25 false 1
              Main.distributor_address "SHIPPED_TO_DISTRIBUTOR" "Loading Dock A"
              "6C" "contaminated" eq_refl eq_refl)
    as (_ & _ & _ & Hl & _).
  split; [reflexivity|]. split; [reflexivity|exact Hl].
Defined.

Lemma get_user_role_outcomes_witness :
  live Examples.scripted Examples.service_up (Examples.world_of Examples.node_two) = true
  /\ get_user_role Examples.scripted Examples.service_up Main.manufacturer_address
       (Examples.world_of Examples.node_two)
     = (inr "NONE",
        {| node := Examples.node_two;
           trace := [rpc_is_connected; rpc_call (getRole Main.manufacturer_address)] |})
  /\ get_user_role Examples.numbering Examples.service_up Main.manufacturer_address
       (Examples.world_of Examples.node_two)
     = (inl (PyExc ValueError (Examples.text (not_a_member "Role" (PyInt 1)))),
        {| node := Examples.node_two;
           trace := [rpc_is_connected; rpc_call (getRole Main.manufacturer_address)] |}).
Proof.
  destruct (get_user_role_outcomes Examples.scripted Examples.service_up
              (Examples.world_of Examples.node_two) Main.manufacturer_address eq_refl)
    as (_ & Hrole & _).
  destruct (get_user_role_outcomes Examples.numbering Examples.service_up
              (Examples.world_of Examples.node_two) Main.manufacturer_address eq_refl)
    as (_ & _ & Hother).
  split; [reflexivity|]. split; [exact (Hrole NONE eq_refl)|].
  apply (Hother (PyInt 1) eq_refl). intros r. discriminate.
Defined.

(** A file that holds [null] on a live node: the node is asked, [w3] is
    bound, the descriptor is [None] and the service is not connected.
    The complete descriptor on the same node: the service is
    connected. *)
Lemma init_outcomes_witness :
  init Examples.scripted (loaded JNull (inr tt)) (Some "0xkey")
    (Examples.world_of Examples.node_two)
  = (inr {| w3 := true; connected := false; deployment_info := JNull;
            PRIVATE_KEY := Some "0xkey" |},
     {| node := Examples.node_two; trace := [rpc_is_connected] |})
  /\ init Examples.scripted (loaded Examples.deployment (inr tt)) (Some "0xkey")
       (Examples.world_of Examples.node_two)
     = (inr Examples.service_up,
        {| node := Examples.node_two; trace := [rpc_is_connected] |}).
Proof.
  pose proof (init_outcomes Examples.scripted (loaded JNull (inr tt)) (Some "0xkey")
                (Examples.world_of Examples.node_two)) as Hnull.
  pose proof (init_outcomes Examples.scripted (loaded Examples.deployment (inr tt))
                (Some "0xkey") (Examples.world_of Examples.node_two)) as Hfull.
  destruct (init Examples.scripted (loaded JNull (inr tt)) (Some "0xkey")
              (Examples.world_of Examples.node_two)) as [[e|self] w'] eqn:E1;
    [destruct Hnull; discriminate|].
  destruct (init Examples.scripted (loaded Examples.deployment (inr tt)) (Some "0xkey")
              (Examples.world_of Examples.node_two)) as [[e|self'] w''] eqn:E2;
    [destruct Hfull; discriminate|].
  destruct Hnull as (Hkey & _ & _ & Hnull).
  destruct (Hnull _ _ eq_refl) as (-> & Hw3 & Hd & _ & _ & Hoff).
  destruct Hfull as (Hkey' & _ & _ & Hfull).
  destruct (Hfull _ _ eq_refl) as (-> & Hw3' & Hd' & Hon & _).
  split.
  - destruct self as [a b c k]. simpl in *. subst. now rewrite (Hoff eq_refl).
  - destruct self' as [a b c k]. simpl in *. subst.
    now rewrite (proj2 Hon (conj eq_refl (conj eq_refl eq_refl))).
Defined.

Lemma service_without_descriptor_is_inert_witness :
  exists self,
    init Examples.scripted file_not_found (Some "0xkey") (Examples.world_of Examples.node_two)
    = (inr self, Examples.world_of Examples.node_two)
    /\ get_all_medicines Examples.scripted self (Examples.world_of Examples.node_two)
       = (inl not_connected, Examples.world_of Examples.node_two)
    /\ http_status (fst (get_contract_info Examples.scripted self
                            (Examples.world_of Examples.node_two))) = 500.
Proof.
  eexists. split; [reflexivity|].
  destruct (service_without_descriptor_is_inert Examples.scripted (Some "0xkey")
              (Examples.world_of Examples.node_two) _ (Examples.world_of Examples.node_two)
              "Aspirin" "ASP001" 1731536000 25 false (PyInt 1) 1
              Main.distributor_address "SHIPPED_TO_DISTRIBUTOR" "Loading Dock A"
              "6C" "contaminated" Main.manufacturer_address eq_refl)
    as (_ & Hinfo & _ & _ & _ & Hall & _).
  split; [exact Hall|]. rewrite Hinfo. reflexivity.
Defined.

End MoreScripted.

Section Counting.

Import Main.

Lemma get_medicines_size_reachable_witness :
  reachable Examples.fromtimestamp_utc Examples.days Examples.store_after_create
  /\ exists rs h,
       get_medicines Examples.store_after_create = (inr rs, Examples.store_after_create)
       /\ health_check Examples.store_after_create = (inr h, Examples.store_after_create)
       /\ Z.of_nat (length rs) = Health.total_medicines h
       /\ Health.total_medicines h = 6.
Proof.
  assert (Hr : reachable Examples.fromtimestamp_utc Examples.days Examples.store_after_create)
    by (apply reachable_serve, reachable_initial).
  destruct (get_medicines_size_reachable _ _ _ Hr) as (rs & h & Er & Eh & Hlen).
  split; [exact Hr|]. exists rs, h. split; [exact Er|]. split; [exact Eh|].
  split; [exact Hlen|]. injection Eh as <-. reflexivity.
Defined.

End Counting.
